(** * Room pairing and relay server: a shallow embedding

    The development follows the room-based Socket.IO server (rooms map,
    register_tv / register_mobile, the five typed relay events, custom
    events, the disconnect handler, the periodic sweeps, the snapshot
    helpers and the room message route) and, in module [V1], the handlers
    of the single-slot server.js.

    Conventions of the embedding
    - A socket is a mutable object shared between the handler that owns it
      and the room slots that refer to it.  The store [sockets] maps the
      socket id to the object's fields, a slot holds the id, and every read
      of [room.tv.connected] goes through the store, so aliasing is kept.
    - Everything a handler sends or asks of the transport is appended to a
      trace of [Action]s, in program order.
    - [disconnect(true)] marks the socket as not connected and is recorded
      in the trace; the 'disconnect' event that the transport then delivers
      to the closed socket is a step of its own ([EvDisconnect]).
    - The clock and Math.random are inputs of a handler run ([Env]).
    - logConnection only writes to the console and is left out; where the
      logged text reads a property of the payload (custom_event) the read,
      which can throw, is kept. *)

From Stdlib Require Import ZArith QArith Qround String Ascii List Bool Lia.
From stdpp Require Import base option strings pretty gmap.
Import ListNotations.

#[local] Set Warnings "-register-all".

Local Open Scope Z_scope.
Local Open Scope string_scope.
Local Open Scope list_scope.

(** ** JavaScript values carried by event payloads

    Payloads arrive JSON-decoded: scalars and plain objects.  Numbers are
    modelled on the integers (an integer prints in plain decimal, which is
    what Number.prototype.toString does below 10^21). *)

Inductive jsval : Type :=
| JUndefined
| JNull
| JBool (b : bool)
| JNum (n : Z)
| JStr (s : string)
| JObj (fields : list (string * jsval)).

(** ToBoolean *)
Definition truthy (v : jsval) : bool :=
  match v with
  | JUndefined | JNull => false
  | JBool b => b
  | JNum n => negb (Z.eqb n 0)
  | JStr s => negb (String.eqb s EmptyString)
  | JObj _ => true
  end.

Definition typeof_number (v : jsval) : bool :=
  match v with JNum _ => true | _ => false end.

Fixpoint own_prop (fields : list (string * jsval)) (k : string) : option jsval :=
  match fields with
  | [] => None
  | (k', v) :: rest => if String.eqb k k' then Some v else own_prop rest k
  end.

(** [data.k]: a TypeError ([None]) on undefined and null, [undefined] for a
    property that is not there.  None of the property names the handlers
    read exists on a prototype. *)
Definition prop (data : jsval) (k : string) : option jsval :=
  match data with
  | JUndefined | JNull => None
  | JObj fields => Some (default JUndefined (own_prop fields k))
  | _ => Some JUndefined
  end.

(** [data?.k] *)
Definition oprop (data : jsval) (k : string) : jsval :=
  default JUndefined (prop data k).

(** [a || b] *)
Definition js_or (a b : jsval) : jsval := if truthy a then a else b.

(** decimal digits, with a leading minus sign below zero *)
Definition decimal (n : Z) : string := pretty n.

(** [v.toString()]; [None] is a TypeError: there is no method on undefined
    and null, and an own "toString" property of a decoded object is never a
    function. *)
Definition toString (v : jsval) : option string :=
  match v with
  | JUndefined | JNull => None
  | JBool true => Some "true"
  | JBool false => Some "false"
  | JNum n => Some (decimal n)
  | JStr s => Some s
  | JObj fields =>
      match own_prop fields "toString" with
      | Some _ => None
      | None => Some "[object Object]"
      end
  end.

(** ** Environment of one handler run *)

Record Env : Type := mkEnv {
  now : Z;               (* new Date(), in milliseconds *)
  random : nat -> Q      (* the i-th result of Math.random() in this run *)
}.

(** ** Room codes *)

Definition chars : string := "ABCDEFGHJKLMNPQRSTUVWXYZ23456789".

(** [s.charAt(i)] for an integral [i]: the empty string out of range *)
Definition charAt (s : string) (i : Z) : string :=
  if Z.ltb i 0 then EmptyString
  else match String.get (Z.to_nat i) s with
       | Some c => String c EmptyString
       | None => EmptyString
       end.

(** Math.floor(Math.random() * chars.length) *)
Definition random_index (r : Q) : Z :=
  Qfloor (r * inject_Z (Z.of_nat (String.length chars))).

Fixpoint generate_loop (env : Env) (k n : nat) (result : string) : string :=
  match n with
  | O => result
  | S n' => generate_loop env (S k) n'
              (String.append result (charAt chars (random_index (random env k))))
  end.

(** generateRoomId, reading Math.random results [k .. k+5] *)
Definition generateRoomId (env : Env) (k : nat) : string :=
  generate_loop env k 6 EmptyString.

(** validateRoomId, on the string the callers pass *)
Definition validateRoomId (roomId : string) : bool :=
  negb (String.eqb roomId EmptyString) && Nat.leb 4 (String.length roomId).


(** ** Outgoing payloads and transport actions *)

Inductive field : Type :=
| FVal (v : jsval)
| FTime (ms : Z)          (* new Date(ms).toISOString() *)
| FExn.                   (* error.message of the exception just caught *)

Definition Payload : Type := list (string * field).

Fixpoint pfield (p : Payload) (k : string) : option field :=
  match p with
  | [] => None
  | (k', v) :: rest => if String.eqb k k' then Some v else pfield rest k
  end.

(** [{ ...p, k: v }] *)
Fixpoint pset (k : string) (v : field) (p : Payload) : Payload :=
  match p with
  | [] => [(k, v)]
  | (k', v') :: rest =>
      if String.eqb k k' then (k, v) :: rest else (k', v') :: pset k v rest
  end.

Inductive Action : Type :=
| Emit (to : string) (event : string) (payload : Payload)
| Join (id : string) (roomId : string)
| Leave (id : string) (roomId : string)
| ForceDisconnect (id : string).       (* socket.disconnect(true) *)

Definition Trace : Type := list Action.

Definition err (message code : string) : Payload :=
  [("message", FVal (JStr message)); ("code", FVal (JStr code))].

(** ** Server state *)

Inductive DeviceType : Type := TV | Mobile.

Definition is_tv (d : option DeviceType) : bool :=
  match d with Some TV => true | _ => false end.
Definition is_mobile (d : option DeviceType) : bool :=
  match d with Some Mobile => true | _ => false end.
Definition deviceType_str (d : option DeviceType) : jsval :=
  match d with
  | Some TV => JStr "tv"
  | Some Mobile => JStr "mobile"
  | None => JUndefined
  end.

Record Socket : Type := mkSocket {
  connected : bool;
  sk_roomId : option string;
  deviceType : option DeviceType;
  deviceName : jsval;
  isHealthy : bool;
  lastPing : option Z;
  lastPong : option Z;
  connectedAt : Z
}.

Record Room : Type := mkRoom {
  tv : option string;
  mobile : option string;
  createdAt : Z
}.

Record Stats : Type := mkStats {
  totalConnections : Z;
  currentConnections : Z;
  activeRooms : Z;
  mobileConnections : Z;
  tvConnections : Z
}.

(** [rooms] is the Map in insertion order, [sockets] the socket objects. *)
Record State : Type := mkState {
  rooms : list (string * Room);
  sockets : gmap string Socket;
  stats : Stats
}.

Definition init : State := mkState [] ∅ (mkStats 0 0 0 0 0).

(** *** The rooms Map *)

Fixpoint rooms_get (k : string) (l : list (string * Room)) : option Room :=
  match l with
  | [] => None
  | (k', r) :: rest => if String.eqb k k' then Some r else rooms_get k rest
  end.

Definition rooms_has (k : string) (l : list (string * Room)) : bool :=
  match rooms_get k l with Some _ => true | None => false end.

(** Map.set: an existing key keeps its place, a new one goes last *)
Fixpoint rooms_set (k : string) (r : Room) (l : list (string * Room))
  : list (string * Room) :=
  match l with
  | [] => [(k, r)]
  | (k', r') :: rest =>
      if String.eqb k k' then (k, r) :: rest else (k', r') :: rooms_set k r rest
  end.

Fixpoint rooms_delete (k : string) (l : list (string * Room))
  : list (string * Room) :=
  match l with
  | [] => []
  | (k', r') :: rest =>
      if String.eqb k k' then rooms_delete k rest
      else (k', r') :: rooms_delete k rest
  end.

Definition rooms_size (l : list (string * Room)) : Z := Z.of_nat (length l).

(** *** Field updates *)

Definition detached (id : string) : Socket :=
  mkSocket false None None JUndefined false None None 0.

(** the object behind a reference *)
Definition sock (st : State) (id : string) : Socket :=
  default (detached id) (sockets st !! id).

Definition with_sockets (st : State) (m : gmap string Socket) : State :=
  mkState (rooms st) m (stats st).
Definition with_rooms (st : State) (l : list (string * Room)) : State :=
  mkState l (sockets st) (stats st).
Definition with_stats (st : State) (s : Stats) : State :=
  mkState (rooms st) (sockets st) s.

Definition set_sock (st : State) (id : string) (s : Socket) : State :=
  with_sockets st (<[id := s]> (sockets st)).

Definition set_connected (b : bool) (s : Socket) : Socket :=
  mkSocket b (sk_roomId s) (deviceType s) (deviceName s) (isHealthy s)
           (lastPing s) (lastPong s) (connectedAt s).

Definition set_registration (roomId : string) (d : DeviceType) (name : jsval)
    (s : Socket) : Socket :=
  mkSocket (connected s) (Some roomId) (Some d) name (isHealthy s)
           (lastPing s) (lastPong s) (connectedAt s).

Definition set_tv (x : option string) (r : Room) : Room :=
  mkRoom x (mobile r) (createdAt r).
Definition set_mobile (x : option string) (r : Room) : Room :=
  mkRoom (tv r) x (createdAt r).

Definition set_totalConnections (z : Z) (s : Stats) : Stats :=
  mkStats z (currentConnections s) (activeRooms s) (mobileConnections s) (tvConnections s).
Definition set_currentConnections (z : Z) (s : Stats) : Stats :=
  mkStats (totalConnections s) z (activeRooms s) (mobileConnections s) (tvConnections s).
Definition set_activeRooms (z : Z) (s : Stats) : Stats :=
  mkStats (totalConnections s) (currentConnections s) z (mobileConnections s) (tvConnections s).
Definition set_mobileConnections (z : Z) (s : Stats) : Stats :=
  mkStats (totalConnections s) (currentConnections s) (activeRooms s) z (tvConnections s).
Definition set_tvConnections (z : Z) (s : Stats) : Stats :=
  mkStats (totalConnections s) (currentConnections s) (activeRooms s) (mobileConnections s) z.

(** [x && x.connected] for a slot *)
Definition live (st : State) (slot : option string) : bool :=
  match slot with
  | Some id => connected (sock st id)
  | None => false
  end.

(** a roomId field as a condition *)
Definition in_room (s : Socket) : bool :=
  match sk_roomId s with
  | Some r => negb (String.eqb r EmptyString)
  | None => false
  end.

(** [socket.disconnect(true)]: nothing on a socket that is not connected *)
Definition force_disconnect (st : State) (id : string) : State * Trace :=
  if connected (sock st id)
  then (set_sock st id (set_connected false (sock st id)), [ForceDisconnect id])
  else (st, []).

(** stats.x = Math.max(0, stats.x - 1) *)
Definition dec0 (z : Z) : Z := Z.max 0 (z - 1).

(** ** cleanupRoom *)

Definition cleanupRoom (st : State) (roomId : string) (reason : string)
  : State * Trace :=
  match rooms_get roomId (rooms st) with
  | None => (st, [])
  | Some room =>
      let notice slot :=
        match slot with
        | Some id =>
            if connected (sock st id)
            then [Leave id roomId;
                  Emit id "room_cleanup" [("reason", FVal (JStr reason))]]
            else []
        | None => []
        end in
      let rooms' := rooms_delete roomId (rooms st) in
      (with_stats (with_rooms st rooms')
                  (set_activeRooms (rooms_size rooms') (stats st)),
       notice (tv room) ++ notice (mobile room))
  end.

(** ** io.on('connection') *)

Definition on_connection (env : Env) (st : State) (sid : string)
  : State * Trace :=
  let s := stats st in
  let s := set_totalConnections (totalConnections s + 1) s in
  let s := set_currentConnections (currentConnections s + 1) s in
  let socket := mkSocket true None None JUndefined true None None (now env) in
  (set_sock (with_stats st s) sid socket,
   [Emit sid "connected"
      [("message", FVal (JStr "Connected to Flutter Presentation Server"));
       ("clientId", FVal (JStr sid));
       ("serverVersion", FVal (JStr "2.2.0"));
       ("timestamp", FTime (now env))]]).

(** ** socket.on('register_tv') *)

(** The room id the handler settles on: the supplied one as a string when
    it is present and passes validateRoomId, a generated one otherwise.
    [None]: toString threw. *)
Definition tv_roomId (env : Env) (data : jsval) : option string :=
  let supplied := oprop data "roomId" in
  match (if truthy supplied then toString supplied
         else Some (generateRoomId env 0)) with
  | None => None
  | Some roomId =>
      if validateRoomId roomId then Some roomId
      else Some (generateRoomId env (if truthy supplied then 0%nat else 6%nat))
  end.

(** "Check if room already has a TV" *)
Definition replace_tv (env : Env) (st : State) (sid roomId : string)
  : State * Trace :=
  match rooms_get roomId (rooms st) with
  | Some existingRoom =>
      if live st (tv existingRoom) then
        match tv existingRoom with
        | Some old =>
            if negb (String.eqb old sid) then
              let '(st1, tr) :=
                if connected (sock st old) then force_disconnect st old
                else (st, []) in
              (with_stats st1
                 (set_tvConnections (dec0 (tvConnections (stats st1))) (stats st1)),
               [Emit old "replaced"
                  [("message", FVal (JStr "New TV connected to this room"));
                   ("timestamp", FTime (now env))];
                Leave old roomId] ++ tr)
            else (st, [])
        | None => (st, [])
        end
      else (st, [])
  | None => (st, [])
  end.

(** "Create or update room" *)
Definition ensure_room (env : Env) (st : State) (roomId : string) : State :=
  if rooms_has roomId (rooms st) then st
  else
    let rooms' := rooms_set roomId (mkRoom None None (now env)) (rooms st) in
    with_stats (with_rooms st rooms')
               (set_activeRooms (rooms_size rooms') (stats st)).

Definition the_room (env : Env) (st : State) (roomId : string) : Room :=
  default (mkRoom None None (now env)) (rooms_get roomId (rooms st)).

Definition register_tv (env : Env) (st : State) (sid : string) (data : jsval)
  : State * Trace :=
  match tv_roomId env data with
  | None =>
      (st, [Emit sid "error"
              [("message", FVal (JStr "TV registration failed"));
               ("code", FVal (JStr "TV_REGISTRATION_ERROR"));
               ("details", FExn)]])
  | Some roomId =>
      let '(st1, tr1) := replace_tv env st sid roomId in
      let st2 := ensure_room env st1 roomId in
      let room := set_tv (Some sid) (the_room env st2 roomId) in
      let st3 := with_rooms st2 (rooms_set roomId room (rooms st2)) in
      let name := js_or (oprop data "deviceName") (JStr "TV Display") in
      let st4 := set_sock st3 sid (set_registration roomId TV name (sock st3 sid)) in
      let st5 := with_stats st4
                   (set_tvConnections (tvConnections (stats st4) + 1) (stats st4)) in
      let registered :=
        Emit sid "registered"
          [("deviceType", FVal (JStr "tv"));
           ("roomId", FVal (JStr roomId));
           ("clientId", FVal (JStr sid));
           ("timestamp", FTime (now env));
           ("message", FVal (JStr "TV registered successfully"))] in
      let notify :=
        match mobile room with
        | Some m =>
            if connected (sock st5 m) then
              [Emit m "tv_connected"
                 [("status", FVal (JStr "tv_connected"));
                  ("deviceId", FVal (JStr sid));
                  ("deviceName", FVal name);
                  ("timestamp", FTime (now env))];
               Emit sid "mobile_connected"
                 [("status", FVal (JStr "mobile_connected"));
                  ("deviceId", FVal (JStr m));
                  ("deviceName",
                   FVal (js_or (deviceName (sock st5 m)) (JStr "Mobile Controller")));
                  ("timestamp", FTime (now env))]]
            else []
        | None => []
        end in
      (st5, tr1 ++ [Join sid roomId; registered] ++ notify)
  end.

(** ** socket.on('register_mobile') *)

(** "Disconnect previous mobile if exists" *)
Definition replace_mobile (env : Env) (st : State) (sid roomId : string)
    (room : Room) : State * Trace :=
  match mobile room with
  | Some old =>
      if connected (sock st old) && negb (String.eqb old sid) then
        let '(st1, tr) := force_disconnect st old in
        (with_stats st1
           (set_mobileConnections (dec0 (mobileConnections (stats st1))) (stats st1)),
         [Emit old "replaced"
            [("message", FVal (JStr "New mobile device connected to this room"));
             ("timestamp", FTime (now env))];
          Leave old roomId] ++ tr)
      else (st, [])
  | None => (st, [])
  end.

Definition register_mobile (env : Env) (st : State) (sid : string) (data : jsval)
  : State * Trace :=
  let supplied := oprop data "roomId" in
  let required :=
    (st, [Emit sid "error"
            (err "Room ID is required for mobile registration" "ROOM_ID_REQUIRED")]) in
  if negb (truthy supplied) then required
  else
    match toString supplied with
    | None =>
        (st, [Emit sid "error"
                [("message", FVal (JStr "Mobile registration failed"));
                 ("code", FVal (JStr "MOBILE_REGISTRATION_ERROR"));
                 ("details", FExn)]])
    | Some roomId =>
        if String.eqb roomId EmptyString then required
        else if negb (validateRoomId roomId) then
          (st, [Emit sid "error" (err "Invalid room ID format" "INVALID_ROOM_ID")])
        else
          match rooms_get roomId (rooms st) with
          | None =>
              (st, [Emit sid "error"
                      [("message", FVal (JStr "Room not found. Make sure the TV is connected and displaying the correct room code."));
                       ("code", FVal (JStr "ROOM_NOT_FOUND"));
                       ("roomId", FVal (JStr roomId))]])
          | Some room =>
              match (if live st (tv room) then tv room else None) with
              | None =>
                  (st, [Emit sid "error"
                          [("message", FVal (JStr "No TV connected in this room. Please make sure the TV is online."));
                           ("code", FVal (JStr "NO_TV_IN_ROOM"));
                           ("roomId", FVal (JStr roomId))]])
              | Some tvId =>
                  let '(st1, tr1) := replace_mobile env st sid roomId room in
                  let st2 :=
                    with_rooms st1
                      (rooms_set roomId (set_mobile (Some sid) room) (rooms st1)) in
                  let name :=
                    js_or (oprop data "deviceName") (JStr "Mobile Controller") in
                  let st3 :=
                    set_sock st2 sid
                      (set_registration roomId Mobile name (sock st2 sid)) in
                  let st4 :=
                    with_stats st3
                      (set_mobileConnections
                         (mobileConnections (stats st3) + 1) (stats st3)) in
                  (st4,
                   tr1 ++
                   [Join sid roomId;
                    Emit sid "registered"
                      [("deviceType", FVal (JStr "mobile"));
                       ("roomId", FVal (JStr roomId));
                       ("clientId", FVal (JStr sid));
                       ("connectedTV", FVal (JBool true));
                       ("tvId", FVal (JStr tvId));
                       ("timestamp", FTime (now env));
                       ("message", FVal (JStr "Mobile registered successfully"))];
                    Emit tvId "mobile_connected"
                      [("status", FVal (JStr "mobile_connected"));
                       ("deviceId", FVal (JStr sid));
                       ("deviceName", FVal name);
                       ("timestamp", FTime (now env))]])
              end
          end
    end.

(** ** The typed relay events, mobile to TV *)

Inductive Kind : Type :=
| SlideChange | PdfScroll | PdfPageChange | PresentationAction | LoadDocument.

Definition event_name (k : Kind) : string :=
  match k with
  | SlideChange => "slide_change"
  | PdfScroll => "pdf_scroll"
  | PdfPageChange => "pdf_page_change"
  | PresentationAction => "presentation_action"
  | LoadDocument => "load_document"
  end.

(** [socket.roomId] as a value *)
Definition roomId_val (s : Socket) : jsval :=
  match sk_roomId s with Some r => JStr r | None => JUndefined end.

(** [socket.deviceType !== 'mobile' || !socket.roomId] *)
Definition unauthorized (s : Socket) : bool :=
  negb (is_mobile (deviceType s)) || negb (in_room s).

(** the TV of [rooms.get(socket.roomId)] when [room?.tv?.connected] *)
Definition room_tv (st : State) (s : Socket) : option string :=
  match sk_roomId s with
  | Some rid =>
      match rooms_get rid (rooms st) with
      | Some room => if live st (tv room) then tv room else None
      | None => None
      end
  | None => None
  end.

Definition no_tv : Payload := err "TV not connected in this room" "NO_TV_IN_ROOM".

Definition caught (message code : string) : Payload :=
  [("message", FVal (JStr message)); ("code", FVal (JStr code)); ("details", FExn)].

Definition lt_num (v : jsval) (bound : Z) : bool :=
  match v with JNum n => Z.ltb n bound | _ => false end.

Definition on_slide_change (env : Env) (st : State) (sid : string) (data : jsval)
  : State * Trace :=
  let socket := sock st sid in
  if unauthorized socket then
    (st, [Emit sid "error"
            (err "Unauthorized: Only mobile devices in a room can change slides"
                 "UNAUTHORIZED_SLIDE_CHANGE")])
  else
    match room_tv st socket with
    | None => (st, [Emit sid "error" no_tv])
    | Some tvId =>
        match prop data "slideIndex" with
        | None =>
            (st, [Emit sid "error" (caught "Failed to change slide" "SLIDE_CHANGE_ERROR")])
        | Some slideIndex =>
            if negb (typeof_number slideIndex) || lt_num slideIndex 0 then
              (st, [Emit sid "error" (err "Invalid slide index" "INVALID_SLIDE_INDEX")])
            else
              (st, [Emit tvId "slide_change"
                      [("slideIndex", FVal slideIndex);
                       ("roomId", FVal (roomId_val socket));
                       ("timestamp", FTime (now env));
                       ("from", FVal (JStr sid))];
                    Emit sid "slide_change_ack"
                      [("slideIndex", FVal slideIndex);
                       ("timestamp", FTime (now env))]])
        end
    end.

Definition on_pdf_scroll (env : Env) (st : State) (sid : string) (data : jsval)
  : State * Trace :=
  let socket := sock st sid in
  if unauthorized socket then
    (st, [Emit sid "error"
            (err "Unauthorized: Only mobile devices in a room can scroll PDF"
                 "UNAUTHORIZED_PDF_SCROLL")])
  else
    match room_tv st socket with
    | None => (st, [Emit sid "error" no_tv])
    | Some tvId =>
        match prop data "scrollOffset" with
        | None =>
            (st, [Emit sid "error" (caught "Failed to scroll PDF" "PDF_SCROLL_ERROR")])
        | Some scrollOffset =>
            if negb (typeof_number scrollOffset) then
              (st, [Emit sid "error" (err "Invalid scroll offset" "INVALID_SCROLL_OFFSET")])
            else
              (st, [Emit tvId "pdf_scroll"
                      [("scrollOffset", FVal scrollOffset);
                       ("pageNumber", FVal (js_or (oprop data "pageNumber") (JNum 1)));
                       ("roomId", FVal (roomId_val socket));
                       ("timestamp", FTime (now env));
                       ("from", FVal (JStr sid))]])
        end
    end.

Definition on_pdf_page_change (env : Env) (st : State) (sid : string) (data : jsval)
  : State * Trace :=
  let socket := sock st sid in
  if unauthorized socket then
    (st, [Emit sid "error"
            (err "Unauthorized: Only mobile devices in a room can change PDF pages"
                 "UNAUTHORIZED_PDF_PAGE_CHANGE")])
  else
    match room_tv st socket with
    | None => (st, [Emit sid "error" no_tv])
    | Some tvId =>
        match prop data "pageNumber" with
        | None =>
            (st, [Emit sid "error"
                    (caught "Failed to change PDF page" "PDF_PAGE_CHANGE_ERROR")])
        | Some pageNumber =>
            if negb (typeof_number pageNumber) || lt_num pageNumber 1 then
              (st, [Emit sid "error" (err "Invalid page number" "INVALID_PAGE_NUMBER")])
            else
              (st, [Emit tvId "pdf_page_change"
                      [("pageNumber", FVal pageNumber);
                       ("roomId", FVal (roomId_val socket));
                       ("timestamp", FTime (now env));
                       ("from", FVal (JStr sid))]])
        end
    end.

Definition on_presentation_action (env : Env) (st : State) (sid : string)
    (data : jsval) : State * Trace :=
  let socket := sock st sid in
  if unauthorized socket then
    (st, [Emit sid "error"
            (err "Unauthorized: Only mobile devices in a room can send presentation actions"
                 "UNAUTHORIZED_PRESENTATION_ACTION")])
  else
    match room_tv st socket with
    | None => (st, [Emit sid "error" no_tv])
    | Some tvId =>
        match prop data "action" with
        | None =>
            (st, [Emit sid "error"
                    (caught "Failed to execute presentation action"
                            "PRESENTATION_ACTION_ERROR")])
        | Some action =>
            if negb (truthy action) then
              (st, [Emit sid "error" (err "Action is required" "MISSING_ACTION")])
            else
              (st, [Emit tvId "presentation_action"
                      [("action", FVal action);
                       ("params", FVal (js_or (oprop data "params") (JObj [])));
                       ("roomId", FVal (roomId_val socket));
                       ("timestamp", FTime (now env));
                       ("from", FVal (JStr sid))]])
        end
    end.

Definition on_load_document (env : Env) (st : State) (sid : string) (data : jsval)
  : State * Trace :=
  let socket := sock st sid in
  if unauthorized socket then
    (st, [Emit sid "error"
            (err "Unauthorized: Only mobile devices in a room can load documents"
                 "UNAUTHORIZED_LOAD_DOCUMENT")])
  else
    match room_tv st socket with
    | None => (st, [Emit sid "error" no_tv])
    | Some tvId =>
        match prop data "documentType" with
        | None =>
            (st, [Emit sid "error" (caught "Failed to load document" "LOAD_DOCUMENT_ERROR")])
        | Some documentType =>
            let documentUrl := oprop data "documentUrl" in
            if negb (truthy documentType) || negb (truthy documentUrl) then
              (st, [Emit sid "error"
                      (err "Document type and URL are required" "MISSING_DOCUMENT_INFO")])
            else
              (st, [Emit tvId "load_document"
                      [("documentType", FVal documentType);
                       ("documentUrl", FVal documentUrl);
                       ("metadata", FVal (js_or (oprop data "metadata") (JObj [])));
                       ("roomId", FVal (roomId_val socket));
                       ("timestamp", FTime (now env));
                       ("from", FVal (JStr sid))]])
        end
    end.

Definition on_relay (k : Kind) : Env -> State -> string -> jsval -> State * Trace :=
  match k with
  | SlideChange => on_slide_change
  | PdfScroll => on_pdf_scroll
  | PdfPageChange => on_pdf_page_change
  | PresentationAction => on_presentation_action
  | LoadDocument => on_load_document
  end.

(** ** socket.on('custom_event'), either direction *)

Fixpoint spread_string (i : nat) (s : string) : Payload :=
  match s with
  | EmptyString => []
  | String c rest =>
      (decimal (Z.of_nat i), FVal (JStr (String c EmptyString)))
        :: spread_string (S i) rest
  end.

(** the own enumerable properties that [{ ...data }] copies *)
Definition spread (data : jsval) : Payload :=
  match data with
  | JObj fields => map (fun kv => (fst kv, FVal (snd kv))) fields
  | JStr s => spread_string 0 s
  | _ => []
  end.

Definition on_custom_event (env : Env) (st : State) (sid : string) (data : jsval)
  : State * Trace :=
  let socket := sock st sid in
  if negb (in_room socket) then
    (st, [Emit sid "error" (err "Not in a room" "NO_ROOM")])
  else
    match rooms_get (default EmptyString (sk_roomId socket)) (rooms st) with
    | None => (st, [Emit sid "error" (err "Room not found" "ROOM_NOT_FOUND")])
    | Some room =>
        (* the log line reads data.eventType *)
        match prop data "eventType" with
        | None =>
            (st, [Emit sid "error"
                    (caught "Failed to send custom event" "CUSTOM_EVENT_ERROR")])
        | Some _ =>
            let targetDevice :=
              if is_mobile (deviceType socket) then tv room else mobile room in
            match (if live st targetDevice then targetDevice else None) with
            | Some target =>
                (st, [Emit target "custom_event"
                        (pset "fromDevice" (FVal (deviceType_str (deviceType socket)))
                        (pset "from" (FVal (JStr sid))
                        (pset "timestamp" (FTime (now env))
                        (pset "roomId" (FVal (roomId_val socket))
                        (spread data)))))])
            | None =>
                (st, [Emit sid "error"
                        (err (if is_mobile (deviceType socket)
                              then "TV not connected in this room"
                              else "Mobile not connected in this room")
                             "TARGET_DEVICE_NOT_CONNECTED")])
            end
        end
    end.

(** ** Health events of one socket *)

Definition on_ping (env : Env) (st : State) (sid : string) : State * Trace :=
  let s := sock st sid in
  (set_sock st sid
     (mkSocket (connected s) (sk_roomId s) (deviceType s) (deviceName s) true
               (Some (now env)) (lastPong s) (connectedAt s)),
   [Emit sid "pong" [("timestamp", FTime (now env)); ("clientId", FVal (JStr sid))]]).

Definition on_pong (env : Env) (st : State) (sid : string) : State * Trace :=
  let s := sock st sid in
  (set_sock st sid
     (mkSocket (connected s) (sk_roomId s) (deviceType s) (deviceName s) true
               (lastPing s) (Some (now env)) (connectedAt s)),
   []).

Definition on_connection_test (env : Env) (st : State) (sid : string)
    (data : jsval) : State * Trace :=
  (st, [Emit sid "connection_test_response"
          [("received", FVal data);
           ("timestamp", FTime (now env));
           ("serverId", FVal (JStr sid));
           ("status", FVal (JStr "connected"))]]).

Definition on_error (env : Env) (st : State) (sid : string) : State * Trace :=
  (st, [Emit sid "error_ack"
          [("message", FVal (JStr "Socket error received"));
           ("timestamp", FTime (now env))]]).

(** ** socket.on('disconnect') *)

Definition slot_is (slot : option string) (sid : string) : bool :=
  match slot with Some id => String.eqb id sid | None => false end.

Definition gone (env : Env) (sid reason : string) : Payload :=
  [("status", FVal (JStr "disconnected"));
   ("deviceId", FVal (JStr sid));
   ("reason", FVal (JStr reason));
   ("timestamp", FTime (now env))].

(** the two branches that clear the slot held by this socket *)
Definition vacate (env : Env) (st : State) (sid reason roomId : string)
    (room : Room) : State * Trace :=
  let socket := sock st sid in
  if is_tv (deviceType socket) && slot_is (tv room) sid then
    let st1 := with_rooms st (rooms_set roomId (set_tv None room) (rooms st)) in
    let st2 := with_stats st1
                 (set_tvConnections (dec0 (tvConnections (stats st1))) (stats st1)) in
    (st2,
     match mobile room with
     | Some m =>
         if connected (sock st2 m)
         then [Emit m "tv_disconnected" (gone env sid reason)] else []
     | None => []
     end)
  else if is_mobile (deviceType socket) && slot_is (mobile room) sid then
    let st1 := with_rooms st (rooms_set roomId (set_mobile None room) (rooms st)) in
    let st2 := with_stats st1
                 (set_mobileConnections (dec0 (mobileConnections (stats st1)))
                    (stats st1)) in
    (st2,
     match tv room with
     | Some t =>
         if connected (sock st2 t)
         then [Emit t "mobile_disconnected" (gone env sid reason)] else []
     | None => []
     end)
  else (st, []).

Definition on_disconnect (env : Env) (st : State) (sid reason : string)
  : State * Trace :=
  let st0 := with_stats st
               (set_currentConnections (dec0 (currentConnections (stats st)))
                  (stats st)) in
  let socket := sock st0 sid in
  if in_room socket then
    let roomId := default EmptyString (sk_roomId socket) in
    match rooms_get roomId (rooms st0) with
    | Some room =>
        let '(st1, tr1) := vacate env st0 sid reason roomId room in
        let room' := the_room env st1 roomId in
        if negb (live st1 (tv room')) && negb (live st1 (mobile room')) then
          let '(st2, tr2) := cleanupRoom st1 roomId "all_devices_disconnected" in
          (st2, tr1 ++ tr2)
        else (st1, tr1)
    | None => (st0, [])
    end
  else (st0, []).

(** ** The periodic sweeps *)

Definition ROOM_TIMEOUT : Z := 30 * 60 * 1000.

(** "Health monitoring - ping clients every 30 seconds" *)
Definition ping_room (env : Env) (st : State) (room : Room) : Trace :=
  let ping slot :=
    match slot with
    | Some id =>
        if connected (sock st id)
        then [Emit id "ping" [("timestamp", FTime (now env));
                              ("type", FVal (JStr "health_check"))]]
        else []
    | None => []
    end in
  ping (mobile room) ++ ping (tv room).

Definition ping_sweep (env : Env) (st : State) : State * Trace :=
  (st, concat (map (fun kr => ping_room env st (snd kr)) (rooms st))).

(** [!x.connected || (x.lastPong && (now - x.lastPong) > timeout)] *)
Definition isUnhealthy (env : Env) (s : Socket) (timeout : Z) : bool :=
  negb (connected s) ||
  match lastPong s with
  | Some t => Z.ltb timeout (now env - t)
  | None => false
  end.

(** "connection_timeout" then disconnect(true), for a connected socket *)
Definition time_out (st : State) (id : string) : State * Trace :=
  if connected (sock st id) then
    let '(st1, tr) := force_disconnect st id in
    (st1, [Emit id "connection_timeout"
             [("message", FVal (JStr "Connection timed out"))]] ++ tr)
  else (st, []).

(** "Check mobile health": the new state, what was sent, and
    roomNeedsCleanup *)
Definition check_mobile (env : Env) (st : State) (roomId : string) (room : Room)
  : State * Trace * bool :=
  let timeout := 120000 in
  match mobile room with
  | Some m =>
      if isUnhealthy env (sock st m) timeout then
        let '(sa, tr) := time_out st m in
        let sb := with_rooms sa
                    (rooms_set roomId (set_mobile None room) (rooms sa)) in
        let sc := with_stats sb
                    (set_mobileConnections
                       (dec0 (mobileConnections (stats sb))) (stats sb)) in
        (sc, tr, negb (live sc (tv room)))
      else (st, [], false)
  | None => (st, [], false)
  end.

(** "Check TV health", on the room as the first check left it *)
Definition check_tv (env : Env) (st : State) (roomId : string) (room : Room)
    (roomNeedsCleanup : bool) : State * Trace * bool :=
  let timeout := 120000 in
  match tv room with
  | Some t =>
      if isUnhealthy env (sock st t) timeout then
        let '(sa, tr) := time_out st t in
        let sb := with_rooms sa
                    (rooms_set roomId (set_tv None room) (rooms sa)) in
        let sc := with_stats sb
                    (set_tvConnections
                       (dec0 (tvConnections (stats sb))) (stats sb)) in
        (sc, tr, roomNeedsCleanup || negb (live sc (mobile room)))
      else (st, [], roomNeedsCleanup)
  | None => (st, [], roomNeedsCleanup)
  end.

(** one turn of the loop of "Cleanup unhealthy connections" *)
Definition unhealthy_room (env : Env) (st : State) (roomId : string)
  : State * Trace :=
  match rooms_get roomId (rooms st) with
  | None => (st, [])
  | Some room =>
      let '(st1, tr1, needs1) := check_mobile env st roomId room in
      let '(st2, tr2, needs2) :=
        check_tv env st1 roomId (the_room env st1 roomId) needs1 in
      if needs2 then
        let '(st3, tr3) := cleanupRoom st2 roomId "unhealthy_connections" in
        (st3, tr1 ++ tr2 ++ tr3)
      else (st2, tr1 ++ tr2)
  end.

(** running a per-room step over the keys the loop visits *)
Fixpoint for_rooms (f : State -> string -> State * Trace) (st : State)
    (keys : list string) : State * Trace :=
  match keys with
  | [] => (st, [])
  | k :: rest =>
      let '(st1, tr1) := f st k in
      let '(st2, tr2) := for_rooms f st1 rest in
      (st2, tr1 ++ tr2)
  end.

Definition unhealthy_sweep (env : Env) (st : State) : State * Trace :=
  for_rooms (unhealthy_room env) st (map fst (rooms st)).

(** "Periodic room cleanup - remove old empty rooms" *)
Definition expired (env : Env) (st : State) (room : Room) : bool :=
  let roomAge := now env - createdAt room in
  let isEmpty := negb (live st (tv room)) && negb (live st (mobile room)) in
  let isExpired := Z.ltb ROOM_TIMEOUT roomAge in
  isEmpty && isExpired.

Definition expiry_sweep (env : Env) (st : State) : State * Trace :=
  let roomsToCleanup :=
    map fst (filter (fun kr => expired env st (snd kr)) (rooms st)) in
  for_rooms (fun s roomId => cleanupRoom s roomId "expired") st roomsToCleanup.

(** ** The server as a transition system *)

Inductive Event : Type :=
| EvConnection (sid : string)
| EvRegisterTv (sid : string) (data : jsval)
| EvRegisterMobile (sid : string) (data : jsval)
| EvRelay (k : Kind) (sid : string) (data : jsval)
| EvCustomEvent (sid : string) (data : jsval)
| EvPing (sid : string)
| EvPong (sid : string)
| EvConnectionTest (sid : string) (data : jsval)
| EvSocketError (sid : string)
| EvDisconnect (sid : string) (reason : string)
| EvPingSweep
| EvUnhealthySweep
| EvExpirySweep.

(** what the transport does to the socket before it fires 'disconnect' *)
Definition transport_close (st : State) (sid : string) : State :=
  set_sock st sid (set_connected false (sock st sid)).

Definition step (env : Env) (st : State) (ev : Event) : State * Trace :=
  match ev with
  | EvConnection sid =>
      (* ids are fresh: a connection never reuses the id of a known socket *)
      match sockets st !! sid with
      | None => on_connection env st sid
      | Some _ => (st, [])
      end
  | EvRegisterTv sid data => register_tv env st sid data
  | EvRegisterMobile sid data => register_mobile env st sid data
  | EvRelay k sid data => on_relay k env st sid data
  | EvCustomEvent sid data => on_custom_event env st sid data
  | EvPing sid => on_ping env st sid
  | EvPong sid => on_pong env st sid
  | EvConnectionTest sid data => on_connection_test env st sid data
  | EvSocketError sid => on_error env st sid
  | EvDisconnect sid reason =>
      on_disconnect env (transport_close st sid) sid reason
  | EvPingSweep => ping_sweep env st
  | EvUnhealthySweep => unhealthy_sweep env st
  | EvExpirySweep => expiry_sweep env st
  end.

Fixpoint run (st : State) (evs : list (Env * Event)) : State * Trace :=
  match evs with
  | [] => (st, [])
  | (env, ev) :: rest =>
      let '(st1, tr1) := step env st ev in
      let '(st2, tr2) := run st1 rest in
      (st2, tr1 ++ tr2)
  end.

(** ** server.js: the single-slot server, presentation_action *)

Module V1.

Record Clients : Type := mkClients {
  mobile : option string;
  tv : option string
}.

Definition validActions : list string :=
  ["play"; "pause"; "stop"; "next"; "previous"; "fullscreen"; "exit_fullscreen"].

(** [validActions.includes(x)]: only a string can equal an entry *)
Definition includes (l : list string) (x : jsval) : bool :=
  match x with
  | JStr s => existsb (String.eqb s) l
  | _ => false
  end.

(** [deviceType] is the field of the sending socket *)
Definition presentation_action (env : Env) (clients : Clients)
    (deviceType : option DeviceType) (sid : string) (data : jsval) : Trace :=
  let invalid :=
    [Emit sid "error" (err "Invalid presentation action" "INVALID_ACTION")] in
  match (if is_mobile deviceType then tv clients else None) with
  | Some tvId =>
      match prop data "action" with
      | None => invalid
      | Some action =>
          if negb (includes validActions action) then invalid
          else [Emit tvId "presentation_action"
                  (pset "from" (FVal (JStr sid))
                  (pset "timestamp" (FTime (now env))
                  (spread data)))]
      end
  | None =>
      [Emit sid "error"
         (err "Unauthorized or TV not connected" "UNAUTHORIZED_OR_NO_TV")]
  end.

(** *** The rest of server.js: one mobile slot, one TV slot *)

(** a relay handler of server.js: forwarded to the TV with the data spread
    under the server's timestamp and sender id when the sender is the
    mobile, the TV slot is filled and [valid] accepts the data; [valid]
    returning [None] is an exception thrown while the data is read *)
Definition relay (event code message : string) (valid : jsval -> option bool)
    (env : Env) (clients : Clients) (deviceType : option DeviceType)
    (sid : string) (data : jsval) : Trace :=
  let invalid := [Emit sid "error" (err message code)] in
  match (if is_mobile deviceType then tv clients else None) with
  | Some tvId =>
      match valid data with
      | Some true =>
          [Emit tvId event
             (pset "from" (FVal (JStr sid))
             (pset "timestamp" (FTime (now env))
             (spread data)))]
      | _ => invalid
      end
  | None =>
      [Emit sid "error"
         (err "Unauthorized or TV not connected" "UNAUTHORIZED_OR_NO_TV")]
  end.

(** [typeof data.k === 'number'] *)
Definition number_at (k : string) (data : jsval) : option bool :=
  match prop data k with
  | Some v => Some (typeof_number v)
  | None => None
  end.

Definition slide_change : Env -> Clients -> option DeviceType -> string -> jsval -> Trace :=
  relay "slide_change" "INVALID_SLIDE_DATA" "Invalid slide change data"
        (number_at "slideIndex").

Definition pdf_scroll : Env -> Clients -> option DeviceType -> string -> jsval -> Trace :=
  relay "pdf_scroll" "INVALID_SCROLL_DATA" "Invalid PDF scroll data"
        (number_at "scrollOffset").

Definition pdf_page_change : Env -> Clients -> option DeviceType -> string -> jsval -> Trace :=
  relay "pdf_page_change" "INVALID_PAGE_DATA" "Invalid PDF page data"
        (number_at "pageNumber").

Definition validTypes : list string := ["pdf"; "powerpoint"; "image"; "video"].

Definition load_document : Env -> Clients -> option DeviceType -> string -> jsval -> Trace :=
  relay "load_document" "INVALID_DOCUMENT_DATA" "Invalid document data"
        (fun data => match prop data "documentType" with
                     | Some v => Some (includes validTypes v)
                     | None => None
                     end).

(** nothing is checked, but the log line reads data.eventType *)
Definition custom_event : Env -> Clients -> option DeviceType -> string -> jsval -> Trace :=
  relay "custom_event" "INVALID_CUSTOM_EVENT" "Invalid custom event data"
        (fun data => match prop data "eventType" with
                     | Some _ => Some true
                     | None => None
                     end).

Inductive Relayed : Type :=
| SlideChange | PdfScroll | PdfPageChange | PresentationAction
| LoadDocument | CustomEvent.

Definition relayed_name (k : Relayed) : string :=
  match k with
  | SlideChange => "slide_change"
  | PdfScroll => "pdf_scroll"
  | PdfPageChange => "pdf_page_change"
  | PresentationAction => "presentation_action"
  | LoadDocument => "load_document"
  | CustomEvent => "custom_event"
  end.

Definition on_relayed (k : Relayed)
  : Env -> Clients -> option DeviceType -> string -> jsval -> Trace :=
  match k with
  | SlideChange => slide_change
  | PdfScroll => pdf_scroll
  | PdfPageChange => pdf_page_change
  | PresentationAction => presentation_action
  | LoadDocument => load_document
  | CustomEvent => custom_event
  end.

Record Socket : Type := mkSocket {
  deviceType : option DeviceType;
  lastPong : option Z;
  connectedAt : Z
}.

Record Stats : Type := mkStats {
  totalConnections : Z;
  currentConnections : Z;
  mobileConnections : Z;
  tvConnections : Z
}.

Record State : Type := mkState {
  clients : Clients;
  sockets : gmap string Socket;
  stats : Stats
}.

Definition init : State := mkState (mkClients None None) ∅ (mkStats 0 0 0 0).

Definition unknown : Socket := mkSocket None None 0.

Definition sock (st : State) (id : string) : Socket :=
  default unknown (sockets st !! id).

Definition set_deviceType (d : DeviceType) (st : State) (id : string) : State :=
  mkState (clients st)
    (<[id := mkSocket (Some d) (lastPong (sock st id)) (connectedAt (sock st id))]>
       (sockets st))
    (stats st).

Definition validateDeviceType (deviceType : jsval) : bool :=
  includes ["mobile"; "tv"] deviceType.

(** getConnectionStatus *)
Definition getConnectionStatus (c : Clients) : jsval :=
  let status (slot : option string) :=
    match slot with
    | Some _ => JStr "connected"
    | None => JStr "disconnected"
    end in
  JObj [("mobile", status (mobile c)); ("tv", status (tv c))].

Definition quote : string := String (Ascii.ascii_of_nat 34) EmptyString.

Definition invalid_device_type : string :=
  String.append "Invalid device type. Must be "
    (String.append quote (String.append "mobile"
       (String.append quote (String.append " or "
          (String.append quote (String.append "tv" quote)))))).

(** "Disconnect previous ... client if exists": the notice and the
    disconnect, in that order; [ForceDisconnect] records the call of
    disconnect(), here without the close flag *)
Definition replace (slot : option string) (sid : string) (message : string) : Trace :=
  match slot with
  | Some old =>
      if negb (String.eqb old sid)
      then [Emit old "replaced" [("message", FVal (JStr message))];
            ForceDisconnect old]
      else []
  | None => []
  end.

Definition replaced (slot : option string) (sid : string) : bool :=
  match slot with
  | Some old => negb (String.eqb old sid)
  | None => false
  end.

(** socket.on('register') *)
Definition register (env : Env) (st : State) (sid : string) (data : jsval)
  : State * Trace :=
  match prop data "deviceType" with
  | None => (st, [Emit sid "error" (err "Registration failed" "REGISTRATION_ERROR")])
  | Some d =>
      if negb (validateDeviceType d) then
        (st, [Emit sid "error" (err invalid_device_type "INVALID_DEVICE_TYPE")])
      else
        let c := clients st in
        let s := stats st in
        let registered c' :=
          Emit sid "registered"
            [("deviceType", FVal d);
             ("clientId", FVal (JStr sid));
             ("connectedDevices", FVal (getConnectionStatus c'));
             ("timestamp", FTime (now env))] in
        match d with
        | JStr "mobile" =>
            let n := if replaced (mobile c) sid
                     then mobileConnections s - 1 else mobileConnections s in
            let c' := mkClients (Some sid) (tv c) in
            let st' :=
              set_deviceType Mobile
                (mkState c' (sockets st)
                   (mkStats (totalConnections s) (currentConnections s)
                            (n + 1) (tvConnections s))) sid in
            (st',
             replace (mobile c) sid "New mobile client connected"
             ++ match tv c with
                | Some t =>
                    [Emit t "mobile_connected"
                       [("status", FVal (JStr "connected"));
                        ("clientId", FVal (JStr sid));
                        ("timestamp", FTime (now env))]]
                | None => []
                end
             ++ [registered c'])
        | _ =>
            let n := if replaced (tv c) sid
                     then tvConnections s - 1 else tvConnections s in
            let c' := mkClients (mobile c) (Some sid) in
            let st' :=
              set_deviceType TV
                (mkState c' (sockets st)
                   (mkStats (totalConnections s) (currentConnections s)
                            (mobileConnections s) (n + 1))) sid in
            (st',
             replace (tv c) sid "New TV client connected"
             ++ match mobile c with
                | Some m =>
                    [Emit m "tv_connected"
                       [("status", FVal (JStr "connected"));
                        ("clientId", FVal (JStr sid));
                        ("timestamp", FTime (now env))]]
                | None => []
                end
             ++ [registered c'])
        end
  end.

(** socket.on('disconnect') *)
Definition on_disconnect (env : Env) (st : State) (sid reason : string)
  : State * Trace :=
  let c := clients st in
  let s := stats st in
  let gone := [("status", FVal (JStr "disconnected"));
               ("reason", FVal (JStr reason));
               ("timestamp", FTime (now env))] in
  match deviceType (sock st sid) with
  | Some Mobile =>
      (mkState (mkClients None (tv c)) (sockets st)
         (mkStats (totalConnections s) (currentConnections s - 1)
                  (mobileConnections s - 1) (tvConnections s)),
       match tv c with
       | Some t => [Emit t "mobile_disconnected" gone]
       | None => []
       end)
  | Some TV =>
      (mkState (mkClients (mobile c) None) (sockets st)
         (mkStats (totalConnections s) (currentConnections s - 1)
                  (mobileConnections s) (tvConnections s - 1)),
       match mobile c with
       | Some m => [Emit m "tv_disconnected" gone]
       | None => []
       end)
  | None =>
      (mkState c (sockets st)
         (mkStats (totalConnections s) (currentConnections s - 1)
                  (mobileConnections s) (tvConnections s)),
       [])
  end.

(** "Cleanup disconnected clients every 60 seconds": who is disconnected *)
Definition timed_out (env : Env) (st : State) (slot : option string) : Trace :=
  match slot with
  | Some id =>
      match lastPong (sock st id) with
      | Some t => if Z.ltb 60000 (now env - t) then [ForceDisconnect id] else []
      | None => []
      end
  | None => []
  end.

Definition timeout_sweep (env : Env) (st : State) : Trace :=
  timed_out env st (mobile (clients st)) ++ timed_out env st (tv (clients st)).


End V1.

(** ** Predicates used by the statements *)

Definition confusable (c : ascii) : bool :=
  Ascii.eqb c "0" || Ascii.eqb c "O" || Ascii.eqb c "1" || Ascii.eqb c "I".

Definition alphanumeric (c : ascii) : bool :=
  let n := nat_of_ascii c in
  (Nat.leb 48 n && Nat.leb n 57) || (Nat.leb 65 n && Nat.leb n 90)
  || (Nat.leb 97 n && Nat.leb n 122).

Definition code_char (c : ascii) : bool := alphanumeric c && negb (confusable c).

Definition in_unit_interval (env : Env) : Prop :=
  forall i, (0 <= random env i)%Q /\ (random env i < 1)%Q.


(** the action names the specification lists *)
Definition listed_actions : list string :=
  ["play"; "pause"; "stop"; "next"; "previous"; "fullscreen"; "exit-fullscreen"].

(** an event of the given name sent to the given socket *)
Definition sent (tr : Trace) (to event : string) : bool :=
  existsb (fun a => match a with
                    | Emit t e _ => String.eqb t to && String.eqb e event
                    | _ => false
                    end) tr.

(** every error code sent to the given socket, in order *)
Definition error_codes (tr : Trace) (to : string) : list field :=
  flat_map (fun a => match a with
                     | Emit t "error" p =>
                         if String.eqb t to
                         then match pfield p "code" with Some c => [c] | None => [] end
                         else []
                     | _ => []
                     end) tr.

Definition code (c : string) : field := FVal (JStr c).

(** ** Sample runs *)

Definition env0 : Env := mkEnv 1000 (fun _ => 0%Q).

(** a TV and a mobile paired in room "1234" *)
Definition paired : State :=
  fst (run init
         [(env0, EvConnection "t1");
          (env0, EvRegisterTv "t1" (JObj [("roomId", JStr "1234")]));
          (env0, EvConnection "m1");
          (env0, EvRegisterMobile "m1" (JObj [("roomId", JStr "1234")]))]).

(** the error payloads of a failed lookup in register_mobile *)
Definition room_not_found (roomId : string) : Payload :=
  [("message", FVal (JStr "Room not found. Make sure the TV is connected and displaying the correct room code."));
   ("code", FVal (JStr "ROOM_NOT_FOUND"));
   ("roomId", FVal (JStr roomId))].

Definition no_tv_in_room (roomId : string) : Payload :=
  [("message", FVal (JStr "No TV connected in this room. Please make sure the TV is online."));
   ("code", FVal (JStr "NO_TV_IN_ROOM"));
   ("roomId", FVal (JStr roomId))].

(** a room whose TV has dropped its connection *)
Definition tv_offline : State :=
  transport_close
    (fst (run init
            [(env0, EvConnection "t1");
             (env0, EvRegisterTv "t1" (JObj [("roomId", JStr "1234")]));
             (env0, EvConnection "m1")]))
    "t1".

(** the payload fields a relay event copies from the sender as they are,
    and those it copies with a default for a falsy value *)
Definition verbatim_fields (k : Kind) : list string :=
  match k with
  | SlideChange => ["slideIndex"]
  | PdfScroll => ["scrollOffset"]
  | PdfPageChange => ["pageNumber"]
  | PresentationAction => ["action"]
  | LoadDocument => ["documentType"; "documentUrl"]
  end.

Definition defaulted_fields (k : Kind) : list (string * jsval) :=
  match k with
  | PdfScroll => [("pageNumber", JNum 1)]
  | PresentationAction => [("params", JObj [])]
  | LoadDocument => [("metadata", JObj [])]
  | _ => []
  end.

(** the payload carries no usable room code: the roomId is absent (falsy)
    or its string form fails validateRoomId *)
Definition code_missing_or_invalid (data : jsval) : Prop :=
  truthy (oprop data "roomId") = false
  \/ exists s, truthy (oprop data "roomId") = true
               /\ toString (oprop data "roomId") = Some s
               /\ validateRoomId s = false.

(** a TV registered without a code while Math.random returns 0 *)
Definition taken : State :=
  fst (run init [(env0, EvConnection "t1"); (env0, EvRegisterTv "t1" JUndefined)]).


Definition no_disconnect (tr : Trace) : Prop :=
  Forall (fun a => match a with ForceDisconnect _ => False | _ => True end) tr.

(** wherever a socket is forcibly disconnected, it was sent 'replaced'
    earlier in the trace *)
Definition notice_before_disconnect (tr : Trace) : Prop :=
  forall pre x post,
    tr = pre ++ ForceDisconnect x :: post ->
    exists p, In (Emit x "replaced" p) pre.

(** the disconnect handler of [sid] has nothing left to do in [st]: the
    room the socket points at, if it is still there, does not hold the
    socket in the slot of its device type and keeps a connected device *)
Definition settled (st : State) (sid : string) : Prop :=
  let socket := sock st sid in
  in_room socket = true ->
  forall room,
    rooms_get (default EmptyString (sk_roomId socket)) (rooms st) = Some room ->
    is_tv (deviceType socket) && slot_is (tv room) sid = false
    /\ is_mobile (deviceType socket) && slot_is (mobile room) sid = false
    /\ negb (live st (tv room)) && negb (live st (mobile room)) = false.

(** two connections, one of them the TV of a room, the other idle *)
Definition two_connections : State :=
  fst (run init
         [(env0, EvConnection "t1");
          (env0, EvRegisterTv "t1" (JObj [("roomId", JStr "1234")]));
          (env0, EvConnection "m1")]).

(** a room with a socket in at least one of its two slots *)
Definition occupied (room : Room) : bool :=
  match tv room, mobile room with
  | None, None => false
  | _, _ => true
  end.

Definition rooms_ok (l : list (string * Room)) : Prop :=
  Forall (fun kr => occupied (snd kr) = true) l.

(** every room of the table has an occupant *)
Definition table_ok (st : State) : Prop := rooms_ok (rooms st).

(** ** The snapshot helpers and the room message route *)

Record RoomInfo : Type := mkRoomInfo {
  ri_roomId : string;
  hasTV : bool;
  hasMobile : bool;
  ri_createdAt : Z;
  tvId : option string;
  mobileId : option string;
  tvConnected : bool;
  mobileConnected : bool
}.

Definition filled (slot : option string) : bool :=
  match slot with Some _ => true | None => false end.

(** getRoomInfo; [None] is null *)
Definition getRoomInfo (st : State) (roomId : string) : option RoomInfo :=
  match rooms_get roomId (rooms st) with
  | None => None
  | Some room =>
      Some (mkRoomInfo roomId (filled (tv room)) (filled (mobile room))
              (createdAt room) (tv room) (mobile room)
              (live st (tv room)) (live st (mobile room)))
  end.

Record ConnectionStatus : Type := mkConnectionStatus {
  totalRooms : Z;
  connectedTVs : Z;
  connectedMobiles : Z;
  fullyConnectedRooms : Z
}.

Definition count_rooms (f : Room -> bool) (l : list (string * Room)) : Z :=
  Z.of_nat (length (filter (fun kr => f (snd kr)) l)).

(** getConnectionStatus *)
Definition getConnectionStatus (st : State) : ConnectionStatus :=
  mkConnectionStatus
    (rooms_size (rooms st))
    (count_rooms (fun room => live st (tv room)) (rooms st))
    (count_rooms (fun room => live st (mobile room)) (rooms st))
    (count_rooms (fun room => filled (tv room) && filled (mobile room)
                              && live st (tv room) && live st (mobile room))
                 (rooms st)).

(** the list that /api/rooms and /api/status return *)
Definition roomsList (st : State) : list (option RoomInfo) :=
  map (fun kr => getRoomInfo st (fst kr)) (rooms st).

(** [room.x !== excludeSocket], on object identity *)
Definition not_excluded (slot excludeSocket : option string) : bool :=
  match slot, excludeSocket with
  | Some id, Some ex => negb (String.eqb id ex)
  | _, _ => true
  end.

(** notifyRoomDevices; [data] is the object that is spread *)
Definition notifyRoomDevices (env : Env) (st : State) (roomId eventName : string)
    (data : jsval) (excludeSocket : option string) : Trace :=
  match rooms_get roomId (rooms st) with
  | None => []
  | Some room =>
      let eventData :=
        pset "roomId" (FVal (JStr roomId))
          (pset "timestamp" (FTime (now env)) (spread data)) in
      let notify slot :=
        match slot with
        | Some id =>
            if connected (sock st id) && not_excluded slot excludeSocket
            then [Emit id eventName eventData] else []
        | None => []
        end in
      notify (tv room) ++ notify (mobile room)
  end.


(** ** Predicates on states and traces *)

Definition keys (l : list (string * Room)) : list string := map fst l.

Definition counters_ok (s : Stats) : Prop :=
  0 <= totalConnections s /\ 0 <= currentConnections s
  /\ 0 <= mobileConnections s /\ 0 <= tvConnections s
  /\ currentConnections s <= totalConnections s.

(** the bookkeeping the handlers keep: one entry per room code, activeRooms
    equal to the size of the table, counters not below zero, no more
    current connections than connections ever made *)
Definition consistent (st : State) : Prop :=
  NoDup (keys (rooms st))
  /\ activeRooms (stats st) = rooms_size (rooms st)
  /\ counters_ok (stats st).

(** every code of the table passes validateRoomId *)
Definition codes_valid (l : list (string * Room)) : Prop :=
  Forall (fun kr => validateRoomId (fst kr) = true) l.

(** the sockets a trace sends to or acts on *)
Definition target_of (a : Action) : string :=
  match a with
  | Emit to _ _ => to
  | Join id _ | Leave id _ | ForceDisconnect id => id
  end.

Definition is_emit (a : Action) : bool :=
  match a with Emit _ _ _ => true | _ => false end.

(** every occupant of the room is connected and has answered a ping within
    the last two minutes, or has not answered any yet *)
Definition healthy_room (env : Env) (st : State) (room : Room) : Prop :=
  forall id, tv room = Some id \/ mobile room = Some id ->
             isUnhealthy env (sock st id) 120000 = false.

(** * Room codes *)

Lemma random_index_range (r : Q) :
  (0 <= r)%Q -> (r < 1)%Q -> 0 <= random_index r < 32.
Proof.
  intros H0 H1. unfold random_index.
  change (Z.of_nat (String.length chars)) with 32.
  split.
  - change 0 with (Qfloor 0). apply Qfloor_resp_le.
    apply Qmult_le_0_compat; [exact H0 | discriminate].
  - rewrite Zlt_Qlt.
    apply Qle_lt_trans with (y := (r * inject_Z 32)%Q); [apply Qfloor_le |].
    destruct r as [a b]. unfold Qlt in *. simpl in *. lia.
Qed.

Lemma charAt_chars (i : Z) :
  0 <= i < 32 ->
  exists c, charAt chars i = String c EmptyString /\ code_char c = true.
Proof.
  intros Hi.
  replace i with (Z.of_nat (Z.to_nat i)) by lia.
  assert (Hn : (Z.to_nat i < 32)%nat) by lia.
  remember (Z.to_nat i) as n eqn:E. clear E Hi.
  do 32 (destruct n as [|n]; [eexists; split; reflexivity |]).
  lia.
Qed.

Lemma append_char_length (s : string) (c : ascii) :
  String.length (String.append s (String c EmptyString)) = S (String.length s).
Proof. induction s as [|a s IH]; simpl; [reflexivity | now rewrite IH]. Qed.

Lemma append_char_Forall (P : ascii -> Prop) (s : string) (c : ascii) :
  Forall P (list_ascii_of_string s) -> P c ->
  Forall P (list_ascii_of_string (String.append s (String c EmptyString))).
Proof.
  induction s as [|a s IH]; simpl; intros Hs Hc.
  - constructor; [exact Hc | constructor].
  - inversion Hs; subst. constructor; auto.
Qed.

Lemma generate_loop_spec (env : Env) (n : nat) :
  in_unit_interval env ->
  forall k result,
    Forall (fun c => code_char c = true) (list_ascii_of_string result) ->
    let out := generate_loop env k n result in
    String.length out = (String.length result + n)%nat /\
    Forall (fun c => code_char c = true) (list_ascii_of_string out).
Proof.
  intros Hr. induction n as [|n IH]; intros k result Hres; simpl.
  - split; [lia | exact Hres].
  - destruct (Hr k) as [H0 H1].
    destruct (charAt_chars _ (random_index_range _ H0 H1)) as (c & Hc & Hok).
    rewrite Hc.
    destruct (IH (S k) (String.append result (String c EmptyString))) as [Hl Hf].
    { apply append_char_Forall; assumption. }
    split; [| exact Hf].
    rewrite Hl, append_char_length. lia.
Qed.

(** C8: a generated room code has between 4 and 6 characters (six, in
    fact), all alphanumeric and none of them 0, O, 1 or I, whenever
    Math.random stays in [0, 1). *)
Theorem generated_code_format (env : Env) (k : nat) :
  in_unit_interval env ->
  let code := generateRoomId env k in
  (4 <= String.length code <= 6)%nat /\
  String.length code = 6%nat /\
  Forall (fun c => alphanumeric c = true /\ confusable c = false)
         (list_ascii_of_string code).
Proof.
  intros Hr code.
  destruct (generate_loop_spec env 6 Hr k EmptyString) as [Hl Hf];
    [constructor |].
  fold (generateRoomId env k) in Hl, Hf. fold code in Hl, Hf.
  simpl in Hl. repeat split; try lia.
  eapply List.Forall_impl; [| exact Hf].
  intros c Hc. unfold code_char in Hc.
  apply andb_true_iff in Hc. destruct Hc as [Ha Hn].
  split; [exact Ha | now apply negb_true_iff].
Qed.

Lemma generated_code_format_witness :
  in_unit_interval env0 /\
  (4 <= String.length (generateRoomId env0 0) <= 6)%nat.
Proof.
  assert (H : in_unit_interval env0).
  { intros i. simpl. split; [apply Qle_refl | reflexivity]. }
  split; [exact H |].
  exact (proj1 (generated_code_format env0 0 H)).
Defined.

(** * Room ids are looked up by their string form *)

Lemma pretty_N_go_length (x : N) :
  forall s, (String.length s <= String.length (pretty_N_go x s))%nat.
Proof.
  induction (N.lt_wf_0 x) as [x _ IH]. intros s.
  destruct (N.eq_dec x 0%N) as [-> | Hx].
  - rewrite pretty_N_go_0. lia.
  - rewrite pretty_N_go_step by lia.
    etransitivity; [| apply IH; apply N.div_lt; lia].
    simpl. lia.
Qed.

Lemma decimal_nonempty (n : Z) : decimal n <> EmptyString.
Proof.
  assert (Hpos : forall p : positive, pretty p <> EmptyString).
  { intros p. unfold pretty, pretty_positive, pretty, pretty_N.
    destruct (decide (N.pos p = 0%N)) as [Hp | _]; [discriminate |].
    rewrite pretty_N_go_step by lia.
    intros Heq.
    pose proof (pretty_N_go_length (N.pos p `div` 10)%N
                  (String (pretty_N_char (N.pos p `mod` 10)%N) EmptyString)) as Hl.
    rewrite Heq in Hl. simpl in Hl. lia. }
  unfold decimal, pretty, pretty_Z. destruct n as [| p | p].
  - discriminate.
  - apply Hpos.
  - discriminate.
Qed.

Lemma eqb_empty_false (s : string) :
  s <> EmptyString -> String.eqb s EmptyString = false.
Proof. intros H. now apply String.eqb_neq. Qed.

(** the string form of a truthy value is a truthy string *)
Lemma toString_truthy (v : jsval) (s : string) :
  truthy v = true -> toString v = Some s -> truthy (JStr s) = true.
Proof.
  destruct v as [| | [|] | n | t | fields]; simpl; try discriminate.
  - intros _ [= <-]. reflexivity.
  - intros _ [= <-]. now rewrite eqb_empty_false by apply decimal_nonempty.
  - intros Ht [= <-]. exact Ht.
  - intros _. destruct (own_prop fields "toString"); [discriminate |].
    intros [= <-]. reflexivity.
Qed.

Lemma rooms_get_set (k : string) (r : Room) (l : list (string * Room)) :
  rooms_get k (rooms_set k r l) = Some r.
Proof.
  induction l as [| [k' r'] l IH]; simpl.
  - now rewrite String.eqb_refl.
  - destruct (String.eqb k k') eqn:E; simpl; rewrite ?String.eqb_refl, ?E; auto.
Qed.



(** * Presentation actions *)

Lemma room_tv_paired (st : State) (s : Socket) (rid tvId : string) (room : Room) :
  sk_roomId s = Some rid ->
  rooms_get rid (rooms st) = Some room ->
  tv room = Some tvId ->
  connected (sock st tvId) = true ->
  room_tv st s = Some tvId.
Proof.
  intros Hrid Hroom Htv Hconn. unfold room_tv, live.
  now rewrite Hrid, Hroom, Htv, Hconn.
Qed.

Lemma authorized_mobile (s : Socket) (rid : string) :
  deviceType s = Some Mobile -> sk_roomId s = Some rid -> rid <> EmptyString ->
  unauthorized s = false.
Proof.
  intros Hd Hr Hne. unfold unauthorized, in_room.
  now rewrite Hd, Hr, eqb_empty_false.
Qed.

(** C1, as the code has it: in the room server a registered mobile in a
    room with a connected TV has its presentation_action forwarded for
    every truthy action, whatever its value; only a missing or falsy action
    is answered with MISSING_ACTION (a payload that cannot be read with
    PRESENTATION_ACTION_ERROR) and not forwarded.  The single-slot server
    forwards exactly the actions of its validActions list and answers
    INVALID_ACTION otherwise. *)
Theorem presentation_action_forwarding :
  (forall env st sid data rid room tvId,
      deviceType (sock st sid) = Some Mobile ->
      sk_roomId (sock st sid) = Some rid -> rid <> EmptyString ->
      rooms_get rid (rooms st) = Some room ->
      tv room = Some tvId ->
      connected (sock st tvId) = true ->
      on_presentation_action env st sid data =
      (st,
       match prop data "action" with
       | Some action =>
           if truthy action then
             [Emit tvId "presentation_action"
                [("action", FVal action);
                 ("params", FVal (js_or (oprop data "params") (JObj [])));
                 ("roomId", FVal (JStr rid));
                 ("timestamp", FTime (now env));
                 ("from", FVal (JStr sid))]]
           else [Emit sid "error" (err "Action is required" "MISSING_ACTION")]
       | None =>
           [Emit sid "error"
              (caught "Failed to execute presentation action"
                      "PRESENTATION_ACTION_ERROR")]
       end))
  /\ (forall env clients sid data tvId,
        V1.tv clients = Some tvId ->
        V1.presentation_action env clients (Some Mobile) sid data =
        match prop data "action" with
        | Some (JStr a) =>
            if existsb (String.eqb a) V1.validActions then
              [Emit tvId "presentation_action"
                 (pset "from" (FVal (JStr sid))
                 (pset "timestamp" (FTime (now env)) (spread data)))]
            else [Emit sid "error" (err "Invalid presentation action" "INVALID_ACTION")]
        | _ => [Emit sid "error" (err "Invalid presentation action" "INVALID_ACTION")]
        end).
Proof.
  split.
  - intros env st sid data rid room tvId Hd Hrid Hne Hroom Htv Hconn.
    unfold on_presentation_action.
    rewrite (authorized_mobile _ rid Hd Hrid Hne).
    rewrite (room_tv_paired st _ rid tvId room Hrid Hroom Htv Hconn).
    unfold roomId_val. rewrite Hrid.
    destruct (prop data "action") as [action |]; [| reflexivity].
    destruct (truthy action); reflexivity.
  - intros env clients sid data tvId Htv.
    unfold V1.presentation_action. simpl is_mobile. cbv iota. rewrite Htv.
    destruct (prop data "action") as [[| | b | n | a | fs] |]; try reflexivity.
    unfold V1.includes. destruct (existsb (String.eqb a) V1.validActions); reflexivity.
Qed.

Lemma presentation_action_forwarding_witness :
  snd (on_presentation_action env0 paired "m1" (JObj [("action", JStr "play")]))
  = [Emit "t1" "presentation_action"
       [("action", FVal (JStr "play")); ("params", FVal (JObj []));
        ("roomId", FVal (JStr "1234")); ("timestamp", FTime 1000);
        ("from", FVal (JStr "m1"))]].
Proof.
  rewrite (proj1 presentation_action_forwarding env0 paired "m1"
             (JObj [("action", JStr "play")]) "1234"
             (mkRoom (Some "t1") (Some "m1") 1000) "t1");
    [reflexivity | reflexivity | reflexivity | discriminate
     | reflexivity | reflexivity | reflexivity].
Defined.

(** C1 fails as stated: "dance" is not one of the listed actions, yet the
    room server forwards it to the TV and sends no error to the mobile. *)
Lemma unlisted_action_is_forwarded :
  let tr := snd (on_presentation_action env0 paired "m1"
                   (JObj [("action", JStr "dance")])) in
  existsb (String.eqb "dance") listed_actions = false
  /\ tr = [Emit "t1" "presentation_action"
             [("action", FVal (JStr "dance")); ("params", FVal (JObj []));
              ("roomId", FVal (JStr "1234")); ("timestamp", FTime 1000);
              ("from", FVal (JStr "m1"))]]
  /\ sent tr "m1" "error" = false.
Proof. vm_compute. repeat split. Qed.

(** * Failed mobile registrations *)

(** C2, as the code has it: for a room code that passes the format check
    (a string form of at least four characters) register_mobile fails with
    ROOM_NOT_FOUND when no room has that code and with NO_TV_IN_ROOM when
    the room's TV slot is empty or its TV is not connected; a code that is
    absent or too short is turned down before any lookup, with
    ROOM_ID_REQUIRED or INVALID_ROOM_ID.  Each of these failures sends one
    error to the caller and leaves the whole state as it was. *)
Theorem register_mobile_failures (env : Env) (st : State) (sid : string)
    (data : jsval) :
  let supplied := oprop data "roomId" in
  (truthy supplied = false ->
   register_mobile env st sid data =
   (st, [Emit sid "error"
           (err "Room ID is required for mobile registration" "ROOM_ID_REQUIRED")]))
  /\ (forall roomId,
        truthy supplied = true -> toString supplied = Some roomId ->
        validateRoomId roomId = false ->
        register_mobile env st sid data =
        (st, [Emit sid "error" (err "Invalid room ID format" "INVALID_ROOM_ID")]))
  /\ (forall roomId,
        truthy supplied = true -> toString supplied = Some roomId ->
        validateRoomId roomId = true ->
        rooms_get roomId (rooms st) = None ->
        register_mobile env st sid data =
        (st, [Emit sid "error" (room_not_found roomId)]))
  /\ (forall roomId room,
        truthy supplied = true -> toString supplied = Some roomId ->
        validateRoomId roomId = true ->
        rooms_get roomId (rooms st) = Some room ->
        live st (tv room) = false ->
        register_mobile env st sid data =
        (st, [Emit sid "error" (no_tv_in_room roomId)])).
Proof.
  intros supplied. unfold register_mobile. fold supplied.
  repeat split.
  - intros Hv. now rewrite Hv.
  - intros roomId Hv Hs Hval. rewrite Hv, Hs, Hval. simpl.
    pose proof (toString_truthy _ _ Hv Hs) as Ht. simpl in Ht.
    apply negb_true_iff in Ht. now rewrite Ht.
  - intros roomId Hv Hs Hval Hnone. rewrite Hv, Hs, Hval, Hnone. simpl.
    pose proof (toString_truthy _ _ Hv Hs) as Ht. simpl in Ht.
    apply negb_true_iff in Ht. now rewrite Ht.
  - intros roomId room Hv Hs Hval Hroom Hlive.
    rewrite Hv, Hs, Hval, Hroom, Hlive. simpl.
    pose proof (toString_truthy _ _ Hv Hs) as Ht. simpl in Ht.
    apply negb_true_iff in Ht. now rewrite Ht.
Qed.

Lemma register_mobile_failures_witness :
  register_mobile env0 tv_offline "m1" (JObj [("roomId", JStr "1234")])
  = (tv_offline, [Emit "m1" "error" (no_tv_in_room "1234")]).
Proof.
  apply (proj2 (proj2 (proj2
           (register_mobile_failures env0 tv_offline "m1"
              (JObj [("roomId", JStr "1234")]))))
           "1234" (mkRoom (Some "t1") None 1000));
    reflexivity.
Defined.

(** C2 fails as stated: no room exists for the code "abc", yet the error is
    INVALID_ROOM_ID, not ROOM_NOT_FOUND; a call without a code is answered
    with ROOM_ID_REQUIRED. *)
Lemma short_code_is_not_missing_room :
  rooms_get "abc" (rooms paired) = None
  /\ error_codes (snd (register_mobile env0 paired "m2" (JObj [("roomId", JStr "abc")])))
                 "m2" = [code "INVALID_ROOM_ID"]
  /\ error_codes (snd (register_mobile env0 paired "m2" (JObj []))) "m2"
     = [code "ROOM_ID_REQUIRED"]
  /\ code "INVALID_ROOM_ID" <> code "ROOM_NOT_FOUND".
Proof. vm_compute. repeat split. discriminate. Qed.

(** * What the TV receives from a relay event *)

Lemma room_tv_inv (st : State) (s : Socket) (tvId : string) :
  room_tv st s = Some tvId ->
  exists rid room,
    sk_roomId s = Some rid /\ rooms_get rid (rooms st) = Some room
    /\ tv room = Some tvId /\ connected (sock st tvId) = true.
Proof.
  unfold room_tv. destruct (sk_roomId s) as [rid |]; [| discriminate].
  destruct (rooms_get rid (rooms st)) as [room |] eqn:Hroom; [| discriminate].
  destruct (live st (tv room)) eqn:Hlive; [| discriminate].
  intros Htv. exists rid, room. repeat split; try assumption.
  unfold live in Hlive. rewrite Htv in Hlive. exact Hlive.
Qed.

Lemma sent_error_head (sid : string) (p : Payload) (tr : Trace) :
  sent (Emit sid "error" p :: tr) sid "error" = true.
Proof. unfold sent. simpl. now rewrite String.eqb_refl. Qed.

Lemma oprop_of_prop (data : jsval) (k : string) (v : jsval) :
  prop data k = Some v -> oprop data k = v.
Proof. unfold oprop. now intros ->. Qed.

Lemma oprop_defined (data : jsval) (k k' : string) (v : jsval) :
  prop data k = Some v -> prop data k' = Some (oprop data k').
Proof. destruct data; simpl; try discriminate; reflexivity. Qed.

Ltac relay_rejected :=
  match goal with
  | H : sent (Emit ?sid "error" ?p :: ?tr) ?sid "error" = false |- _ =>
      rewrite sent_error_head in H; discriminate H
  end.

Ltac field_cases :=
  repeat match goal with
         | H : In _ [] |- _ => destruct H
         | H : In _ (_ :: _) |- _ => destruct H as [H | H]
         | H : (_, _) = (_, _) |- _ => injection H as <- <-
         | H : _ = ?f |- _ => is_var f; subst f
         end.

(** C4, as the code has it: when a typed relay event is accepted (no error
    goes back to the sender) the TV of the sender's room is sent the event
    with the server's clock as timestamp and the sender's id as "from"; the
    validated fields (slideIndex, scrollOffset, the pageNumber of a page
    change, action, documentType, documentUrl) are the sender's values,
    while the pageNumber of a scroll, params and metadata are the sender's
    values only when truthy and 1 or an empty object otherwise. *)
Theorem relayed_payload (k : Kind) (env : Env) (st : State) (sid : string)
    (data : jsval) :
  sent (snd (on_relay k env st sid data)) sid "error" = false ->
  exists rid room tvId p rest,
    sk_roomId (sock st sid) = Some rid
    /\ rooms_get rid (rooms st) = Some room
    /\ tv room = Some tvId
    /\ on_relay k env st sid data = (st, Emit tvId (event_name k) p :: rest)
    /\ pfield p "timestamp" = Some (FTime (now env))
    /\ pfield p "from" = Some (FVal (JStr sid))
    /\ (forall f, In f (verbatim_fields k) ->
                  pfield p f = Some (FVal (oprop data f)))
    /\ (forall f d, In (f, d) (defaulted_fields k) ->
                    pfield p f = Some (FVal (js_or (oprop data f) d))).
Proof.
  intros Hok.
  destruct k; simpl on_relay in *;
    [ unfold on_slide_change in *
    | unfold on_pdf_scroll in *
    | unfold on_pdf_page_change in *
    | unfold on_presentation_action in *
    | unfold on_load_document in * ];
    (destruct (unauthorized (sock st sid)); [cbn [snd] in Hok; relay_rejected |]);
    (destruct (room_tv st (sock st sid)) as [tvId |] eqn:Htv;
       [| cbn [snd] in Hok; relay_rejected]);
    destruct (room_tv_inv _ _ _ Htv) as (rid & room & Hrid & Hroom & Hslot & _);
    exists rid, room, tvId.
  - destruct (prop data "slideIndex") as [v |] eqn:Hv; [| cbn [snd] in Hok; relay_rejected].
    destruct (negb (typeof_number v) || lt_num v 0); [cbn [snd] in Hok; relay_rejected |].
    eexists. eexists. repeat split; try eassumption; try reflexivity.
    + intros f Hf. cbn [verbatim_fields] in Hf. field_cases. rewrite (oprop_of_prop _ _ _ Hv). reflexivity.
    + intros f d Hf. cbn [defaulted_fields] in Hf. field_cases.
  - destruct (prop data "scrollOffset") as [v |] eqn:Hv; [| cbn [snd] in Hok; relay_rejected].
    destruct (negb (typeof_number v)); [cbn [snd] in Hok; relay_rejected |].
    eexists. eexists. repeat split; try eassumption; try reflexivity.
    + intros f Hf. cbn [verbatim_fields] in Hf. field_cases. rewrite (oprop_of_prop _ _ _ Hv). reflexivity.
    + intros f d Hf. cbn [defaulted_fields] in Hf. field_cases. reflexivity.
  - destruct (prop data "pageNumber") as [v |] eqn:Hv; [| cbn [snd] in Hok; relay_rejected].
    destruct (negb (typeof_number v) || lt_num v 1); [cbn [snd] in Hok; relay_rejected |].
    eexists. eexists. repeat split; try eassumption; try reflexivity.
    + intros f Hf. cbn [verbatim_fields] in Hf. field_cases. rewrite (oprop_of_prop _ _ _ Hv). reflexivity.
    + intros f d Hf. cbn [defaulted_fields] in Hf. field_cases.
  - destruct (prop data "action") as [v |] eqn:Hv; [| cbn [snd] in Hok; relay_rejected].
    destruct (negb (truthy v)); [cbn [snd] in Hok; relay_rejected |].
    eexists. eexists. repeat split; try eassumption; try reflexivity.
    + intros f Hf. cbn [verbatim_fields] in Hf. field_cases. rewrite (oprop_of_prop _ _ _ Hv). reflexivity.
    + intros f d Hf. cbn [defaulted_fields] in Hf. field_cases. reflexivity.
  - destruct (prop data "documentType") as [v |] eqn:Hv; [| cbn [snd] in Hok; relay_rejected].
    destruct (negb (truthy v) || negb (truthy (oprop data "documentUrl")));
      [cbn [snd] in Hok; relay_rejected |].
    eexists. eexists. repeat split; try eassumption; try reflexivity.
    + intros f Hf. cbn [verbatim_fields] in Hf. field_cases; [| reflexivity].
      rewrite (oprop_of_prop _ _ _ Hv). reflexivity.
    + intros f d Hf. cbn [defaulted_fields] in Hf. field_cases. reflexivity.
Qed.

Lemma relayed_payload_witness :
  exists p rest,
    on_relay PdfScroll env0 paired "m1"
      (JObj [("scrollOffset", JNum 40); ("pageNumber", JNum 2)])
    = (paired, Emit "t1" "pdf_scroll" p :: rest)
    /\ pfield p "timestamp" = Some (FTime 1000)
    /\ pfield p "scrollOffset" = Some (FVal (JNum 40))
    /\ pfield p "pageNumber" = Some (FVal (JNum 2)).
Proof.
  destruct (relayed_payload PdfScroll env0 paired "m1"
              (JObj [("scrollOffset", JNum 40); ("pageNumber", JNum 2)]) eq_refl)
    as (rid & room & tvId & p & rest & Hrid & Hroom & Htv & Hrun & Hts & _ & Hv & Hd).
  injection Hrid as <-. injection Hroom as <-. injection Htv as <-.
  exists p, rest. repeat split.
  - exact Hrun.
  - exact Hts.
  - exact (Hv "scrollOffset" (or_introl eq_refl)).
  - exact (Hd "pageNumber" (JNum 1) (or_introl eq_refl)).
Defined.

(** C4 fails as stated: an accepted pdf_scroll whose pageNumber is 0 reaches
    the TV with pageNumber 1. *)
Lemma scroll_page_zero_is_altered :
  let data := JObj [("scrollOffset", JNum 40); ("pageNumber", JNum 0)] in
  let tr := snd (on_pdf_scroll env0 paired "m1" data) in
  sent tr "m1" "error" = false
  /\ prop data "pageNumber" = Some (JNum 0)
  /\ exists p, tr = [Emit "t1" "pdf_scroll" p]
               /\ pfield p "pageNumber" = Some (FVal (JNum 1))
               /\ pfield p "pageNumber" <> Some (FVal (JNum 0)).
Proof.
  vm_compute. repeat split. eexists. repeat split. discriminate.
Qed.

(** * Generated codes and the room table *)

Lemma generated_code_valid (env : Env) (k : nat) :
  in_unit_interval env -> validateRoomId (generateRoomId env k) = true.
Proof.
  intros Hr.
  destruct (generate_loop_spec env 6 Hr k EmptyString) as [Hl _]; [constructor |].
  fold (generateRoomId env k) in Hl. simpl in Hl.
  unfold validateRoomId. rewrite Hl.
  destruct (generateRoomId env k); [discriminate Hl | reflexivity].
Qed.

Lemma tv_roomId_generated (env : Env) (data : jsval) :
  in_unit_interval env -> code_missing_or_invalid data ->
  tv_roomId env data = Some (generateRoomId env 0).
Proof.
  intros Hr [Hv | (s & Hv & Hs & Hval)]; unfold tv_roomId; rewrite Hv.
  - now rewrite generated_code_valid.
  - now rewrite Hs, Hval.
Qed.

Lemma tv_roomId_supplied (env : Env) (roomId : string) (rest : list (string * jsval)) :
  validateRoomId roomId = true ->
  tv_roomId env (JObj (("roomId", JStr roomId) :: rest)) = Some roomId.
Proof.
  intros Hval. unfold tv_roomId, oprop. simpl prop. simpl default.
  assert (Ht : truthy (JStr roomId) = true).
  { simpl. destruct roomId; [discriminate Hval | reflexivity]. }
  rewrite Ht. cbn [toString]. now rewrite Hval.
Qed.

Lemma register_tv_slot (env : Env) (st : State) (sid : string) (data : jsval)
    (roomId : string) :
  tv_roomId env data = Some roomId ->
  exists room,
    rooms_get roomId (rooms (fst (register_tv env st sid data))) = Some room
    /\ tv room = Some sid.
Proof.
  intros Hid. unfold register_tv. rewrite Hid.
  destruct (replace_tv env st sid roomId) as [st1 tr1].
  eexists. split; [simpl; apply rooms_get_set | reflexivity].
Qed.

(** C3, as the code has it: when the payload of register_tv carries no
    usable code, the room code is the six characters that generateRoomId
    draws, and the call goes on exactly as a registration that names this
    code: the generator is not compared with the room table, so the code
    may be that of a room already there, and the caller ends up as the TV
    of the room under that code. *)
Theorem generated_code_not_checked (env : Env) (st : State) (sid : string)
    (data : jsval) :
  in_unit_interval env ->
  code_missing_or_invalid data ->
  let code := generateRoomId env 0 in
  tv_roomId env data = Some code
  /\ register_tv env st sid data
     = register_tv env st sid
         (JObj [("roomId", JStr code); ("deviceName", oprop data "deviceName")])
  /\ exists room,
       rooms_get code (rooms (fst (register_tv env st sid data))) = Some room
       /\ tv room = Some sid.
Proof.
  intros Hr Hdata code.
  pose proof (tv_roomId_generated env data Hr Hdata) as Hid. fold code in Hid.
  split; [exact Hid |]. split.
  - unfold register_tv. rewrite Hid.
    rewrite (tv_roomId_supplied env code _ (generated_code_valid env 0 Hr)).
    reflexivity.
  - now apply register_tv_slot.
Qed.

Lemma env0_in_unit_interval : in_unit_interval env0.
Proof. intros i. simpl. split; [apply Qle_refl | reflexivity]. Qed.

Lemma generated_code_not_checked_witness :
  code_missing_or_invalid (JObj [("roomId", JStr "abc")])
  /\ tv_roomId env0 (JObj [("roomId", JStr "abc")]) = Some "AAAAAA".
Proof.
  assert (H : code_missing_or_invalid (JObj [("roomId", JStr "abc")])).
  { right. exists "abc". repeat split. }
  split; [exact H |].
  exact (proj1 (generated_code_not_checked env0 init "t1"
                  (JObj [("roomId", JStr "abc")]) env0_in_unit_interval H)).
Defined.

(** C3 fails as stated: with room "AAAAAA" in the table, a registration
    without a code can be given "AAAAAA" again; the TV already in that room
    is then replaced. *)
Lemma generated_code_collides :
  let r := register_tv env0 taken "t2" JUndefined in
  in_unit_interval env0
  /\ code_missing_or_invalid JUndefined
  /\ rooms_has "AAAAAA" (rooms taken) = true
  /\ tv_roomId env0 JUndefined = Some "AAAAAA"
  /\ sent (snd r) "t1" "replaced" = true
  /\ rooms (fst r) = [("AAAAAA", mkRoom (Some "t2") None 1000)].
Proof.
  split; [exact env0_in_unit_interval |].
  split; [left; reflexivity |].
  vm_compute. repeat split.
Qed.

(** * Taking over the TV slot *)


Lemma force_disconnect_rooms (st : State) (id : string) :
  rooms (fst (force_disconnect st id)) = rooms st.
Proof. unfold force_disconnect. now destruct (connected (sock st id)). Qed.

Lemma replace_tv_rooms (env : Env) (st : State) (sid roomId : string) :
  rooms (fst (replace_tv env st sid roomId)) = rooms st.
Proof.
  unfold replace_tv.
  destruct (rooms_get roomId (rooms st)) as [room |]; [| reflexivity].
  destruct (live st (tv room)); [| reflexivity].
  destruct (tv room) as [old |]; [| reflexivity].
  destruct (negb (String.eqb old sid)); [| reflexivity].
  destruct (connected (sock st old)); [| reflexivity].
  pose proof (force_disconnect_rooms st old) as H.
  destruct (force_disconnect st old). exact H.
Qed.




Lemma sock_set_sock (st : State) (id : string) (s : Socket) :
  sock (set_sock st id s) id = s.
Proof. unfold sock, set_sock. simpl. now rewrite lookup_insert_eq. Qed.

Lemma sock_set_sock_ne (st : State) (id id' : string) (s : Socket) :
  id <> id' -> sock (set_sock st id s) id' = sock st id'.
Proof. intros H. unfold sock, set_sock. simpl. now rewrite lookup_insert_ne. Qed.

Lemma sock_with_stats (st : State) (s : Stats) (id : string) :
  sock (with_stats st s) id = sock st id.
Proof. reflexivity. Qed.

Lemma sock_with_rooms (st : State) (l : list (string * Room)) (id : string) :
  sock (with_rooms st l) id = sock st id.
Proof. reflexivity. Qed.

Lemma sock_ensure_room (env : Env) (st : State) (roomId id : string) :
  sock (ensure_room env st roomId) id = sock st id.
Proof. unfold ensure_room. now destruct (rooms_has roomId (rooms st)). Qed.



(** * The eviction notice comes first *)

Lemma no_disconnect_ordered (tr : Trace) :
  no_disconnect tr -> notice_before_disconnect tr.
Proof.
  intros Hno pre x post ->.
  unfold no_disconnect in Hno. rewrite List.Forall_forall in Hno.
  exfalso. apply (Hno (ForceDisconnect x)).
  apply in_or_app. right. now left.
Qed.

(** the shape of an eviction: notice, leave, then at most the disconnect *)
Lemma eviction_ordered (x roomId : string) (p : Payload) (fd tail : Trace) :
  fd = [] \/ fd = [ForceDisconnect x] ->
  no_disconnect tail ->
  notice_before_disconnect
    ([Emit x "replaced" p; Leave x roomId] ++ fd ++ tail).
Proof.
  intros Hfd Htail pre y post Heq.
  assert (Hin : forall pre', tail = pre' ++ ForceDisconnect y :: post -> False).
  { intros pre' ->. unfold no_disconnect in Htail.
    rewrite List.Forall_forall in Htail.
    apply (Htail (ForceDisconnect y)). apply in_or_app. right. now left. }
  destruct pre as [| a pre]; [discriminate Heq |].
  injection Heq as <- Heq.
  destruct pre as [| b pre]; [discriminate Heq |].
  injection Heq as <- Heq.
  destruct Hfd as [-> | ->]; simpl in Heq.
  - exfalso. now apply (Hin pre).
  - destruct pre as [| c pre]; simpl in Heq.
    + injection Heq as <- _. exists p. now left.
    + injection Heq as _ Heq. exfalso. now apply (Hin pre).
Qed.

Lemma force_disconnect_trace (st : State) (id : string) :
  snd (force_disconnect st id) = [] \/
  snd (force_disconnect st id) = [ForceDisconnect id].
Proof. unfold force_disconnect. destruct (connected (sock st id)); auto. Qed.

Lemma replace_tv_trace (env : Env) (st : State) (sid roomId : string) :
  snd (replace_tv env st sid roomId) = [] \/
  exists old p fd,
    snd (replace_tv env st sid roomId)
    = [Emit old "replaced" p; Leave old roomId] ++ fd
    /\ (fd = [] \/ fd = [ForceDisconnect old]).
Proof.
  unfold replace_tv.
  destruct (rooms_get roomId (rooms st)) as [room |]; [| now left].
  destruct (live st (tv room)); [| now left].
  destruct (tv room) as [old |]; [| now left].
  destruct (negb (String.eqb old sid)); [| now left].
  right. exists old.
  destruct (connected (sock st old)).
  - pose proof (force_disconnect_trace st old) as H.
    destruct (force_disconnect st old) as [st1 tr]. simpl in *.
    eexists. exists tr. split; [reflexivity | exact H].
  - eexists. exists []. split; [reflexivity | now left].
Qed.

Lemma replace_mobile_trace (env : Env) (st : State) (sid roomId : string)
    (room : Room) :
  snd (replace_mobile env st sid roomId room) = [] \/
  exists old p fd,
    snd (replace_mobile env st sid roomId room)
    = [Emit old "replaced" p; Leave old roomId] ++ fd
    /\ (fd = [] \/ fd = [ForceDisconnect old]).
Proof.
  unfold replace_mobile.
  destruct (mobile room) as [old |]; [| now left].
  destruct (connected (sock st old) && negb (String.eqb old sid)); [| now left].
  right. exists old.
  pose proof (force_disconnect_trace st old) as H.
  destruct (force_disconnect st old) as [st1 tr]. simpl in *.
  eexists. exists tr. split; [reflexivity | exact H].
Qed.

Ltac no_disconnect_by_cases :=
  unfold no_disconnect;
  repeat first
    [ apply List.Forall_nil
    | apply List.Forall_cons; [exact I |]
    | match goal with
      | |- Forall _ (match ?x with _ => _ end) => destruct x
      | |- Forall _ (if ?c then _ else _) => destruct c
      end ].

(** C6: in the trace of either registration handler every forced
    disconnect of a socket comes after a 'replaced' notice sent to that
    same socket. *)
Theorem eviction_notice_precedes_disconnect (env : Env) (st : State)
    (sid : string) (data : jsval) :
  notice_before_disconnect (snd (register_tv env st sid data))
  /\ notice_before_disconnect (snd (register_mobile env st sid data)).
Proof.
  split.
  - unfold register_tv.
    destruct (tv_roomId env data) as [roomId |];
      [| apply no_disconnect_ordered; no_disconnect_by_cases].
    pose proof (replace_tv_trace env st sid roomId) as Hshape.
    destruct (replace_tv env st sid roomId) as [st1 tr1]. cbn [snd] in *.
    destruct Hshape as [-> | (old & p & fd & -> & Hfd)].
    + apply no_disconnect_ordered. simpl. no_disconnect_by_cases.
    + rewrite <- app_assoc. apply eviction_ordered; [exact Hfd |].
      simpl. no_disconnect_by_cases.
  - unfold register_mobile.
    destruct (negb (truthy (oprop data "roomId")));
      [apply no_disconnect_ordered; no_disconnect_by_cases |].
    destruct (toString (oprop data "roomId")) as [roomId |];
      [| apply no_disconnect_ordered; no_disconnect_by_cases].
    destruct (String.eqb roomId EmptyString);
      [apply no_disconnect_ordered; no_disconnect_by_cases |].
    destruct (negb (validateRoomId roomId));
      [apply no_disconnect_ordered; no_disconnect_by_cases |].
    destruct (rooms_get roomId (rooms st)) as [room |];
      [| apply no_disconnect_ordered; no_disconnect_by_cases].
    destruct (if live st (tv room) then tv room else None) as [tvId |];
      [| apply no_disconnect_ordered; no_disconnect_by_cases].
    pose proof (replace_mobile_trace env st sid roomId room) as Hshape.
    destruct (replace_mobile env st sid roomId room) as [st1 tr1]. cbn [snd] in *.
    destruct Hshape as [-> | (old & p & fd & -> & Hfd)].
    + apply no_disconnect_ordered. simpl. no_disconnect_by_cases.
    + rewrite <- app_assoc. apply eviction_ordered; [exact Hfd |].
      no_disconnect_by_cases.
Qed.

Lemma eviction_notice_precedes_disconnect_witness :
  exists p,
    In (Emit "t1" "replaced" p)
       [Emit "t1" "replaced"
          [("message", FVal (JStr "New TV connected to this room"));
           ("timestamp", FTime 1000)];
        Leave "t1" "1234"].
Proof.
  apply (proj1 (eviction_notice_precedes_disconnect env0 paired "t2"
                  (JObj [("roomId", JStr "1234")]))
           _ "t1"
           [Join "t2" "1234";
            Emit "t2" "registered"
              [("deviceType", FVal (JStr "tv")); ("roomId", FVal (JStr "1234"));
               ("clientId", FVal (JStr "t2")); ("timestamp", FTime 1000);
               ("message", FVal (JStr "TV registered successfully"))];
            Emit "m1" "tv_connected"
              [("status", FVal (JStr "tv_connected")); ("deviceId", FVal (JStr "t2"));
               ("deviceName", FVal (JStr "TV Display")); ("timestamp", FTime 1000)];
            Emit "t2" "mobile_connected"
              [("status", FVal (JStr "mobile_connected")); ("deviceId", FVal (JStr "m1"));
               ("deviceName", FVal (JStr "Mobile Controller"));
               ("timestamp", FTime 1000)]]).
  vm_compute. reflexivity.
Defined.

(** * Disconnecting twice *)

Lemma rooms_get_delete (k : string) (l : list (string * Room)) :
  rooms_get k (rooms_delete k l) = None.
Proof.
  induction l as [| [k' r'] l IH]; simpl; [reflexivity |].
  destruct (String.eqb k k') eqn:E; simpl; [exact IH | now rewrite E].
Qed.

Lemma cleanupRoom_sockets (st : State) (roomId reason : string) :
  sockets (fst (cleanupRoom st roomId reason)) = sockets st.
Proof. unfold cleanupRoom. now destruct (rooms_get roomId (rooms st)). Qed.

Lemma cleanupRoom_rooms (st : State) (roomId reason : string) :
  rooms (fst (cleanupRoom st roomId reason)) = rooms_delete roomId (rooms st).
Proof.
  unfold cleanupRoom. destruct (rooms_get roomId (rooms st)) eqn:E; simpl.
  - reflexivity.
  - clear reason. induction (rooms st) as [| [k' r'] l IH]; simpl in *; [reflexivity |].
    destruct (String.eqb roomId k'); [discriminate |]. now rewrite <- IH.
Qed.

Lemma vacate_sockets (env : Env) (st : State) (sid reason roomId : string)
    (room : Room) :
  sockets (fst (vacate env st sid reason roomId room)) = sockets st.
Proof.
  unfold vacate.
  destruct (is_tv (deviceType (sock st sid)) && slot_is (tv room) sid);
    [reflexivity |].
  now destruct (is_mobile (deviceType (sock st sid)) && slot_is (mobile room) sid).
Qed.

Lemma sock_same_sockets (st st' : State) (id : string) :
  sockets st' = sockets st -> sock st' id = sock st id.
Proof. unfold sock. now intros ->. Qed.

Lemma live_same_sockets (st st' : State) (slot : option string) :
  sockets st' = sockets st -> live st' slot = live st slot.
Proof.
  intros H. destruct slot as [id |]; [| reflexivity].
  simpl. now rewrite (sock_same_sockets st st' id H).
Qed.

Lemma device_type_exclusive (d : option DeviceType) :
  is_tv d = true -> is_mobile d = false.
Proof. now destruct d as [[|] |]. Qed.

(** the second run of the handler finds nothing to do *)
Lemma on_disconnect_settled (env : Env) (st : State) (sid reason : string) :
  settled st sid ->
  on_disconnect env st sid reason
  = (with_stats st
       (set_currentConnections (dec0 (currentConnections (stats st))) (stats st)),
     []).
Proof.
  intros Hs. unfold on_disconnect.
  set (st0 := with_stats st _).
  change (sock st0 sid) with (sock st sid).
  destruct (in_room (sock st sid)) eqn:Hin; [| reflexivity].
  change (rooms st0) with (rooms st).
  destruct (rooms_get (default EmptyString (sk_roomId (sock st sid))) (rooms st))
    as [room |] eqn:Hroom; [| reflexivity].
  destruct (Hs Hin room Hroom) as (Ht & Hm & Hkeep).
  unfold vacate. change (sock st0 sid) with (sock st sid).
  rewrite Ht, Hm. unfold the_room. change (rooms st0) with (rooms st).
  rewrite Hroom. simpl default.
  change (live st0) with (live st). now rewrite Hkeep.
Qed.

(** the first run leaves the state settled, and the sockets as they were *)
Lemma on_disconnect_settles (env : Env) (st : State) (sid reason : string) :
  settled (fst (on_disconnect env st sid reason)) sid.
Proof.
  unfold on_disconnect.
  set (st0 := with_stats st _).
  change (sock st0 sid) with (sock st sid).
  destruct (in_room (sock st sid)) eqn:Hin.
  2:{ intros Hin'. simpl in Hin'. change (sock st0 sid) with (sock st sid) in Hin'.
      congruence. }
  set (roomId := default EmptyString (sk_roomId (sock st sid))).
  change (rooms st0) with (rooms st).
  destruct (rooms_get roomId (rooms st)) as [room |] eqn:Hroom.
  2:{ intros _ room' Hroom'. simpl in Hroom'.
      change (sock st0 sid) with (sock st sid) in Hroom'.
      change (rooms st0) with (rooms st) in Hroom'.
      fold roomId in Hroom'. congruence. }
  pose proof (vacate_sockets env st0 sid reason roomId room) as Hsock.
  assert (Hcases :
    exists room1,
      rooms_get roomId (rooms (fst (vacate env st0 sid reason roomId room))) = Some room1
      /\ is_tv (deviceType (sock st sid)) && slot_is (tv room1) sid = false
      /\ is_mobile (deviceType (sock st sid)) && slot_is (mobile room1) sid = false).
  { unfold vacate. change (sock st0 sid) with (sock st sid).
    destruct (is_tv (deviceType (sock st sid)) && slot_is (tv room) sid) eqn:Ht.
    - exists (set_tv None room). simpl. rewrite rooms_get_set.
      apply andb_true_iff in Ht. destruct Ht as [Ht _].
      rewrite (device_type_exclusive _ Ht), andb_false_r. auto.
    - destruct (is_mobile (deviceType (sock st sid)) && slot_is (mobile room) sid)
        eqn:Hm.
      + exists (set_mobile None room). simpl. rewrite rooms_get_set.
        rewrite andb_false_r. auto.
      + exists room. simpl. auto. }
  destruct (vacate env st0 sid reason roomId room) as [st1 tr1]. simpl in Hsock, Hcases.
  destruct Hcases as (room1 & Hroom1 & Ht1 & Hm1).
  unfold the_room. rewrite Hroom1. simpl default.
  destruct (negb (live st1 (tv room1)) && negb (live st1 (mobile room1))) eqn:Hempty.
  - pose proof (cleanupRoom_rooms st1 roomId "all_devices_disconnected") as Hr.
    pose proof (cleanupRoom_sockets st1 roomId "all_devices_disconnected") as Hs.
    destruct (cleanupRoom st1 roomId "all_devices_disconnected") as [st2 tr2].
    simpl in Hr, Hs. simpl fst.
    intros _ room' Hroom'.
    rewrite (sock_same_sockets st st2 sid) in Hroom' by (rewrite Hs; exact Hsock).
    fold roomId in Hroom'. rewrite Hr, rooms_get_delete in Hroom'. discriminate.
  - simpl fst. intros _ room' Hroom'.
    rewrite (sock_same_sockets st st1 sid) in * by exact Hsock.
    fold roomId in Hroom'. rewrite Hroom1 in Hroom'. injection Hroom' as <-.
    auto.
Qed.

(** C9, as the code has it: a second run of the disconnect handler for the
    same socket clears no slot, deletes no room, touches no socket, sends
    nothing and leaves the room and device counters alone; the one thing it
    does is lower currentConnections once more (not below zero). *)
Theorem disconnect_twice (env env' : Env) (st : State) (sid reason reason' : string) :
  let once := fst (on_disconnect env st sid reason) in
  let twice := on_disconnect env' once sid reason' in
  rooms (fst twice) = rooms once
  /\ sockets (fst twice) = sockets once
  /\ snd twice = []
  /\ stats (fst twice)
     = set_currentConnections (dec0 (currentConnections (stats once))) (stats once).
Proof.
  intros once twice. unfold twice.
  rewrite (on_disconnect_settled env' once sid reason'
             (on_disconnect_settles env st sid reason)).
  repeat split.
Qed.

(** C9 fails as stated: with two connections open, the TV's disconnect
    event delivered twice leaves currentConnections at 0, delivered once
    at 1. *)
Lemma disconnect_twice_counts_twice :
  let once := fst (step env0 two_connections (EvDisconnect "t1" "transport close")) in
  let twice := fst (step env0 once (EvDisconnect "t1" "transport close")) in
  currentConnections (stats two_connections) = 2
  /\ currentConnections (stats once) = 1
  /\ currentConnections (stats twice) = 0
  /\ stats twice <> stats once.
Proof. vm_compute. repeat split. discriminate. Qed.

(** * No room without an occupant *)

Lemma rooms_ok_set (k : string) (r : Room) (l : list (string * Room)) :
  rooms_ok l -> occupied r = true -> rooms_ok (rooms_set k r l).
Proof.
  intros Hl Hr. induction l as [| [k' r'] l IH]; simpl.
  - repeat constructor. exact Hr.
  - inversion Hl as [| ? ? Hhd Htl]; subst.
    destruct (String.eqb k k'); constructor;
      [exact Hr | exact Htl | exact Hhd | exact (IH Htl)].
Qed.

Lemma rooms_ok_delete (k : string) (l : list (string * Room)) :
  rooms_ok l -> rooms_ok (rooms_delete k l).
Proof.
  intros Hl. induction l as [| [k' r'] l IH]; simpl; [constructor |].
  inversion Hl as [| ? ? Hhd Htl]; subst.
  destruct (String.eqb k k'); [exact (IH Htl) | constructor];
    [exact Hhd | exact (IH Htl)].
Qed.

Lemma rooms_set_set (k : string) (r r0 : Room) (l : list (string * Room)) :
  rooms_set k r (rooms_set k r0 l) = rooms_set k r l.
Proof.
  induction l as [| [k' r'] l IH]; simpl.
  - now rewrite String.eqb_refl.
  - destruct (String.eqb k k') eqn:E; simpl.
    + now rewrite String.eqb_refl.
    + now rewrite E, IH.
Qed.

Lemma rooms_delete_set (k : string) (r : Room) (l : list (string * Room)) :
  rooms_delete k (rooms_set k r l) = rooms_delete k l.
Proof.
  induction l as [| [k' r'] l IH]; simpl.
  - now rewrite String.eqb_refl.
  - destruct (String.eqb k k') eqn:E; simpl.
    + now rewrite String.eqb_refl.
    + now rewrite E, IH.
Qed.

Lemma live_occupied (st : State) (room : Room) :
  negb (live st (tv room)) && negb (live st (mobile room)) = false ->
  occupied room = true.
Proof.
  unfold occupied.
  destruct (tv room), (mobile room); simpl; auto.
Qed.

Lemma cleanupRoom_ok (st : State) (roomId reason : string) :
  table_ok st -> table_ok (fst (cleanupRoom st roomId reason)).
Proof.
  intros H. unfold table_ok. rewrite cleanupRoom_rooms.
  now apply rooms_ok_delete.
Qed.

Lemma register_tv_ok (env : Env) (st : State) (sid : string) (data : jsval) :
  table_ok st -> table_ok (fst (register_tv env st sid data)).
Proof.
  intros H. unfold register_tv.
  destruct (tv_roomId env data) as [roomId |]; [| exact H].
  pose proof (replace_tv_rooms env st sid roomId) as Hr.
  destruct (replace_tv env st sid roomId) as [st1 tr1]. simpl in Hr.
  unfold table_ok. cbn [fst rooms with_stats set_sock with_sockets with_rooms].
  assert (Hocc : forall room, occupied (set_tv (Some sid) room) = true)
    by reflexivity.
  unfold ensure_room. destruct (rooms_has roomId (rooms st1)).
  - rewrite Hr. apply rooms_ok_set; [exact H | apply Hocc].
  - cbn [rooms with_stats with_rooms]. rewrite rooms_set_set, Hr.
    apply rooms_ok_set; [exact H | apply Hocc].
Qed.

Lemma replace_mobile_rooms (env : Env) (st : State) (sid roomId : string)
    (room : Room) :
  rooms (fst (replace_mobile env st sid roomId room)) = rooms st.
Proof.
  unfold replace_mobile.
  destruct (mobile room) as [old |]; [| reflexivity].
  destruct (connected (sock st old) && negb (String.eqb old sid)); [| reflexivity].
  pose proof (force_disconnect_rooms st old) as H.
  destruct (force_disconnect st old). exact H.
Qed.

Lemma register_mobile_ok (env : Env) (st : State) (sid : string) (data : jsval) :
  table_ok st -> table_ok (fst (register_mobile env st sid data)).
Proof.
  intros H. unfold register_mobile.
  destruct (negb (truthy (oprop data "roomId"))); [exact H |].
  destruct (toString (oprop data "roomId")) as [roomId |]; [| exact H].
  destruct (String.eqb roomId EmptyString); [exact H |].
  destruct (negb (validateRoomId roomId)); [exact H |].
  destruct (rooms_get roomId (rooms st)) as [room |]; [| exact H].
  destruct (if live st (tv room) then tv room else None) as [tvId |]; [| exact H].
  pose proof (replace_mobile_rooms env st sid roomId room) as Hr.
  destruct (replace_mobile env st sid roomId room) as [st1 tr1]. simpl in Hr.
  unfold table_ok. cbn [fst rooms with_stats set_sock with_sockets with_rooms].
  rewrite Hr. apply rooms_ok_set; [exact H |].
  unfold occupied. simpl. now destruct (tv room).
Qed.

Lemma on_relay_state (k : Kind) (env : Env) (st : State) (sid : string)
    (data : jsval) :
  fst (on_relay k env st sid data) = st.
Proof.
  destruct k; simpl;
    [ unfold on_slide_change | unfold on_pdf_scroll | unfold on_pdf_page_change
    | unfold on_presentation_action | unfold on_load_document ];
    repeat match goal with
           | |- fst (if ?c then _ else _) = _ => destruct c
           | |- fst (match ?x with _ => _ end) = _ => destruct x
           end; reflexivity.
Qed.

Lemma on_custom_event_state (env : Env) (st : State) (sid : string) (data : jsval) :
  fst (on_custom_event env st sid data) = st.
Proof.
  unfold on_custom_event.
  repeat match goal with
         | |- fst (if ?c then _ else _) = _ => destruct c
         | |- fst (match ?x with _ => _ end) = _ => destruct x
         end; reflexivity.
Qed.

Lemma on_disconnect_ok (env : Env) (st : State) (sid reason : string) :
  table_ok st -> table_ok (fst (on_disconnect env st sid reason)).
Proof.
  intros H. unfold on_disconnect.
  set (st0 := with_stats st _).
  assert (H0 : table_ok st0) by exact H.
  destruct (in_room (sock st0 sid)); [| exact H0].
  set (roomId := default EmptyString (sk_roomId (sock st0 sid))).
  destruct (rooms_get roomId (rooms st0)) as [room |] eqn:Hroom; [| exact H0].
  assert (Hcases :
    rooms (fst (vacate env st0 sid reason roomId room)) = rooms st0
    \/ exists room1,
         rooms (fst (vacate env st0 sid reason roomId room))
         = rooms_set roomId room1 (rooms st0)).
  { unfold vacate.
    destruct (is_tv (deviceType (sock st0 sid)) && slot_is (tv room) sid);
      [right; eexists; reflexivity |].
    destruct (is_mobile (deviceType (sock st0 sid)) && slot_is (mobile room) sid);
      [right; eexists; reflexivity | now left]. }
  destruct (vacate env st0 sid reason roomId room) as [st1 tr1]. simpl in Hcases.
  destruct (negb (live st1 (tv (the_room env st1 roomId)))
            && negb (live st1 (mobile (the_room env st1 roomId)))) eqn:Hempty.
  - pose proof (cleanupRoom_rooms st1 roomId "all_devices_disconnected") as Hr.
    destruct (cleanupRoom st1 roomId "all_devices_disconnected") as [st2 tr2].
    simpl in Hr. unfold table_ok. simpl fst. rewrite Hr.
    destruct Hcases as [-> | [room1 ->]].
    + now apply rooms_ok_delete.
    + rewrite rooms_delete_set. now apply rooms_ok_delete.
  - unfold table_ok. simpl fst.
    destruct Hcases as [Hsame | [room1 Hset]].
    + rewrite Hsame. exact H0.
    + rewrite Hset. apply rooms_ok_set; [exact H0 |].
      unfold the_room in Hempty. rewrite Hset, rooms_get_set in Hempty.
      now apply (live_occupied st1).
Qed.

Lemma time_out_rooms (st : State) (id : string) :
  rooms (fst (time_out st id)) = rooms st.
Proof.
  unfold time_out. destruct (connected (sock st id)); [| reflexivity].
  pose proof (force_disconnect_rooms st id) as H.
  destruct (force_disconnect st id). exact H.
Qed.

Lemma check_mobile_rooms (env : Env) (st : State) (roomId : string) (room : Room) :
  let '(st1, _, needs) := check_mobile env st roomId room in
  (rooms st1 = rooms st /\ needs = false)
  \/ (rooms st1 = rooms_set roomId (set_mobile None room) (rooms st)
      /\ needs = negb (live st1 (tv room))).
Proof.
  unfold check_mobile.
  destruct (mobile room) as [m |]; [| now left].
  destruct (isUnhealthy env (sock st m) 120000); [| now left].
  pose proof (time_out_rooms st m) as Hr.
  destruct (time_out st m) as [sa tr]. simpl in Hr.
  right. simpl. now rewrite Hr.
Qed.

Lemma check_tv_rooms (env : Env) (st : State) (roomId : string) (room : Room)
    (needs0 : bool) :
  let '(st1, _, needs) := check_tv env st roomId room needs0 in
  (rooms st1 = rooms st /\ needs = needs0)
  \/ (rooms st1 = rooms_set roomId (set_tv None room) (rooms st)
      /\ needs = needs0 || negb (live st1 (mobile room))).
Proof.
  unfold check_tv.
  destruct (tv room) as [t |]; [| now left].
  destruct (isUnhealthy env (sock st t) 120000); [| now left].
  pose proof (time_out_rooms st t) as Hr.
  destruct (time_out st t) as [sa tr]. simpl in Hr.
  right. simpl. now rewrite Hr.
Qed.

Lemma live_slot (st : State) (slot : option string) :
  live st slot = true -> exists id, slot = Some id.
Proof. destruct slot as [id |]; [eauto | discriminate]. Qed.

Lemma unhealthy_room_ok (env : Env) (st : State) (roomId : string) :
  table_ok st -> table_ok (fst (unhealthy_room env st roomId)).
Proof.
  intros H. unfold unhealthy_room.
  destruct (rooms_get roomId (rooms st)) as [room |] eqn:Hroom; [| exact H].
  pose proof (check_mobile_rooms env st roomId room) as Hm.
  destruct (check_mobile env st roomId room) as [[st1 tr1] needs1].
  pose proof (check_tv_rooms env st1 roomId (the_room env st1 roomId) needs1) as Ht.
  destruct (check_tv env st1 roomId (the_room env st1 roomId) needs1)
    as [[st2 tr2] needs2].
  assert (Hclean : table_ok (fst (cleanupRoom st2 roomId "unhealthy_connections"))).
  { unfold table_ok. rewrite cleanupRoom_rooms.
    destruct Hm as [[Hm _] | [Hm _]], Ht as [[Ht _] | [Ht _]];
      rewrite Ht, ?rooms_delete_set, Hm, ?rooms_delete_set;
      now apply rooms_ok_delete. }
  destruct needs2.
  { destruct (cleanupRoom st2 roomId "unhealthy_connections"). exact Hclean. }
  clear Hclean. unfold table_ok. simpl fst.
  destruct Hm as [[Hm ->] | [Hm ->]].
  - assert (Hsame : the_room env st1 roomId = room)
      by (unfold the_room; now rewrite Hm, Hroom).
    rewrite Hsame in Ht.
    destruct Ht as [[Ht _] | [Ht Hn]].
    + rewrite Ht, Hm. exact H.
    + rewrite Ht, Hm. apply rooms_ok_set; [exact H |].
      simpl in Hn. symmetry in Hn. apply negb_false_iff in Hn.
      destruct (live_slot _ _ Hn) as [id Hid].
      unfold occupied. simpl. rewrite Hid. now destruct (tv room).
  - assert (Hnew : the_room env st1 roomId = set_mobile None room)
      by (unfold the_room; now rewrite Hm, rooms_get_set).
    rewrite Hnew in Ht.
    destruct Ht as [[Ht Hn] | [Ht Hn]].
    + rewrite Ht, Hm. apply rooms_ok_set; [exact H |].
      symmetry in Hn. apply negb_false_iff in Hn.
      destruct (live_slot _ _ Hn) as [id Hid].
      unfold occupied. simpl. now rewrite Hid.
    + simpl in Hn. rewrite orb_true_r in Hn. discriminate Hn.
Qed.

Lemma for_rooms_ok (f : State -> string -> State * Trace) :
  (forall st k, table_ok st -> table_ok (fst (f st k))) ->
  forall keys st, table_ok st -> table_ok (fst (for_rooms f st keys)).
Proof.
  intros Hf keys. induction keys as [| k keys IH]; intros st H; simpl.
  - exact H.
  - pose proof (Hf st k H) as H1. destruct (f st k) as [st1 tr1]. simpl in H1.
    pose proof (IH st1 H1) as H2.
    destruct (for_rooms f st1 keys) as [st2 tr2]. exact H2.
Qed.

(** one step from a table where every room has an occupant *)
Lemma step_ok (env : Env) (st : State) (ev : Event) :
  table_ok st -> table_ok (fst (step env st ev)).
Proof.
  intros H. destruct ev; simpl.
  - destruct (sockets st !! sid); exact H.
  - now apply register_tv_ok.
  - now apply register_mobile_ok.
  - now rewrite on_relay_state.
  - now rewrite on_custom_event_state.
  - exact H.
  - exact H.
  - exact H.
  - exact H.
  - now apply on_disconnect_ok.
  - exact H.
  - apply for_rooms_ok; [apply unhealthy_room_ok | exact H].
  - apply for_rooms_ok; [| exact H].
    intros st' k. apply cleanupRoom_ok.
Qed.

Lemma run_ok (evs : list (Env * Event)) :
  forall st, table_ok st -> table_ok (fst (run st evs)).
Proof.
  induction evs as [| [env ev] evs IH]; intros st H; simpl.
  - exact H.
  - pose proof (step_ok env st ev H) as H1.
    destruct (step env st ev) as [st1 tr1]. simpl in H1.
    pose proof (IH st1 H1) as H2.
    destruct (run st1 evs) as [st2 tr2]. exact H2.
Qed.

(** C7: after any sequence of complete operations (connections,
    registrations, relays, health events, disconnects and the three sweeps)
    every room of the table has a socket in at least one slot; a room with
    two empty slots is never left in the table. *)
Theorem every_room_has_an_occupant (evs : list (Env * Event)) :
  let st := fst (run init evs) in
  table_ok st
  /\ forall roomId room,
       rooms_get roomId (rooms st) = Some room ->
       tv room <> None \/ mobile room <> None.
Proof.
  intros st.
  assert (H : table_ok st) by (apply run_ok; constructor).
  split; [exact H |].
  intros roomId room Hget.
  assert (Hocc : occupied room = true).
  { unfold table_ok, rooms_ok in H. revert Hget.
    induction H as [| [k r] l Hhd Htl IH]; simpl; [discriminate |].
    destruct (String.eqb roomId k); [| exact IH].
    intros [= <-]. exact Hhd. }
  unfold occupied in Hocc.
  destruct (tv room); [left; discriminate |].
  destruct (mobile room); [right; discriminate | discriminate Hocc].
Qed.

Lemma every_room_has_an_occupant_witness :
  rooms_get "1234" (rooms paired) = Some (mkRoom (Some "t1") (Some "m1") 1000)
  /\ (tv (mkRoom (Some "t1") (Some "m1") 1000) <> None
      \/ mobile (mkRoom (Some "t1") (Some "m1") 1000) <> None).
Proof.
  split; [reflexivity |].
  exact (proj2 (every_room_has_an_occupant
                  [(env0, EvConnection "t1");
                   (env0, EvRegisterTv "t1" (JObj [("roomId", JStr "1234")]));
                   (env0, EvConnection "m1");
                   (env0, EvRegisterMobile "m1" (JObj [("roomId", JStr "1234")]))])
           "1234" (mkRoom (Some "t1") (Some "m1") 1000) eq_refl).
Defined.

(** The occupant need not be connected: a TV that registers in a second
    room and then disconnects is still in the slot of the first room. *)
Remark occupant_may_be_stale :
  let st := fst (run init
                   [(env0, EvConnection "t1");
                    (env0, EvRegisterTv "t1" (JObj [("roomId", JStr "1234")]));
                    (env0, EvRegisterTv "t1" (JObj [("roomId", JStr "5678")]));
                    (env0, EvDisconnect "t1" "transport close")]) in
  rooms st = [("1234", mkRoom (Some "t1") None 1000)]
  /\ connected (sock st "t1") = false.
Proof. vm_compute. split; reflexivity. Qed.

(** * Bookkeeping of the room table and the counters *)

Lemma keys_set_existing (k : string) (r r0 : Room) (l : list (string * Room)) :
  rooms_get k l = Some r0 -> keys (rooms_set k r l) = keys l.
Proof.
  induction l as [| [k' r'] l IH]; simpl; [discriminate |].
  destruct (String.eqb k k') eqn:E; simpl.
  - intros _. apply String.eqb_eq in E. now subst.
  - intros H. now rewrite IH.
Qed.

Lemma rooms_get_None (k : string) (l : list (string * Room)) :
  rooms_get k l = None -> ~ In k (keys l).
Proof.
  induction l as [| [k' r'] l IH]; simpl; [tauto |].
  destruct (String.eqb k k') eqn:E; [discriminate |].
  intros H [Heq | Hin]; [| now apply IH].
  subst. now rewrite String.eqb_refl in E.
Qed.

Lemma keys_set_new (k : string) (r : Room) (l : list (string * Room)) :
  rooms_get k l = None -> keys (rooms_set k r l) = keys l ++ [k].
Proof.
  induction l as [| [k' r'] l IH]; simpl; [reflexivity |].
  destruct (String.eqb k k'); [discriminate |].
  intros H. simpl. now rewrite IH.
Qed.

Lemma NoDup_keys_set (k : string) (r : Room) (l : list (string * Room)) :
  NoDup (keys l) -> NoDup (keys (rooms_set k r l)).
Proof.
  intros H. destruct (rooms_get k l) as [r0 |] eqn:E.
  - now rewrite (keys_set_existing k r r0 l E).
  - rewrite (keys_set_new k r l E).
    apply NoDup_app. split; [exact H |]. split.
    + intros x Hx Hk. apply list_elem_of_In in Hx. apply list_elem_of_In in Hk.
      destruct Hk as [<- | []]. now apply (rooms_get_None k l E).
    + apply NoDup_singleton.
Qed.

Lemma keys_delete (k : string) (l : list (string * Room)) :
  forall x, In x (keys (rooms_delete k l)) -> In x (keys l) /\ x <> k.
Proof.
  induction l as [| [k' r'] l IH]; simpl; [tauto |].
  intros x. destruct (String.eqb k k') eqn:E; simpl.
  - intros H. destruct (IH x H). tauto.
  - intros [<- | H].
    + split; [now left |]. intros ->. now rewrite String.eqb_refl in E.
    + destruct (IH x H). tauto.
Qed.

Lemma NoDup_keys_delete (k : string) (l : list (string * Room)) :
  NoDup (keys l) -> NoDup (keys (rooms_delete k l)).
Proof.
  induction l as [| [k' r'] l IH]; simpl; [auto |].
  intros H. apply NoDup_cons in H. destruct H as [Hnot Hl].
  destruct (String.eqb k k'); [now apply IH |].
  simpl. apply NoDup_cons. split; [| now apply IH].
  intros Hin. apply list_elem_of_In in Hin.
  apply keys_delete in Hin. apply Hnot. apply list_elem_of_In. tauto.
Qed.

Lemma size_set_existing (k : string) (r r0 : Room) (l : list (string * Room)) :
  rooms_get k l = Some r0 -> rooms_size (rooms_set k r l) = rooms_size l.
Proof.
  intros H. unfold rooms_size.
  rewrite <- (length_map fst (rooms_set k r l)), <- (length_map fst l).
  fold (keys (rooms_set k r l)). fold (keys l).
  now rewrite (keys_set_existing k r r0 l H).
Qed.

Ltac counters :=
  unfold counters_ok, dec0 in *; simpl in *; lia.

Lemma force_disconnect_stats (st : State) (id : string) :
  stats (fst (force_disconnect st id)) = stats st.
Proof. unfold force_disconnect. now destruct (connected (sock st id)). Qed.

Lemma replace_tv_stats (env : Env) (st : State) (sid roomId : string) :
  activeRooms (stats (fst (replace_tv env st sid roomId))) = activeRooms (stats st)
  /\ (counters_ok (stats st) ->
      counters_ok (stats (fst (replace_tv env st sid roomId)))).
Proof.
  unfold replace_tv.
  destruct (rooms_get roomId (rooms st)) as [room |]; [| auto].
  destruct (live st (tv room)); [| auto].
  destruct (tv room) as [old |]; [| auto].
  destruct (negb (String.eqb old sid)); [| auto].
  destruct (connected (sock st old)); [| split; [reflexivity | intros; counters]].
  pose proof (force_disconnect_stats st old) as H.
  destruct (force_disconnect st old) as [st1 tr]. simpl in *.
  rewrite H. split; [reflexivity | intros; counters].
Qed.

Lemma replace_mobile_stats (env : Env) (st : State) (sid roomId : string)
    (room : Room) :
  activeRooms (stats (fst (replace_mobile env st sid roomId room)))
  = activeRooms (stats st)
  /\ (counters_ok (stats st) ->
      counters_ok (stats (fst (replace_mobile env st sid roomId room)))).
Proof.
  unfold replace_mobile.
  destruct (mobile room) as [old |]; [| auto].
  destruct (connected (sock st old) && negb (String.eqb old sid)); [| auto].
  pose proof (force_disconnect_stats st old) as H.
  destruct (force_disconnect st old) as [st1 tr]. simpl in *.
  rewrite H. split; [reflexivity | intros; counters].
Qed.

Lemma register_tv_consistent (env : Env) (st : State) (sid : string) (data : jsval) :
  consistent st -> consistent (fst (register_tv env st sid data)).
Proof.
  intros H. unfold register_tv.
  destruct (tv_roomId env data) as [roomId |]; [| exact H].
  destruct H as (Hnd & Hact & Hcnt).
  pose proof (replace_tv_rooms env st sid roomId) as Hr.
  pose proof (replace_tv_stats env st sid roomId) as [Ha Hc].
  destruct (replace_tv env st sid roomId) as [st1 tr1]. simpl in Hr, Ha, Hc.
  specialize (Hc Hcnt).
  unfold consistent.
  cbn [fst rooms stats with_stats set_sock with_sockets with_rooms].
  split; [| split].
  - apply NoDup_keys_set. unfold ensure_room.
    destruct (rooms_has roomId (rooms st1));
      [| cbn [rooms with_stats with_rooms]; apply NoDup_keys_set];
      now rewrite Hr.
  - cbn [activeRooms set_tvConnections].
    assert (Hsome : exists r0, rooms_get roomId (rooms (ensure_room env st1 roomId))
                               = Some r0).
    { unfold ensure_room, rooms_has.
      destruct (rooms_get roomId (rooms st1)) eqn:E; [eauto |].
      cbn [rooms with_stats with_rooms]. rewrite rooms_get_set. eauto. }
    destruct Hsome as [r0 Hr0]. rewrite (size_set_existing _ _ r0 _ Hr0).
    unfold ensure_room. destruct (rooms_has roomId (rooms st1)).
    + now rewrite Ha, Hr.
    + reflexivity.
  - assert (Hc2 : counters_ok (stats (ensure_room env st1 roomId))).
    { unfold ensure_room. destruct (rooms_has roomId (rooms st1)); [exact Hc |].
      counters. }
    counters.
Qed.

Lemma register_mobile_consistent (env : Env) (st : State) (sid : string)
    (data : jsval) :
  consistent st -> consistent (fst (register_mobile env st sid data)).
Proof.
  intros H. unfold register_mobile.
  destruct (negb (truthy (oprop data "roomId"))); [exact H |].
  destruct (toString (oprop data "roomId")) as [roomId |]; [| exact H].
  destruct (String.eqb roomId EmptyString); [exact H |].
  destruct (negb (validateRoomId roomId)); [exact H |].
  destruct (rooms_get roomId (rooms st)) as [room |] eqn:Hroom; [| exact H].
  destruct (if live st (tv room) then tv room else None) as [t |]; [| exact H].
  destruct H as (Hnd & Hact & Hcnt).
  pose proof (replace_mobile_rooms env st sid roomId room) as Hr.
  pose proof (replace_mobile_stats env st sid roomId room) as [Ha Hc].
  destruct (replace_mobile env st sid roomId room) as [st1 tr1]. simpl in Hr, Ha, Hc.
  specialize (Hc Hcnt). unfold consistent.
  cbn [fst rooms stats with_stats set_sock with_sockets with_rooms].
  rewrite Hr. split; [| split].
  - now apply NoDup_keys_set.
  - cbn [activeRooms set_mobileConnections].
    now rewrite (size_set_existing _ _ room _ Hroom), Ha.
  - counters.
Qed.

Lemma cleanupRoom_consistent (st : State) (roomId reason : string) :
  consistent st -> consistent (fst (cleanupRoom st roomId reason)).
Proof.
  intros H. unfold cleanupRoom.
  destruct (rooms_get roomId (rooms st)); [| exact H].
  destruct H as (Hnd & Hact & Hcnt).
  unfold consistent. simpl. split; [| split].
  - now apply NoDup_keys_delete.
  - reflexivity.
  - counters.
Qed.

Lemma vacate_consistent (env : Env) (st : State) (sid reason roomId : string)
    (room : Room) :
  rooms_get roomId (rooms st) = Some room ->
  consistent st -> consistent (fst (vacate env st sid reason roomId room)).
Proof.
  intros Hroom H. pose proof H as (Hnd & Hact & Hcnt). unfold vacate.
  destruct (is_tv (deviceType (sock st sid)) && slot_is (tv room) sid).
  { unfold consistent. simpl. split; [| split].
    - now apply NoDup_keys_set.
    - now rewrite (size_set_existing _ _ room _ Hroom).
    - counters. }
  destruct (is_mobile (deviceType (sock st sid)) && slot_is (mobile room) sid).
  { unfold consistent. simpl. split; [| split].
    - now apply NoDup_keys_set.
    - now rewrite (size_set_existing _ _ room _ Hroom).
    - counters. }
  exact H.
Qed.

Lemma on_disconnect_consistent (env : Env) (st : State) (sid reason : string) :
  consistent st -> consistent (fst (on_disconnect env st sid reason)).
Proof.
  intros H. unfold on_disconnect.
  set (st0 := with_stats st _).
  assert (H0 : consistent st0).
  { destruct H as (Hnd & Hact & Hcnt). unfold consistent, st0. simpl.
    repeat split; try assumption; counters. }
  destruct (in_room (sock st0 sid)); [| exact H0].
  destruct (rooms_get (default EmptyString (sk_roomId (sock st0 sid))) (rooms st0))
    as [room |] eqn:Hroom; [| exact H0].
  pose proof (vacate_consistent env st0 sid reason _ room Hroom H0) as H1.
  destruct (vacate env st0 sid reason _ room) as [st1 tr1]. simpl in H1.
  match goal with |- context [if ?c then _ else _] => destruct c end; [| exact H1].
  pose proof (cleanupRoom_consistent st1
                (default EmptyString (sk_roomId (sock st0 sid)))
                "all_devices_disconnected" H1) as H2.
  now destruct (cleanupRoom st1 _ "all_devices_disconnected").
Qed.

Lemma time_out_stats (st : State) (id : string) :
  stats (fst (time_out st id)) = stats st.
Proof.
  unfold time_out. destruct (connected (sock st id)); [| reflexivity].
  pose proof (force_disconnect_stats st id) as H.
  destruct (force_disconnect st id). exact H.
Qed.

Lemma check_mobile_consistent (env : Env) (st : State) (roomId : string)
    (room : Room) :
  rooms_get roomId (rooms st) = Some room ->
  consistent st ->
  consistent (fst (fst (check_mobile env st roomId room)))
  /\ exists room1,
       rooms_get roomId (rooms (fst (fst (check_mobile env st roomId room))))
       = Some room1.
Proof.
  intros Hroom H. unfold check_mobile.
  destruct (mobile room) as [m |]; [| eauto].
  destruct (isUnhealthy env (sock st m) 120000); [| eauto].
  pose proof (time_out_rooms st m) as Hr.
  pose proof (time_out_stats st m) as Hs.
  destruct (time_out st m) as [sa tr]. simpl in Hr, Hs.
  destruct H as (Hnd & Hact & Hcnt). simpl. rewrite Hr, Hs. split.
  - unfold consistent. simpl. split; [| split].
    + now apply NoDup_keys_set.
    + now rewrite (size_set_existing _ _ room _ Hroom).
    + counters.
  - rewrite rooms_get_set. eauto.
Qed.

Lemma check_tv_consistent (env : Env) (st : State) (roomId : string)
    (room room0 : Room) (needs : bool) :
  rooms_get roomId (rooms st) = Some room0 ->
  consistent st ->
  consistent (fst (fst (check_tv env st roomId room needs))).
Proof.
  intros Hroom H. unfold check_tv.
  destruct (tv room) as [t |]; [| exact H].
  destruct (isUnhealthy env (sock st t) 120000); [| exact H].
  pose proof (time_out_rooms st t) as Hr.
  pose proof (time_out_stats st t) as Hs.
  destruct (time_out st t) as [sa tr]. simpl in Hr, Hs.
  destruct H as (Hnd & Hact & Hcnt). simpl. rewrite Hr, Hs.
  unfold consistent. simpl. split; [| split].
  - now apply NoDup_keys_set.
  - now rewrite (size_set_existing _ _ room0 _ Hroom).
  - counters.
Qed.

Lemma unhealthy_room_consistent (env : Env) (st : State) (roomId : string) :
  consistent st -> consistent (fst (unhealthy_room env st roomId)).
Proof.
  intros H. unfold unhealthy_room.
  destruct (rooms_get roomId (rooms st)) as [room |] eqn:Hroom; [| exact H].
  destruct (check_mobile_consistent env st roomId room Hroom H) as [H1 [room1 Hroom1]].
  destruct (check_mobile env st roomId room) as [[st1 tr1] needs1]. simpl in H1, Hroom1.
  pose proof (check_tv_consistent env st1 roomId (the_room env st1 roomId) room1
                needs1 Hroom1 H1) as H2.
  destruct (check_tv env st1 roomId (the_room env st1 roomId) needs1)
    as [[st2 tr2] needs2]. simpl in H2.
  destruct needs2; [| exact H2].
  pose proof (cleanupRoom_consistent st2 roomId "unhealthy_connections" H2) as H3.
  now destruct (cleanupRoom st2 roomId "unhealthy_connections").
Qed.

Lemma for_rooms_keeps (P : State -> Prop) (f : State -> string -> State * Trace) :
  (forall st k, P st -> P (fst (f st k))) ->
  forall ks st, P st -> P (fst (for_rooms f st ks)).
Proof.
  intros Hf ks. induction ks as [| k ks IH]; intros st H; simpl.
  - exact H.
  - pose proof (Hf st k H) as H1. destruct (f st k) as [st1 tr1]. simpl in H1.
    pose proof (IH st1 H1) as H2.
    destruct (for_rooms f st1 ks) as [st2 tr2]. exact H2.
Qed.

Lemma step_consistent (env : Env) (st : State) (ev : Event) :
  consistent st -> consistent (fst (step env st ev)).
Proof.
  intros H. destruct ev; simpl.
  - destruct (sockets st !! sid); [exact H |].
    destruct H as (Hnd & Hact & Hcnt). unfold consistent. simpl.
    repeat split; try assumption; counters.
  - now apply register_tv_consistent.
  - now apply register_mobile_consistent.
  - now rewrite on_relay_state.
  - now rewrite on_custom_event_state.
  - exact H.
  - exact H.
  - exact H.
  - exact H.
  - now apply on_disconnect_consistent.
  - exact H.
  - unfold unhealthy_sweep.
    apply (for_rooms_keeps consistent); [apply unhealthy_room_consistent | exact H].
  - unfold expiry_sweep. apply (for_rooms_keeps consistent); [| exact H].
    intros st' k. apply cleanupRoom_consistent.
Qed.

Lemma run_keeps (P : State -> Prop) :
  (forall env st ev, P st -> P (fst (step env st ev))) ->
  forall evs st, P st -> P (fst (run st evs)).
Proof.
  intros Hstep evs. induction evs as [| [env ev] evs IH]; intros st H; simpl.
  - exact H.
  - pose proof (Hstep env st ev H) as H1.
    destruct (step env st ev) as [st1 tr1]. simpl in H1.
    pose proof (IH st1 H1) as H2.
    destruct (run st1 evs) as [st2 tr2]. exact H2.
Qed.

Lemma init_consistent : consistent init.
Proof.
  unfold consistent, counters_ok. simpl.
  split; [constructor | repeat split; lia].
Qed.

(** X1: whatever happens, stats.activeRooms is the number of rooms in the
    table. *)
Theorem activeRooms_is_table_size (evs : list (Env * Event)) :
  activeRooms (stats (fst (run init evs)))
  = rooms_size (rooms (fst (run init evs))).
Proof.
  exact (proj1 (proj2 (run_keeps consistent step_consistent evs init init_consistent))).
Qed.

(** X2: no counter of stats ever falls below zero, and currentConnections
    never exceeds totalConnections. *)
Theorem counters_never_negative (evs : list (Env * Event)) :
  let s := stats (fst (run init evs)) in
  0 <= totalConnections s /\ 0 <= currentConnections s /\ 0 <= activeRooms s
  /\ 0 <= mobileConnections s /\ 0 <= tvConnections s
  /\ currentConnections s <= totalConnections s.
Proof.
  intros s.
  destruct (run_keeps consistent step_consistent evs init init_consistent)
    as (_ & Hact & Ht & Hc & Hm & Htv & Hle).
  fold s in Hact, Ht, Hc, Hm, Htv, Hle.
  repeat split; try assumption.
  rewrite Hact. unfold rooms_size. lia.
Qed.

(** * Where room codes come from *)

Lemma keys_delete_incl (k : string) (l : list (string * Room)) :
  incl (keys (rooms_delete k l)) (keys l).
Proof. intros x Hx. now apply keys_delete in Hx. Qed.

Lemma cleanupRoom_keys (st : State) (roomId reason : string) :
  incl (keys (rooms (fst (cleanupRoom st roomId reason)))) (keys (rooms st)).
Proof. rewrite cleanupRoom_rooms. apply keys_delete_incl. Qed.

Lemma register_mobile_keys (env : Env) (st : State) (sid : string) (data : jsval) :
  incl (keys (rooms (fst (register_mobile env st sid data)))) (keys (rooms st)).
Proof.
  unfold register_mobile.
  destruct (negb (truthy (oprop data "roomId"))); [apply incl_refl |].
  destruct (toString (oprop data "roomId")) as [roomId |]; [| apply incl_refl].
  destruct (String.eqb roomId EmptyString); [apply incl_refl |].
  destruct (negb (validateRoomId roomId)); [apply incl_refl |].
  destruct (rooms_get roomId (rooms st)) as [room |] eqn:Hroom; [| apply incl_refl].
  destruct (if live st (tv room) then tv room else None) as [t |]; [| apply incl_refl].
  pose proof (replace_mobile_rooms env st sid roomId room) as Hr.
  destruct (replace_mobile env st sid roomId room) as [st1 tr1]. simpl in Hr.
  cbn [fst rooms with_stats set_sock with_sockets with_rooms].
  rewrite Hr, (keys_set_existing _ _ room _ Hroom). apply incl_refl.
Qed.

Lemma vacate_keys (env : Env) (st : State) (sid reason roomId : string)
    (room : Room) :
  rooms_get roomId (rooms st) = Some room ->
  keys (rooms (fst (vacate env st sid reason roomId room))) = keys (rooms st).
Proof.
  intros Hroom. unfold vacate.
  destruct (is_tv (deviceType (sock st sid)) && slot_is (tv room) sid);
    [simpl; apply (keys_set_existing _ _ room _ Hroom) |].
  destruct (is_mobile (deviceType (sock st sid)) && slot_is (mobile room) sid);
    [simpl; apply (keys_set_existing _ _ room _ Hroom) | reflexivity].
Qed.

Lemma on_disconnect_keys (env : Env) (st : State) (sid reason : string) :
  incl (keys (rooms (fst (on_disconnect env st sid reason)))) (keys (rooms st)).
Proof.
  unfold on_disconnect. set (st0 := with_stats st _).
  destruct (in_room (sock st0 sid)); [| apply incl_refl].
  destruct (rooms_get (default EmptyString (sk_roomId (sock st0 sid))) (rooms st0))
    as [room |] eqn:Hroom; [| apply incl_refl].
  pose proof (vacate_keys env st0 sid reason _ room Hroom) as Hk.
  destruct (vacate env st0 sid reason _ room) as [st1 tr1]. simpl in Hk.
  match goal with |- context [if ?c then _ else _] => destruct c end.
  - pose proof (cleanupRoom_keys st1
                  (default EmptyString (sk_roomId (sock st0 sid)))
                  "all_devices_disconnected") as Hc.
    destruct (cleanupRoom st1 _ "all_devices_disconnected") as [st2 tr2].
    simpl in *. now rewrite Hk in Hc.
  - simpl. rewrite Hk. apply incl_refl.
Qed.

Lemma unhealthy_room_keys (env : Env) (st : State) (roomId : string) :
  incl (keys (rooms (fst (unhealthy_room env st roomId)))) (keys (rooms st)).
Proof.
  unfold unhealthy_room.
  destruct (rooms_get roomId (rooms st)) as [room |] eqn:Hroom; [| apply incl_refl].
  pose proof (check_mobile_rooms env st roomId room) as Hm.
  destruct (check_mobile env st roomId room) as [[st1 tr1] needs1].
  assert (Hk1 : keys (rooms st1) = keys (rooms st)).
  { destruct Hm as [[-> _] | [-> _]];
      [reflexivity | apply (keys_set_existing _ _ room _ Hroom)]. }
  assert (Hroom1 : exists r1, rooms_get roomId (rooms st1) = Some r1).
  { destruct Hm as [[-> _] | [-> _]]; [eauto | rewrite rooms_get_set; eauto]. }
  destruct Hroom1 as [r1 Hroom1].
  pose proof (check_tv_rooms env st1 roomId (the_room env st1 roomId) needs1) as Ht.
  destruct (check_tv env st1 roomId (the_room env st1 roomId) needs1)
    as [[st2 tr2] needs2].
  assert (Hk2 : keys (rooms st2) = keys (rooms st)).
  { rewrite <- Hk1. destruct Ht as [[-> _] | [-> _]];
      [reflexivity | apply (keys_set_existing _ _ r1 _ Hroom1)]. }
  destruct needs2.
  - pose proof (cleanupRoom_keys st2 roomId "unhealthy_connections") as Hc.
    destruct (cleanupRoom st2 roomId "unhealthy_connections") as [st3 tr3].
    simpl in *. now rewrite Hk2 in Hc.
  - simpl. rewrite Hk2. apply incl_refl.
Qed.

Lemma for_rooms_keys (f : State -> string -> State * Trace) :
  (forall st k, incl (keys (rooms (fst (f st k)))) (keys (rooms st))) ->
  forall ks st, incl (keys (rooms (fst (for_rooms f st ks)))) (keys (rooms st)).
Proof.
  intros Hf ks st.
  apply (for_rooms_keeps (fun s => incl (keys (rooms s)) (keys (rooms st))) f).
  - intros s k Hs. eapply incl_tran; [apply Hf | exact Hs].
  - apply incl_refl.
Qed.

Lemma register_tv_keys (env : Env) (st : State) (sid : string) (data : jsval)
    (k : string) :
  In k (keys (rooms (fst (register_tv env st sid data)))) ->
  In k (keys (rooms st)) \/ tv_roomId env data = Some k.
Proof.
  unfold register_tv.
  destruct (tv_roomId env data) as [roomId |]; [| now left].
  pose proof (replace_tv_rooms env st sid roomId) as Hr.
  destruct (replace_tv env st sid roomId) as [st1 tr1]. simpl in Hr.
  cbn [fst rooms with_stats set_sock with_sockets with_rooms].
  unfold ensure_room, rooms_has.
  destruct (rooms_get roomId (rooms st1)) as [r0 |] eqn:E.
  - rewrite (keys_set_existing _ _ r0 _ E), Hr. now left.
  - cbn [rooms with_stats with_rooms].
    rewrite rooms_set_set, (keys_set_new _ _ _ E), Hr.
    intros Hin. apply in_app_or in Hin. destruct Hin as [Hin | [<- | []]]; auto.
Qed.

Lemma step_keys (env : Env) (st : State) (ev : Event) (k : string) :
  In k (keys (rooms (fst (step env st ev)))) ->
  In k (keys (rooms st))
  \/ exists sid data, ev = EvRegisterTv sid data /\ tv_roomId env data = Some k.
Proof.
  destruct ev; simpl; intros Hin;
    try (left; exact Hin).
  - destruct (sockets st !! sid); left; exact Hin.
  - destruct (register_tv_keys env st sid data k Hin); eauto.
  - left. now apply (register_mobile_keys env st sid data).
  - left. now rewrite on_relay_state in Hin.
  - left. now rewrite on_custom_event_state in Hin.
  - left. now apply (on_disconnect_keys env (transport_close st sid) sid reason).
  - left.
    exact (for_rooms_keys (unhealthy_room env) (unhealthy_room_keys env)
             (map fst (rooms st)) st k Hin).
  - left. unfold expiry_sweep in Hin.
    refine (for_rooms_keys _ _ _ st k Hin).
    intros s roomId. apply cleanupRoom_keys.
Qed.

Lemma run_keys (evs : list (Env * Event)) :
  forall st k,
    In k (keys (rooms (fst (run st evs)))) ->
    In k (keys (rooms st))
    \/ exists env sid data,
         In (env, EvRegisterTv sid data) evs /\ tv_roomId env data = Some k.
Proof.
  induction evs as [| [env ev] evs IH]; intros st k; simpl.
  - now left.
  - destruct (step env st ev) as [st1 tr1] eqn:Hstep.
    specialize (IH st1 k).
    destruct (run st1 evs) as [st2 tr2]. simpl in *.
    intros Hin. destruct (IH Hin) as [Hold | (env' & sid & data & Hev & Hid)].
    + replace st1 with (fst (step env st ev)) in Hold by now rewrite Hstep.
      destruct (step_keys env st ev k Hold) as [H0 | (sid & data & -> & Hid)];
        [now left |].
      right. exists env, sid, data. split; [now left | exact Hid].
    + right. exists env', sid, data. split; [now right | exact Hid].
Qed.

Lemma rooms_get_key (k : string) (room : Room) (l : list (string * Room)) :
  rooms_get k l = Some room -> In k (keys l).
Proof.
  induction l as [| [k' r'] l IH]; simpl; [discriminate |].
  destruct (String.eqb k k') eqn:E.
  - apply String.eqb_eq in E. subst. now left.
  - intros H. right. now apply IH.
Qed.

(** X3: every room of the table was created by a register_tv event of the
    history, under the code that handler settled on; no other event adds a
    room. *)
Theorem rooms_created_by_register_tv (evs : list (Env * Event)) (roomId : string)
    (room : Room) :
  rooms_get roomId (rooms (fst (run init evs))) = Some room ->
  exists env sid data,
    In (env, EvRegisterTv sid data) evs /\ tv_roomId env data = Some roomId.
Proof.
  intros Hget. apply rooms_get_key in Hget.
  destruct (run_keys evs init roomId Hget) as [[] | H]. exact H.
Qed.

Lemma rooms_created_by_register_tv_witness :
  exists env sid data,
    In (env, EvRegisterTv sid data)
       [(env0, EvConnection "t1");
        (env0, EvRegisterTv "t1" (JObj [("roomId", JStr "1234")]));
        (env0, EvConnection "m1");
        (env0, EvRegisterMobile "m1" (JObj [("roomId", JStr "1234")]))]
    /\ tv_roomId env data = Some "1234".
Proof.
  apply (rooms_created_by_register_tv _ "1234" (mkRoom (Some "t1") (Some "m1") 1000)).
  reflexivity.
Defined.

Lemma tv_roomId_valid (env : Env) (data : jsval) (roomId : string) :
  in_unit_interval env -> tv_roomId env data = Some roomId ->
  validateRoomId roomId = true.
Proof.
  intros Hr. unfold tv_roomId.
  destruct (if truthy (oprop data "roomId") then toString (oprop data "roomId")
            else Some (generateRoomId env 0)) as [r0 |]; [| discriminate].
  destruct (validateRoomId r0) eqn:E; intros [= <-];
    [exact E | now apply generated_code_valid].
Qed.

(** X4: as long as Math.random stays in [0, 1), every room code in the
    table passes validateRoomId: it is never empty and has at least four
    characters. *)
Theorem room_codes_are_valid (evs : list (Env * Event)) (roomId : string)
    (room : Room) :
  Forall (fun ee => in_unit_interval (fst ee)) evs ->
  rooms_get roomId (rooms (fst (run init evs))) = Some room ->
  validateRoomId roomId = true /\ (4 <= String.length roomId)%nat.
Proof.
  intros Henv Hget. apply rooms_get_key in Hget.
  destruct (run_keys evs init roomId Hget) as [[] | (env & sid & data & Hev & Hid)].
  rewrite List.Forall_forall in Henv. specialize (Henv _ Hev). simpl in Henv.
  pose proof (tv_roomId_valid env data roomId Henv Hid) as Hv.
  split; [exact Hv |].
  unfold validateRoomId in Hv. apply andb_true_iff in Hv.
  now apply Nat.leb_le.
Qed.

Lemma room_codes_are_valid_witness :
  validateRoomId "AAAAAA" = true /\ (4 <= String.length "AAAAAA")%nat.
Proof.
  apply (room_codes_are_valid
           [(env0, EvConnection "t1"); (env0, EvRegisterTv "t1" JUndefined)]
           "AAAAAA" (mkRoom (Some "t1") None 1000)).
  - repeat constructor; apply env0_in_unit_interval.
  - reflexivity.
Defined.

(** * What a registration leaves behind *)


Lemma rooms_get_delete_ne (k k' : string) (l : list (string * Room)) :
  k' <> k -> rooms_get k' (rooms_delete k l) = rooms_get k' l.
Proof.
  intros Hne. apply String.eqb_neq in Hne.
  induction l as [| [k0 r0] l IH]; simpl; [reflexivity |].
  destruct (String.eqb k k0) eqn:E; simpl.
  - apply String.eqb_eq in E. subst. now rewrite Hne.
  - now rewrite IH.
Qed.

Lemma replace_tv_sock (env : Env) (st : State) (sid roomId : string) :
  sock (fst (replace_tv env st sid roomId)) sid = sock st sid.
Proof.
  unfold replace_tv.
  destruct (rooms_get roomId (rooms st)) as [room |]; [| reflexivity].
  destruct (live st (tv room)); [| reflexivity].
  destruct (tv room) as [old |]; [| reflexivity].
  destruct (negb (String.eqb old sid)) eqn:E; [| reflexivity].
  apply negb_true_iff, String.eqb_neq in E.
  destruct (connected (sock st old)) eqn:Hc; [| reflexivity].
  unfold force_disconnect. rewrite Hc. simpl.
  now rewrite sock_with_stats, sock_set_sock_ne.
Qed.





Lemma replace_mobile_sock (env : Env) (st : State) (sid roomId : string)
    (room : Room) (id : string) :
  mobile room <> Some id ->
  sock (fst (replace_mobile env st sid roomId room)) id = sock st id.
Proof.
  intros Hne. unfold replace_mobile.
  destruct (mobile room) as [old |]; [| reflexivity].
  destruct (connected (sock st old) && negb (String.eqb old sid)) eqn:E;
    [| reflexivity].
  apply andb_true_iff in E. destruct E as [Hc _].
  unfold force_disconnect. rewrite Hc. simpl.
  rewrite sock_with_stats, sock_set_sock_ne; [reflexivity | congruence].
Qed.

Lemma valid_code_nonempty (roomId : string) :
  validateRoomId roomId = true -> String.eqb roomId EmptyString = false.
Proof. destruct roomId; [discriminate | reflexivity]. Qed.

Lemma live_slot_taken (st : State) (slot : option string) (id : string) :
  slot = Some id -> connected (sock st id) = true ->
  (if live st slot then slot else None) = Some id.
Proof. intros -> H. simpl. now rewrite H. Qed.



Lemma register_tv_keeps_connection (env : Env) (st : State) (sid : string)
    (data : jsval) (roomId : string) :
  tv_roomId env data = Some roomId ->
  connected (sock (fst (register_tv env st sid data)) sid) = connected (sock st sid).
Proof.
  intros Hid. unfold register_tv. rewrite Hid.
  pose proof (replace_tv_sock env st sid roomId) as Hs.
  destruct (replace_tv env st sid roomId) as [st1 tr1]. simpl in Hs.
  cbn [fst]. rewrite sock_with_stats, sock_set_sock.
  cbn [set_registration connected].
  now rewrite sock_with_rooms, sock_ensure_room, Hs.
Qed.

Lemma register_mobile_joined (env : Env) (st : State) (sid : string)
    (data : jsval) (roomId : string) (room : Room) (t : string) :
  truthy (oprop data "roomId") = true ->
  toString (oprop data "roomId") = Some roomId ->
  validateRoomId roomId = true ->
  rooms_get roomId (rooms st) = Some room ->
  tv room = Some t ->
  connected (sock st t) = true ->
  let st' := fst (register_mobile env st sid data) in
  rooms_get roomId (rooms st') = Some (set_mobile (Some sid) room)
  /\ sk_roomId (sock st' sid) = Some roomId
  /\ deviceType (sock st' sid) = Some Mobile.
Proof.
  intros Hv Hs Hval Hroom Htv Hconn st'.
  unfold st', register_mobile.
  rewrite Hv, Hs, (valid_code_nonempty _ Hval), Hval, Hroom. simpl negb. cbv iota.
  rewrite (live_slot_taken st _ t Htv Hconn).
  pose proof (replace_mobile_rooms env st sid roomId room) as Hr.
  destruct (replace_mobile env st sid roomId room) as [st1 tr1]. simpl in Hr.
  cbn [fst].
  rewrite !sock_with_stats, !sock_set_sock.
  cbn [set_registration sk_roomId deviceType].
  cbn [rooms with_stats set_sock with_sockets with_rooms]. rewrite Hr.
  split; [apply rooms_get_set | split; reflexivity].
Qed.

(** X8: pairing end to end.  A connected TV registers under a code that is
    not in the table, a different socket registers as mobile with that
    code, and the mobile's next slide_change with a number that is not
    negative is delivered to that TV and acknowledged to the mobile. *)
Theorem pair_then_relay (env1 env2 env3 : Env) (st : State) (t m code : string)
    (n : Z) :
  validateRoomId code = true ->
  rooms_get code (rooms st) = None ->
  connected (sock st t) = true ->
  t <> m ->
  0 <= n ->
  let st1 := fst (register_tv env1 st t (JObj [("roomId", JStr code)])) in
  let st2 := fst (register_mobile env2 st1 m (JObj [("roomId", JStr code)])) in
  rooms_get code (rooms st2) = Some (mkRoom (Some t) (Some m) (now env1))
  /\ on_slide_change env3 st2 m (JObj [("slideIndex", JNum n)])
     = (st2,
        [Emit t "slide_change"
           [("slideIndex", FVal (JNum n));
            ("roomId", FVal (JStr code));
            ("timestamp", FTime (now env3));
            ("from", FVal (JStr m))];
         Emit m "slide_change_ack"
           [("slideIndex", FVal (JNum n)); ("timestamp", FTime (now env3))]]).
Proof.
  intros Hval Hnone Hconn Hne Hn st1 st2.
  pose proof (tv_roomId_supplied env1 code [] Hval) as Hid.
  (* after the TV has registered *)
  assert (Hroom1 : rooms_get code (rooms st1) = Some (mkRoom (Some t) None (now env1))).
  { unfold st1, register_tv. rewrite Hid.
    unfold replace_tv. rewrite Hnone. cbn [fst rooms with_stats set_sock with_sockets with_rooms].
    unfold ensure_room, rooms_has, the_room. rewrite Hnone.
    cbn [rooms with_stats with_rooms]. rewrite rooms_get_set. simpl default.
    now rewrite rooms_get_set. }
  assert (Hconn1 : connected (sock st1 t) = true).
  { unfold st1.
    now rewrite (register_tv_keeps_connection env1 st t _ code Hid). }
  (* after the mobile has joined *)
  assert (Ht : truthy (oprop (JObj [("roomId", JStr code)]) "roomId") = true).
  { simpl. now rewrite (valid_code_nonempty _ Hval). }
  destruct (register_mobile_joined env2 st1 m (JObj [("roomId", JStr code)]) code
              (mkRoom (Some t) None (now env1)) t Ht eq_refl Hval Hroom1 eq_refl Hconn1)
    as (Hroom2 & Hrid & Hdev).
  fold st2 in Hroom2, Hrid, Hdev.
  assert (Hconn2 : connected (sock st2 t) = true).
  { unfold st2, register_mobile.
    change (oprop (JObj [("roomId", JStr code)]) "roomId") with (JStr code).
    cbn [truthy toString].
    rewrite (valid_code_nonempty _ Hval), Hval, Hroom1. simpl negb. cbv iota.
    rewrite (live_slot_taken st1 (tv (mkRoom (Some t) None (now env1))) t eq_refl Hconn1).
    unfold replace_mobile. cbn [mobile fst].
    now rewrite sock_with_stats, sock_set_sock_ne, sock_with_rooms by congruence. }
  split; [exact Hroom2 |].
  unfold on_slide_change.
  rewrite (authorized_mobile _ code Hdev Hrid)
    by (intros ->; discriminate Hval).
  rewrite (room_tv_paired st2 _ code t _ Hrid Hroom2 eq_refl Hconn2).
  unfold roomId_val. rewrite Hrid. simpl.
  destruct (Z.ltb n 0) eqn:E; [apply Z.ltb_lt in E; lia | reflexivity].
Qed.

Lemma pair_then_relay_witness :
  snd (on_slide_change env0 paired "m1" (JObj [("slideIndex", JNum 3)]))
  = [Emit "t1" "slide_change"
       [("slideIndex", FVal (JNum 3)); ("roomId", FVal (JStr "1234"));
        ("timestamp", FTime 1000); ("from", FVal (JStr "m1"))];
     Emit "m1" "slide_change_ack"
       [("slideIndex", FVal (JNum 3)); ("timestamp", FTime 1000)]].
Proof.
  assert (Hc : connected (sock (fst (step env0 init (EvConnection "t1"))) "t1") = true)
    by reflexivity.
  assert (Hm : connected (sock (fst (run init [(env0, EvConnection "t1");
                                                (env0, EvConnection "m1")])) "t1") = true)
    by reflexivity.
  pose proof (proj2 (pair_then_relay env0 env0 env0
                       (fst (run init [(env0, EvConnection "t1");
                                       (env0, EvConnection "m1")]))
                       "t1" "m1" "1234" 3
                       eq_refl eq_refl Hm ltac:(discriminate) ltac:(lia))) as H.
  cbv zeta in H.
  apply (f_equal snd) in H. simpl snd in H.
  rewrite <- H. vm_compute. reflexivity.
Defined.

(** * Who a relayed event can reach *)

Ltac in_cases H :=
  repeat match type of H with
         | In _ [] => destruct H
         | In _ (_ :: _) => destruct H as [H | H]
         | False => destruct H
         end.

(** X9: a typed relay event never changes the server state, and all it
    causes is events sent to the sender itself (errors, the slide
    acknowledgement) or to the connected TV of the room the sender is
    registered in; no other socket hears of it, nobody joins, leaves or is
    disconnected. *)
Theorem relay_reaches_only_the_tv (k : Kind) (env : Env) (st : State)
    (sid : string) (data : jsval) (a : Action) :
  In a (snd (on_relay k env st sid data)) ->
  fst (on_relay k env st sid data) = st
  /\ exists to event p,
       a = Emit to event p
       /\ (to = sid \/ room_tv st (sock st sid) = Some to).
Proof.
  intros Hin. split; [apply on_relay_state |].
  destruct k; simpl on_relay in Hin;
    [ unfold on_slide_change in Hin | unfold on_pdf_scroll in Hin
    | unfold on_pdf_page_change in Hin | unfold on_presentation_action in Hin
    | unfold on_load_document in Hin ];
    destruct (unauthorized (sock st sid));
    try (cbn [snd] in Hin; in_cases Hin; subst a; eauto 6);
    destruct (room_tv st (sock st sid)) as [t |];
    try (cbn [snd] in Hin; in_cases Hin; subst a; eauto 6);
    repeat match type of Hin with
           | context [match ?c with _ => _ end] => destruct c
           end;
    cbn [snd] in Hin; in_cases Hin; subst a; eauto 6.
Qed.

Lemma relay_reaches_only_the_tv_witness :
  exists to event p,
    Emit "t1" "pdf_page_change"
      [("pageNumber", FVal (JNum 2)); ("roomId", FVal (JStr "1234"));
       ("timestamp", FTime 1000); ("from", FVal (JStr "m1"))]
    = Emit to event p
    /\ (to = "m1" \/ room_tv paired (sock paired "m1") = Some to).
Proof.
  apply (proj2 (relay_reaches_only_the_tv PdfPageChange env0 paired "m1"
                  (JObj [("pageNumber", JNum 2)]) _ (or_introl eq_refl))).
Defined.

(** * Custom events *)

Lemma pfield_pset (k k' : string) (v : field) (p : Payload) :
  pfield (pset k v p) k' = if String.eqb k' k then Some v else pfield p k'.
Proof.
  induction p as [| [k0 v0] p IH]; simpl; [reflexivity |].
  destruct (String.eqb k k0) eqn:E; simpl.
  - apply String.eqb_eq in E. subst k0.
    now destruct (String.eqb k' k).
  - rewrite IH. destruct (String.eqb k' k0) eqn:E0; [| reflexivity].
    apply String.eqb_eq in E0. subst k0.
    destruct (String.eqb k' k) eqn:E1; [| reflexivity].
    apply String.eqb_eq in E1. subst k'. now rewrite String.eqb_refl in E.
Qed.

Lemma pfield_spread_object (fields : list (string * jsval)) (k : string) :
  pfield (spread (JObj fields)) k = option_map FVal (own_prop fields k).
Proof.
  simpl. induction fields as [| [k0 v0] fields IH]; simpl; [reflexivity |].
  now destruct (String.eqb k k0).
Qed.

(** X10: a custom event is forwarded to the other slot of the sender's
    room (the TV for a mobile, the mobile slot for anyone else) and only to
    a connected socket.  In what is delivered, roomId, timestamp, from and
    fromDevice are the server's, whatever the sender put under those
    names, and every other property of the sender's object arrives as
    sent. *)
Theorem custom_event_forwarding (env : Env) (st : State) (sid : string)
    (data : jsval) (target : string) (p : Payload) :
  In (Emit target "custom_event" p) (snd (on_custom_event env st sid data)) ->
  (exists rid room,
      sk_roomId (sock st sid) = Some rid
      /\ rooms_get rid (rooms st) = Some room
      /\ (if is_mobile (deviceType (sock st sid)) then tv room else mobile room)
         = Some target
      /\ connected (sock st target) = true)
  /\ pfield p "roomId" = Some (FVal (roomId_val (sock st sid)))
  /\ pfield p "timestamp" = Some (FTime (now env))
  /\ pfield p "from" = Some (FVal (JStr sid))
  /\ pfield p "fromDevice" = Some (FVal (deviceType_str (deviceType (sock st sid))))
  /\ forall fields k,
       data = JObj fields ->
       ~ In k ["roomId"; "timestamp"; "from"; "fromDevice"] ->
       pfield p k = option_map FVal (own_prop fields k).
Proof.
  unfold on_custom_event.
  destruct (in_room (sock st sid)) eqn:Hin; simpl negb; cbv iota;
    [| intros H; cbn [snd] in H; in_cases H; discriminate H].
  assert (Hrid : exists rid, sk_roomId (sock st sid) = Some rid).
  { unfold in_room in Hin. destruct (sk_roomId (sock st sid)); [eauto | discriminate]. }
  destruct Hrid as [rid Hrid]. rewrite Hrid. simpl default.
  destruct (rooms_get rid (rooms st)) as [room |] eqn:Hroom;
    [| intros H; cbn [snd] in H; in_cases H; discriminate H].
  destruct (prop data "eventType");
    [| intros H; cbn [snd] in H; in_cases H; discriminate H].
  set (slot := if is_mobile (deviceType (sock st sid)) then tv room else mobile room).
  destruct (live st slot) eqn:Hlive;
    [| intros H; destruct slot; cbn [snd] in H; in_cases H; discriminate H].
  destruct slot as [t |] eqn:Hslot; [| discriminate Hlive].
  intros H. cbn [snd] in H. in_cases H. injection H as -> <-.
  split; [exists rid, room; auto |].
  rewrite !pfield_pset. cbn [String.eqb Ascii.eqb Bool.eqb].
  repeat split.
  intros fields k -> Hk. rewrite !pfield_pset.
  assert (Hne : forall name, In name ["roomId"; "timestamp"; "from"; "fromDevice"] ->
                             String.eqb k name = false).
  { intros name Hname. apply String.eqb_neq. intros ->. now apply Hk. }
  rewrite !Hne by (simpl; auto).
  apply pfield_spread_object.
Qed.

Lemma custom_event_forwarding_witness :
  pfield
    (pset "fromDevice" (FVal (JStr "mobile"))
       (pset "from" (FVal (JStr "m1"))
          (pset "timestamp" (FTime 1000)
             (pset "roomId" (FVal (JStr "1234"))
                (spread (JObj [("from", JStr "someone else"); ("zoom", JNum 2)]))))))
    "from"
  = Some (FVal (JStr "m1")).
Proof.
  apply (custom_event_forwarding env0 paired "m1"
           (JObj [("from", JStr "someone else"); ("zoom", JNum 2)]) "t1").
  vm_compute. now left.
Defined.

(** * Deleting rooms *)

(** X11: cleanupRoom removes the one room named and nothing else: the code
    is gone from the table, every other room and every socket is as
    before, only connected occupants of the room are told (they are made to
    leave and sent 'room_cleanup'), and a second call for the same code
    does nothing at all. *)
Theorem cleanupRoom_removes_one_room (st : State) (roomId reason reason' : string) :
  let r := cleanupRoom st roomId reason in
  rooms_get roomId (rooms (fst r)) = None
  /\ (forall other, other <> roomId ->
                    rooms_get other (rooms (fst r)) = rooms_get other (rooms st))
  /\ sockets (fst r) = sockets st
  /\ (forall a, In a (snd r) ->
                connected (sock st (target_of a)) = true
                /\ exists room, rooms_get roomId (rooms st) = Some room
                                /\ (tv room = Some (target_of a)
                                    \/ mobile room = Some (target_of a)))
  /\ cleanupRoom (fst r) roomId reason' = (fst r, []).
Proof.
  intros r. unfold r.
  split; [rewrite cleanupRoom_rooms; apply rooms_get_delete |].
  split; [intros other Hne; rewrite cleanupRoom_rooms;
          now apply rooms_get_delete_ne |].
  split; [apply cleanupRoom_sockets |].
  split.
  - unfold cleanupRoom.
    destruct (rooms_get roomId (rooms st)) as [room |]; [| intros a []].
    cbn [snd]. intros a Hin. apply in_app_or in Hin.
    destruct Hin as [Hin | Hin].
    + destruct (tv room) as [t |] eqn:Ht; [| destruct Hin].
      destruct (connected (sock st t)) eqn:Hc; [| destruct Hin].
      in_cases Hin; subst a; simpl; eauto.
    + destruct (mobile room) as [m |] eqn:Hm; [| destruct Hin].
      destruct (connected (sock st m)) eqn:Hc; [| destruct Hin].
      in_cases Hin; subst a; simpl; eauto.
  - pose proof (cleanupRoom_rooms st roomId reason) as Hr.
    destruct (cleanupRoom st roomId reason) as [st1 tr1]. simpl in *.
    unfold cleanupRoom. now rewrite Hr, rooms_get_delete.
Qed.

(** * The health sweep *)

Lemma unhealthy_room_untouched (env : Env) (st : State) (roomId : string) :
  (forall room, rooms_get roomId (rooms st) = Some room -> healthy_room env st room) ->
  unhealthy_room env st roomId = (st, []).
Proof.
  intros H. unfold unhealthy_room.
  destruct (rooms_get roomId (rooms st)) as [room |] eqn:Hroom; [| reflexivity].
  specialize (H room eq_refl).
  assert (Hm : check_mobile env st roomId room = (st, [], false)).
  { unfold check_mobile. destruct (mobile room) as [m |] eqn:E; [| reflexivity].
    now rewrite (H m (or_intror E)). }
  rewrite Hm. unfold the_room. rewrite Hroom. simpl default.
  assert (Ht : check_tv env st roomId room false = (st, [], false)).
  { unfold check_tv. destruct (tv room) as [t |] eqn:E; [| reflexivity].
    now rewrite (H t (or_introl E)). }
  now rewrite Ht.
Qed.

Lemma for_rooms_untouched (f : State -> string -> State * Trace) (st : State)
    (ks : list string) :
  (forall k, In k ks -> f st k = (st, [])) -> for_rooms f st ks = (st, []).
Proof.
  induction ks as [| k ks IH]; intros H; simpl; [reflexivity |].
  rewrite (H k (or_introl eq_refl)), IH; [reflexivity |].
  intros k' Hk'. apply H. now right.
Qed.

(** X12: when every occupant of every room is connected and has answered a
    ping within the last two minutes, or has not answered any ping yet, the
    health sweep changes nothing and sends nothing. *)
Theorem healthy_rooms_are_left_alone (env : Env) (st : State) :
  (forall roomId room, rooms_get roomId (rooms st) = Some room ->
                       healthy_room env st room) ->
  unhealthy_sweep env st = (st, []).
Proof.
  intros H. unfold unhealthy_sweep. apply for_rooms_untouched.
  intros k _. apply unhealthy_room_untouched. intros room. apply H.
Qed.

Lemma healthy_rooms_are_left_alone_witness :
  unhealthy_sweep (mkEnv 500000 (fun _ => 0%Q)) paired = (paired, []).
Proof.
  apply healthy_rooms_are_left_alone.
  intros roomId room Hget id Hid.
  assert (Hroom : room = mkRoom (Some "t1") (Some "m1") 1000).
  { change (rooms paired) with [("1234", mkRoom (Some "t1") (Some "m1") 1000)] in Hget.
    cbn [rooms_get] in Hget.
    destruct (String.eqb roomId "1234"); [now injection Hget as <- | discriminate]. }
  subst room. simpl in Hid. destruct Hid as [[= <-] | [= <-]]; reflexivity.
Defined.

(** X13: a pong restarts the clock of the health sweep: a connected socket
    whose pong the server handled at most two minutes ago is not found
    unhealthy. *)
Theorem pong_keeps_alive (env env' : Env) (st : State) (sid : string) :
  connected (sock st sid) = true ->
  now env' - now env <= 120000 ->
  let st' := fst (on_pong env st sid) in
  isUnhealthy env' (sock st' sid) 120000 = false
  /\ isHealthy (sock st' sid) = true
  /\ rooms st' = rooms st /\ snd (on_pong env st sid) = [].
Proof.
  intros Hc Hn st'. unfold st', on_pong. cbn [fst snd].
  rewrite sock_set_sock. unfold isUnhealthy. cbn [connected lastPong isHealthy].
  rewrite Hc. repeat split.
  simpl. apply Z.ltb_ge. exact Hn.
Qed.

Lemma pong_keeps_alive_witness :
  isUnhealthy (mkEnv 100000 (fun _ => 0%Q))
              (sock (fst (on_pong env0 paired "m1")) "m1") 120000 = false.
Proof.
  apply (pong_keeps_alive env0 (mkEnv 100000 (fun _ => 0%Q)) paired "m1");
    [reflexivity | simpl; lia].
Defined.

(** * What a disconnect does to the rooms *)





Lemma vacate_tv_holder (env : Env) (st : State) (sid reason roomId : string)
    (room : Room) :
  deviceType (sock st sid) = Some TV -> tv room = Some sid ->
  vacate env st sid reason roomId room
  = (with_stats (with_rooms st (rooms_set roomId (set_tv None room) (rooms st)))
       (set_tvConnections (dec0 (tvConnections (stats st))) (stats st)),
     match mobile room with
     | Some m => if connected (sock st m)
                 then [Emit m "tv_disconnected" (gone env sid reason)] else []
     | None => []
     end).
Proof.
  intros Hdev Htv. unfold vacate. rewrite Hdev, Htv. simpl.
  now rewrite String.eqb_refl.
Qed.

(** X15: the disconnect of the socket that holds the TV slot of its room.
    If the mobile of the room is connected, the slot is emptied, the room
    stays, tvConnections goes down by one (not below zero) and the mobile
    is sent one 'tv_disconnected' naming the TV and the reason.  If no
    connected mobile is there, the room is deleted and nobody is told. *)
Theorem tv_holder_disconnects (env : Env) (st : State) (sid reason rid : string)
    (room : Room) :
  sk_roomId (sock st sid) = Some rid -> rid <> EmptyString ->
  deviceType (sock st sid) = Some TV ->
  rooms_get rid (rooms st) = Some room ->
  tv room = Some sid ->
  let r := on_disconnect env st sid reason in
  (forall m, mobile room = Some m -> connected (sock st m) = true ->
             rooms_get rid (rooms (fst r)) = Some (set_tv None room)
             /\ tvConnections (stats (fst r)) = dec0 (tvConnections (stats st))
             /\ snd r = [Emit m "tv_disconnected" (gone env sid reason)])
  /\ (live st (mobile room) = false ->
      rooms_get rid (rooms (fst r)) = None /\ snd r = []).
Proof.
  intros Hrid Hne Hdev Hroom Htv r. unfold r, on_disconnect.
  set (st0 := with_stats st _).
  change (sock st0 sid) with (sock st sid). change (rooms st0) with (rooms st).
  unfold in_room. rewrite Hrid, (eqb_empty_false _ Hne). simpl negb. cbv iota.
  simpl default. rewrite Hroom.
  rewrite (vacate_tv_holder env st0 sid reason rid room Hdev Htv).
  set (st2 := with_stats (with_rooms st0 _) _).
  assert (Hget : rooms_get rid (rooms st2) = Some (set_tv None room))
    by apply rooms_get_set.
  unfold the_room. rewrite Hget. simpl default. cbn [tv mobile set_tv].
  change (live st2) with (live st). cbn [live negb andb].
  split.
  - intros m Hm Hc. rewrite Hm. cbn [live]. rewrite Hc. cbn [negb fst snd].
    split; [exact Hget |]. split; [reflexivity |].
    change (sock st0 m) with (sock st m). now rewrite Hc.
  - intros Hlive. rewrite Hlive. cbn [negb].
    assert (Hquiet : match mobile room with
                     | Some m => if connected (sock st0 m)
                                 then [Emit m "tv_disconnected" (gone env sid reason)]
                                 else []
                     | None => []
                     end = []).
    { destruct (mobile room) as [m |]; [| reflexivity].
      simpl in Hlive. change (sock st0 m) with (sock st m). now rewrite Hlive. }
    rewrite Hquiet.
    unfold cleanupRoom. rewrite Hget. cbn [fst snd tv mobile set_tv app].
    change (rooms (with_stats (with_rooms st2 (rooms_delete rid (rooms st2))) _))
      with (rooms_delete rid (rooms st2)).
    split; [apply rooms_get_delete |].
    destruct (mobile room) as [m |]; [| reflexivity].
    simpl in Hlive. change (sock st2 m) with (sock st m). now rewrite Hlive.
Qed.

Lemma tv_holder_disconnects_witness :
  snd (on_disconnect env0 (transport_close paired "t1") "t1" "ping timeout")
  = [Emit "m1" "tv_disconnected" (gone env0 "t1" "ping timeout")].
Proof.
  apply (proj1 (tv_holder_disconnects env0 (transport_close paired "t1") "t1"
                  "ping timeout" "1234" (mkRoom (Some "t1") (Some "m1") 1000)
                  eq_refl ltac:(discriminate) eq_refl eq_refl eq_refl)
           "m1" eq_refl eq_refl).
Defined.

(** * The snapshot helpers *)

Lemma filter_length_le {A : Type} (f g : A -> bool) (l : list A) :
  (forall x, f x = true -> g x = true) ->
  (length (filter f l) <= length (filter g l))%nat.
Proof.
  intros Hfg. induction l as [| x l IH]; [reflexivity |].
  rewrite !filter_cons.
  destruct (decide (f x)) as [Hf | Hf], (decide (g x)) as [Hg | Hg]; simpl; try lia.
  exfalso. apply Hg. apply Is_true_true. apply Hfg. now apply Is_true_true.
Qed.

Lemma filter_length_bound {A : Type} (f : A -> bool) (l : list A) :
  (length (filter f l) <= length l)%nat.
Proof.
  induction l as [| x l IH]; [reflexivity |].
  rewrite filter_cons. destruct (decide (f x)); simpl; lia.
Qed.

(** X16: in every state the figures of getConnectionStatus are ordered:
    the fully connected rooms are at most the connected TVs and at most
    the connected mobiles, each of which is at most the number of rooms,
    and none is negative. *)
Theorem connection_status_bounds (st : State) :
  let s := getConnectionStatus st in
  0 <= fullyConnectedRooms s
  /\ fullyConnectedRooms s <= connectedTVs s
  /\ fullyConnectedRooms s <= connectedMobiles s
  /\ connectedTVs s <= totalRooms s
  /\ connectedMobiles s <= totalRooms s.
Proof.
  intros s. unfold s, getConnectionStatus, count_rooms, rooms_size.
  cbn [fullyConnectedRooms connectedTVs connectedMobiles totalRooms]. cbv beta.
  pose proof (filter_length_le
                (fun kr : string * Room =>
                   filled (tv (snd kr)) && filled (mobile (snd kr))
                   && live st (tv (snd kr)) && live st (mobile (snd kr)))
                (fun kr => live st (tv (snd kr))) (rooms st)) as H1.
  pose proof (filter_length_le
                (fun kr : string * Room =>
                   filled (tv (snd kr)) && filled (mobile (snd kr))
                   && live st (tv (snd kr)) && live st (mobile (snd kr)))
                (fun kr => live st (mobile (snd kr))) (rooms st)) as H2.
  pose proof (filter_length_bound (fun kr : string * Room => live st (tv (snd kr)))
                (rooms st)) as H3.
  pose proof (filter_length_bound (fun kr : string * Room => live st (mobile (snd kr)))
                (rooms st)) as H4.
  assert (H1' := H1 ltac:(intros x Hx;
                          repeat (apply andb_true_iff in Hx; destruct Hx as [Hx ?]);
                          assumption)).
  assert (H2' := H2 ltac:(intros x Hx;
                          repeat (apply andb_true_iff in Hx; destruct Hx as [Hx ?]);
                          assumption)).
  cbv beta in *. clear H1 H2.
  lia.
Qed.

Lemma rooms_get_In (k : string) (room : Room) (l : list (string * Room)) :
  rooms_get k l = Some room -> In (k, room) l.
Proof.
  induction l as [| [k' r'] l IH]; simpl; [discriminate |].
  destruct (String.eqb k k') eqn:E.
  - apply String.eqb_eq in E. subst. intros [= ->]. now left.
  - intros H. right. now apply IH.
Qed.

Lemma In_rooms_get (k : string) (room : Room) (l : list (string * Room)) :
  In (k, room) l -> exists room0, rooms_get k l = Some room0.
Proof.
  induction l as [| [k' r'] l IH]; simpl; [tauto |].
  intros [[= -> ->] | H].
  - rewrite String.eqb_refl. eauto.
  - destruct (String.eqb k k'); [eauto | now apply IH].
Qed.

(** X17: the room list served by /api/rooms and /api/status never holds a
    null, and every room in it reports a TV or a mobile; a device reported
    as connected is also reported as present. *)
Theorem rooms_list_entries (evs : list (Env * Event)) (entry : option RoomInfo) :
  In entry (roomsList (fst (run init evs))) ->
  exists info,
    entry = Some info
    /\ hasTV info || hasMobile info = true
    /\ (tvConnected info = true -> hasTV info = true)
    /\ (mobileConnected info = true -> hasMobile info = true)
    /\ (hasTV info = true <-> tvId info <> None).
Proof.
  set (st := fst (run init evs)).
  assert (Hok : table_ok st) by (apply run_ok; constructor).
  unfold roomsList. intros Hin. apply in_map_iff in Hin.
  destruct Hin as ([k room] & <- & Hin). simpl fst.
  destruct (In_rooms_get k room _ Hin) as [room0 Hget].
  unfold getRoomInfo. rewrite Hget. eexists. split; [reflexivity |]. simpl.
  assert (Hocc : occupied room0 = true).
  { unfold table_ok, rooms_ok in Hok. rewrite List.Forall_forall in Hok.
    apply (Hok (k, room0)). now apply rooms_get_In. }
  unfold occupied in Hocc. unfold live.
  destruct (tv room0), (mobile room0); simpl; try discriminate Hocc;
    repeat split; try discriminate; try tauto; congruence.
Qed.

Lemma rooms_list_entries_witness :
  exists info,
    getRoomInfo paired "1234" = Some info /\ hasTV info || hasMobile info = true.
Proof.
  destruct (rooms_list_entries
              [(env0, EvConnection "t1");
               (env0, EvRegisterTv "t1" (JObj [("roomId", JStr "1234")]));
               (env0, EvConnection "m1");
               (env0, EvRegisterMobile "m1" (JObj [("roomId", JStr "1234")]))]
              (getRoomInfo paired "1234") (or_introl eq_refl))
    as (info & Hinfo & Hocc & _).
  exists info. split; [exact Hinfo | exact Hocc].
Defined.

(** * The expiry sweep *)

Lemma for_rooms_cleanup_get (reason : string) (ks : list string) :
  forall st k,
    rooms_get k (rooms (fst (for_rooms (fun s roomId => cleanupRoom s roomId reason)
                               st ks)))
    = if existsb (String.eqb k) ks then None else rooms_get k (rooms st).
Proof.
  induction ks as [| k0 ks IH]; intros st k; simpl; [reflexivity |].
  pose proof (cleanupRoom_rooms st k0 reason) as Hr.
  destruct (cleanupRoom st k0 reason) as [st1 tr1]. simpl in Hr.
  specialize (IH st1 k).
  destruct (for_rooms (fun s roomId => cleanupRoom s roomId reason) st1 ks)
    as [st2 tr2]. simpl in *.
  rewrite IH, Hr.
  destruct (String.eqb k k0) eqn:E; simpl.
  - apply String.eqb_eq in E. subst k0.
    rewrite rooms_get_delete. now destruct (existsb (String.eqb k) ks).
  - apply String.eqb_neq in E. now rewrite rooms_get_delete_ne.
Qed.

Lemma for_rooms_cleanup_sockets (reason : string) (ks : list string) :
  forall st,
    sockets (fst (for_rooms (fun s roomId => cleanupRoom s roomId reason) st ks))
    = sockets st.
Proof.
  induction ks as [| k0 ks IH]; intros st; simpl; [reflexivity |].
  pose proof (cleanupRoom_sockets st k0 reason) as Hs.
  destruct (cleanupRoom st k0 reason) as [st1 tr1]. simpl in Hs.
  specialize (IH st1).
  destruct (for_rooms (fun s roomId => cleanupRoom s roomId reason) st1 ks)
    as [st2 tr2]. simpl in *. congruence.
Qed.

Lemma keys_unique (k : string) (r1 r2 : Room) (l : list (string * Room)) :
  NoDup (keys l) -> In (k, r1) l -> In (k, r2) l -> r1 = r2.
Proof.
  induction l as [| [k' r'] l IH]; simpl; [tauto |].
  intros Hnd. apply NoDup_cons in Hnd. destruct Hnd as [Hnot Hnd].
  assert (Hkey : forall r, In (k', r) l -> False).
  { intros r Hr. apply Hnot. apply list_elem_of_In.
    apply in_map_iff. exists (k', r). auto. }
  intros [[= -> ->] | H1] [[= ->] | H2]; try congruence.
  - exfalso. eauto.
  - subst. exfalso. eauto.
  - now apply IH.
Qed.

(** X18: the expiry sweep deletes exactly the rooms that, when it starts,
    are older than thirty minutes and have no connected occupant; every
    other room is kept as it is, and no socket is touched. *)
Theorem expiry_sweep_removes_expired (evs : list (Env * Event)) (env : Env)
    (k : string) :
  let st := fst (run init evs) in
  rooms_get k (rooms (fst (expiry_sweep env st)))
  = match rooms_get k (rooms st) with
    | Some room => if expired env st room then None else Some room
    | None => None
    end
  /\ sockets (fst (expiry_sweep env st)) = sockets st.
Proof.
  intros st.
  assert (Hnd : NoDup (keys (rooms st)))
    by exact (proj1 (run_keeps consistent step_consistent evs init init_consistent)).
  unfold expiry_sweep. split; [| apply for_rooms_cleanup_sockets].
  rewrite for_rooms_cleanup_get.
  set (doomed := map fst (filter (fun kr => expired env st (snd kr)) (rooms st))).
  assert (Hdoomed : existsb (String.eqb k) doomed = true <->
                    exists room, In (k, room) (rooms st) /\ expired env st room = true).
  { rewrite existsb_exists. split.
    - intros (x & Hin & Heq). apply String.eqb_eq in Heq. subst x.
      apply in_map_iff in Hin. destruct Hin as ([k' room] & Hk & Hin).
      simpl in Hk. subst k'. apply list_elem_of_In, list_elem_of_filter in Hin.
      destruct Hin as [Hexp Hin]. exists room.
      split; [now apply list_elem_of_In | now apply Is_true_true].
    - intros (room & Hin & Hexp). exists k. split; [| apply String.eqb_refl].
      apply in_map_iff. exists (k, room). split; [reflexivity |].
      apply list_elem_of_In, list_elem_of_filter.
      split; [now apply Is_true_true | now apply list_elem_of_In]. }
  destruct (rooms_get k (rooms st)) as [room |] eqn:Hget.
  - destruct (expired env st room) eqn:Hexp.
    + assert (H : existsb (String.eqb k) doomed = true).
      { apply Hdoomed. exists room. split; [now apply rooms_get_In | exact Hexp]. }
      now rewrite H.
    + destruct (existsb (String.eqb k) doomed) eqn:H; [| reflexivity].
      destruct (proj1 Hdoomed eq_refl) as (room' & Hin & Hexp').
      rewrite (keys_unique k room' room (rooms st) Hnd Hin (rooms_get_In _ _ _ Hget))
        in Hexp'.
      congruence.
  - destruct (existsb (String.eqb k) doomed) eqn:H; [| reflexivity].
    destruct (proj1 Hdoomed eq_refl) as (room' & Hin & _).
    exfalso. apply (rooms_get_None k (rooms st) Hget).
    apply in_map_iff. exists (k, room'). auto.
Qed.

(** * Messages from the HTTP route and notifyRoomDevices *)



(** X20: notifyRoomDevices sends the named event only to connected
    occupants of the named room and never to the excluded socket; roomId
    and timestamp of what it sends are the room code and the server's
    clock, whatever the data held under those names. *)
Theorem notifyRoomDevices_targets (env : Env) (st : State)
    (roomId eventName : string) (data : jsval) (excludeSocket : option string)
    (a : Action) :
  In a (notifyRoomDevices env st roomId eventName data excludeSocket) ->
  exists id p room,
    a = Emit id eventName p
    /\ rooms_get roomId (rooms st) = Some room
    /\ (tv room = Some id \/ mobile room = Some id)
    /\ connected (sock st id) = true
    /\ excludeSocket <> Some id
    /\ pfield p "roomId" = Some (FVal (JStr roomId))
    /\ pfield p "timestamp" = Some (FTime (now env)).
Proof.
  unfold notifyRoomDevices.
  destruct (rooms_get roomId (rooms st)) as [room |]; [| intros []].
  assert (Hslot : forall slot id,
            slot = Some id ->
            connected (sock st id) && not_excluded slot excludeSocket = true ->
            connected (sock st id) = true /\ excludeSocket <> Some id).
  { intros slot id -> H. apply andb_true_iff in H. destruct H as [Hc Hx].
    split; [exact Hc |]. intros ->. simpl in Hx.
    now rewrite String.eqb_refl in Hx. }
  assert (Hp : forall p,
            p = pset "roomId" (FVal (JStr roomId))
                  (pset "timestamp" (FTime (now env)) (spread data)) ->
            pfield p "roomId" = Some (FVal (JStr roomId))
            /\ pfield p "timestamp" = Some (FTime (now env))).
  { intros p ->. rewrite !pfield_pset. split; reflexivity. }
  intros Hin. apply in_app_or in Hin. destruct Hin as [Hin | Hin].
  - destruct (tv room) as [t |] eqn:Ht; [| destruct Hin].
    destruct (connected (sock st t) && not_excluded (Some t) excludeSocket) eqn:E;
      [| destruct Hin].
    in_cases Hin. subst a.
    destruct (Hslot _ t eq_refl E) as [Hc Hx].
    destruct (Hp _ eq_refl) as [H1 H2].
    exists t. eexists. exists room. repeat split; eauto.
  - destruct (mobile room) as [m |] eqn:Hmo; [| destruct Hin].
    destruct (connected (sock st m) && not_excluded (Some m) excludeSocket) eqn:E;
      [| destruct Hin].
    in_cases Hin. subst a.
    destruct (Hslot _ m eq_refl E) as [Hc Hx].
    destruct (Hp _ eq_refl) as [H1 H2].
    exists m. eexists. exists room. repeat split; eauto.
Qed.

Lemma notifyRoomDevices_targets_witness :
  notifyRoomDevices env0 paired "1234" "note" (JObj [("n", JNum 1)]) (Some "t1")
  = [Emit "m1" "note"
       [("n", FVal (JNum 1)); ("timestamp", FTime 1000);
        ("roomId", FVal (JStr "1234"))]].
Proof.
  assert (Hin : In (Emit "m1" "note"
                      [("n", FVal (JNum 1)); ("timestamp", FTime 1000);
                       ("roomId", FVal (JStr "1234"))])
                   (notifyRoomDevices env0 paired "1234" "note"
                      (JObj [("n", JNum 1)]) (Some "t1")))
    by (vm_compute; now left).
  destruct (notifyRoomDevices_targets env0 paired "1234" "note"
              (JObj [("n", JNum 1)]) (Some "t1") _ Hin) as (id & p & room & _).
  vm_compute. reflexivity.
Defined.

(** * server.js: the single-slot server *)

Lemma v1_presentation_action_relay (env : Env) (clients : V1.Clients)
    (d : option DeviceType) (sid : string) (data : jsval) :
  V1.presentation_action env clients d sid data
  = V1.relay "presentation_action" "INVALID_ACTION" "Invalid presentation action"
      (fun data => match prop data "action" with
                   | Some a => Some (V1.includes V1.validActions a)
                   | None => None
                   end)
      env clients d sid data.
Proof.
  unfold V1.presentation_action, V1.relay.
  destruct (if is_mobile d then V1.tv clients else None); [| reflexivity].
  destruct (prop data "action") as [a |]; [| reflexivity].
  now destruct (V1.includes V1.validActions a).
Qed.

Lemma v1_relay_outcome (event code message : string) (valid : jsval -> option bool)
    (env : Env) (clients : V1.Clients) (d : option DeviceType) (sid : string)
    (data : jsval) :
  (exists e, V1.relay event code message valid env clients d sid data
             = [Emit sid "error" e])
  \/ (d = Some Mobile
      /\ exists t p,
           V1.tv clients = Some t
           /\ V1.relay event code message valid env clients d sid data
              = [Emit t event p]
           /\ pfield p "timestamp" = Some (FTime (now env))
           /\ pfield p "from" = Some (FVal (JStr sid))
           /\ forall fields k,
                data = JObj fields -> k <> "timestamp" -> k <> "from" ->
                pfield p k = option_map FVal (own_prop fields k)).
Proof.
  unfold V1.relay.
  destruct d as [[|] |]; simpl is_mobile; cbv iota; try (left; eauto; fail).
  destruct (V1.tv clients) as [t |]; [| left; eauto].
  destruct (valid data) as [[|] |]; try (left; eauto; fail).
  right. split; [reflexivity |]. exists t. eexists.
  split; [reflexivity |]. split; [reflexivity |].
  rewrite !pfield_pset. repeat split.
  intros fields k -> Hts Hfrom. rewrite !pfield_pset.
  apply String.eqb_neq in Hts. apply String.eqb_neq in Hfrom.
  rewrite Hts, Hfrom. apply pfield_spread_object.
Qed.

(** X21: each of the six relay events of server.js ends in exactly one
    message: an error to the sender, or, only for a sender registered as
    mobile and with the TV slot filled, the event to that TV.  What the TV
    gets is the sender's object with timestamp and from replaced by the
    server's clock and the sender's id; every other property, known to the
    handler or not, arrives as sent. *)
Theorem v1_relay_forwards_whole_object (k : V1.Relayed) (env : Env)
    (clients : V1.Clients) (d : option DeviceType) (sid : string) (data : jsval) :
  (exists e, V1.on_relayed k env clients d sid data = [Emit sid "error" e])
  \/ (d = Some Mobile
      /\ exists t p,
           V1.tv clients = Some t
           /\ V1.on_relayed k env clients d sid data
              = [Emit t (V1.relayed_name k) p]
           /\ pfield p "timestamp" = Some (FTime (now env))
           /\ pfield p "from" = Some (FVal (JStr sid))
           /\ forall fields key,
                data = JObj fields -> key <> "timestamp" -> key <> "from" ->
                pfield p key = option_map FVal (own_prop fields key)).
Proof.
  destruct k; simpl V1.on_relayed; simpl V1.relayed_name;
    try rewrite v1_presentation_action_relay; apply v1_relay_outcome.
Qed.




(** X23: in server.js a registration into an empty slot followed by the
    disconnect of the same socket is a round trip: both slots and the
    counter of that device type are as before the registration, the other
    device counter is untouched, and currentConnections is one lower. *)
Theorem v1_register_disconnect_round_trip (env env' : Env) (st : V1.State)
    (sid reason : string) (data : jsval) :
  (prop data "deviceType" = Some (JStr "mobile") ->
   V1.mobile (V1.clients st) = None ->
   let st2 := fst (V1.on_disconnect env'
                     (fst (V1.register env st sid data)) sid reason) in
   V1.clients st2 = V1.clients st
   /\ V1.mobileConnections (V1.stats st2) = V1.mobileConnections (V1.stats st)
   /\ V1.tvConnections (V1.stats st2) = V1.tvConnections (V1.stats st)
   /\ V1.currentConnections (V1.stats st2)
      = V1.currentConnections (V1.stats st) - 1)
  /\ (prop data "deviceType" = Some (JStr "tv") ->
      V1.tv (V1.clients st) = None ->
      let st2 := fst (V1.on_disconnect env'
                        (fst (V1.register env st sid data)) sid reason) in
      V1.clients st2 = V1.clients st
      /\ V1.tvConnections (V1.stats st2) = V1.tvConnections (V1.stats st)
      /\ V1.mobileConnections (V1.stats st2) = V1.mobileConnections (V1.stats st)
      /\ V1.currentConnections (V1.stats st2)
         = V1.currentConnections (V1.stats st) - 1).
Proof.
  split; intros Hd Hslot st2; unfold st2, V1.register; rewrite Hd;
    cbn [V1.validateDeviceType V1.includes existsb String.eqb Ascii.eqb Bool.eqb
         orb negb];
    cbn [fst]; unfold V1.on_disconnect, V1.set_deviceType, V1.sock;
    cbn [V1.clients V1.sockets V1.stats];
    rewrite lookup_insert_eq; cbn [default V1.deviceType fst];
    cbn [V1.clients V1.stats V1.mobile V1.tv V1.mobileConnections
         V1.tvConnections V1.currentConnections V1.totalConnections];
    rewrite Hslot; cbn [V1.replaced];
    destruct (V1.clients st) as [m t]; simpl in *; subst;
    repeat split; lia.
Qed.

Lemma v1_register_disconnect_round_trip_witness :
  V1.clients (fst (V1.on_disconnect env0
                     (fst (V1.register env0 V1.init "t1"
                             (JObj [("deviceType", JStr "tv")])))
                     "t1" "transport close"))
  = V1.clients V1.init.
Proof.
  exact (proj1 (proj2 (v1_register_disconnect_round_trip env0 env0 V1.init "t1"
                         "transport close" (JObj [("deviceType", JStr "tv")]))
                  eq_refl eq_refl)).
Defined.

(** * Registration and disconnect as a round trip *)

Lemma rooms_delete_absent (k : string) (l : list (string * Room)) :
  rooms_get k l = None -> rooms_delete k l = l.
Proof.
  induction l as [| [k' r'] l IH]; simpl; [reflexivity |].
  destruct (String.eqb k k'); [discriminate |].
  intros H. now rewrite IH.
Qed.

Lemma tv_alone_disconnects (env : Env) (st : State) (sid reason rid : string)
    (room : Room) :
  sk_roomId (sock st sid) = Some rid -> rid <> EmptyString ->
  deviceType (sock st sid) = Some TV ->
  rooms_get rid (rooms st) = Some room ->
  tv room = Some sid -> mobile room = None ->
  let r := on_disconnect env st sid reason in
  rooms (fst r) = rooms_delete rid (rooms st)
  /\ tvConnections (stats (fst r)) = dec0 (tvConnections (stats st))
  /\ mobileConnections (stats (fst r)) = mobileConnections (stats st)
  /\ activeRooms (stats (fst r)) = rooms_size (rooms (fst r))
  /\ snd r = [].
Proof.
  intros Hrid Hne Hdev Hroom Htv Hmob r. unfold r, on_disconnect.
  set (st0 := with_stats st _).
  change (sock st0 sid) with (sock st sid). change (rooms st0) with (rooms st).
  unfold in_room. rewrite Hrid, (eqb_empty_false _ Hne). simpl negb. cbv iota.
  simpl default. rewrite Hroom.
  rewrite (vacate_tv_holder env st0 sid reason rid room Hdev Htv).
  set (st2 := with_stats (with_rooms st0 _) _).
  assert (Hget : rooms_get rid (rooms st2) = Some (set_tv None room))
    by apply rooms_get_set.
  unfold the_room. rewrite Hget. simpl default. cbn [tv mobile set_tv].
  rewrite Hmob. cbn [live negb andb].
  unfold cleanupRoom. rewrite Hget. cbn [fst snd tv mobile set_tv app].
  rewrite Hmob. cbn [rooms stats sockets with_stats with_rooms app].
  unfold st2. cbn [rooms stats sockets with_stats with_rooms].
  rewrite rooms_delete_set. repeat split.
Qed.

(** X24: in the room server a TV that registers under a code not yet in
    the table and then disconnects, with nobody having joined, leaves no
    trace in the table: the rooms are exactly those from before the
    registration, activeRooms and both device counters are back at their
    old values, and the disconnect notifies nobody. *)
Theorem register_tv_disconnect_round_trip (env env' : Env) (st : State)
    (sid reason code : string) (data : jsval) :
  tv_roomId env data = Some code ->
  code <> EmptyString ->
  rooms_get code (rooms st) = None ->
  activeRooms (stats st) = rooms_size (rooms st) ->
  0 <= tvConnections (stats st) ->
  let st1 := fst (register_tv env st sid data) in
  let r := step env' st1 (EvDisconnect sid reason) in
  rooms (fst r) = rooms st
  /\ activeRooms (stats (fst r)) = activeRooms (stats st)
  /\ tvConnections (stats (fst r)) = tvConnections (stats st)
  /\ mobileConnections (stats (fst r)) = mobileConnections (stats st)
  /\ snd r = [].
Proof.
  intros Hid Hne Hnone Hact Htv st1 r.
  assert (Hst1 : rooms st1 = rooms_set code (mkRoom (Some sid) None (now env)) (rooms st)
                 /\ tvConnections (stats st1) = tvConnections (stats st) + 1
                 /\ mobileConnections (stats st1) = mobileConnections (stats st)
                 /\ sk_roomId (sock st1 sid) = Some code
                 /\ deviceType (sock st1 sid) = Some TV).
  { unfold st1, register_tv. rewrite Hid.
    unfold replace_tv. rewrite Hnone. cbn [fst].
    rewrite !sock_with_stats, !sock_set_sock.
    cbn [set_registration sk_roomId deviceType].
    cbn [rooms stats with_stats set_sock with_sockets with_rooms].
    unfold ensure_room, rooms_has, the_room. rewrite Hnone.
    cbn [rooms stats with_stats with_rooms]. rewrite rooms_get_set. simpl default.
    rewrite rooms_set_set. repeat split. }
  destruct Hst1 as (Hrooms & Htv1 & Hmob1 & Hrid & Hdev).
  set (st1c := transport_close st1 sid).
  assert (Hsock : sk_roomId (sock st1c sid) = Some code
                  /\ deviceType (sock st1c sid) = Some TV).
  { unfold st1c, transport_close. rewrite sock_set_sock. simpl. auto. }
  destruct Hsock as [Hridc Hdevc].
  assert (Hroomc : rooms_get code (rooms st1c)
                   = Some (mkRoom (Some sid) None (now env))).
  { unfold st1c, transport_close. cbn [rooms set_sock with_sockets].
    rewrite Hrooms. apply rooms_get_set. }
  destruct (tv_alone_disconnects env' st1c sid reason code _ Hridc Hne Hdevc Hroomc
              eq_refl eq_refl) as (Hr & Ht & Hm & Ha & Htr).
  unfold r. cbn [step]. fold st1c.
  split; [| split; [| split; [| split]]].
  - rewrite Hr. unfold st1c, transport_close. cbn [rooms set_sock with_sockets].
    rewrite Hrooms, rooms_delete_set. now apply rooms_delete_absent.
  - rewrite Ha, Hr. unfold st1c, transport_close. cbn [rooms set_sock with_sockets].
    rewrite Hrooms, rooms_delete_set, (rooms_delete_absent _ _ Hnone). now symmetry.
  - rewrite Ht. unfold st1c, transport_close. cbn [stats set_sock with_sockets].
    rewrite Htv1. unfold dec0. lia.
  - rewrite Hm. unfold st1c, transport_close. cbn [stats set_sock with_sockets].
    exact Hmob1.
  - exact Htr.
Qed.

Lemma register_tv_disconnect_round_trip_witness :
  rooms (fst (step env0
                (fst (register_tv env0 (fst (step env0 init (EvConnection "t1"))) "t1"
                        (JObj [("roomId", JStr "1234")])))
                (EvDisconnect "t1" "transport close")))
  = [].
Proof.
  apply (register_tv_disconnect_round_trip env0 env0
           (fst (step env0 init (EvConnection "t1"))) "t1" "transport close" "1234"
           (JObj [("roomId", JStr "1234")]));
    [reflexivity | discriminate | reflexivity | reflexivity | vm_compute; discriminate].
Defined.

Lemma vacate_mobile_holder (env : Env) (st : State) (sid reason roomId : string)
    (room : Room) :
  deviceType (sock st sid) = Some Mobile -> mobile room = Some sid ->
  vacate env st sid reason roomId room
  = (with_stats (with_rooms st (rooms_set roomId (set_mobile None room) (rooms st)))
       (set_mobileConnections (dec0 (mobileConnections (stats st))) (stats st)),
     match tv room with
     | Some t => if connected (sock st t)
                 then [Emit t "mobile_disconnected" (gone env sid reason)] else []
     | None => []
     end).
Proof.
  intros Hdev Hm. unfold vacate. rewrite Hdev, Hm. simpl.
  now rewrite String.eqb_refl.
Qed.

(** X25: the disconnect of the socket that holds the mobile slot of its
    room.  If the TV of the room is connected, the slot is emptied, the TV
    keeps its slot, mobileConnections goes down by one (not below zero)
    and the TV is sent one 'mobile_disconnected' naming the mobile and the
    reason.  If no connected TV is there, the room is deleted and nobody
    is told. *)
Theorem mobile_holder_disconnects (env : Env) (st : State) (sid reason rid : string)
    (room : Room) :
  sk_roomId (sock st sid) = Some rid -> rid <> EmptyString ->
  deviceType (sock st sid) = Some Mobile ->
  rooms_get rid (rooms st) = Some room ->
  mobile room = Some sid ->
  let r := on_disconnect env st sid reason in
  (forall t, tv room = Some t -> connected (sock st t) = true ->
             rooms_get rid (rooms (fst r)) = Some (set_mobile None room)
             /\ mobileConnections (stats (fst r)) = dec0 (mobileConnections (stats st))
             /\ snd r = [Emit t "mobile_disconnected" (gone env sid reason)])
  /\ (live st (tv room) = false ->
      rooms_get rid (rooms (fst r)) = None /\ snd r = []).
Proof.
  intros Hrid Hne Hdev Hroom Hmob r. unfold r, on_disconnect.
  set (st0 := with_stats st _).
  change (sock st0 sid) with (sock st sid). change (rooms st0) with (rooms st).
  unfold in_room. rewrite Hrid, (eqb_empty_false _ Hne). simpl negb. cbv iota.
  simpl default. rewrite Hroom.
  rewrite (vacate_mobile_holder env st0 sid reason rid room Hdev Hmob).
  set (st2 := with_stats (with_rooms st0 _) _).
  assert (Hget : rooms_get rid (rooms st2) = Some (set_mobile None room))
    by apply rooms_get_set.
  unfold the_room. rewrite Hget. simpl default. cbn [tv mobile set_mobile].
  change (live st2) with (live st). cbn [live negb andb].
  split.
  - intros t Ht Hc. rewrite Ht. cbn [live]. rewrite Hc. cbn [negb andb fst snd].
    split; [exact Hget |]. split; [reflexivity |].
    change (sock st0 t) with (sock st t). now rewrite Hc.
  - intros Hlive. rewrite Hlive. cbn [negb andb].
    assert (Hquiet : match tv room with
                     | Some t => if connected (sock st0 t)
                                 then [Emit t "mobile_disconnected" (gone env sid reason)]
                                 else []
                     | None => []
                     end = []).
    { destruct (tv room) as [t |]; [| reflexivity].
      simpl in Hlive. change (sock st0 t) with (sock st t). now rewrite Hlive. }
    rewrite Hquiet.
    unfold cleanupRoom. rewrite Hget. cbn [fst snd tv mobile set_mobile app].
    change (rooms (with_stats (with_rooms st2 (rooms_delete rid (rooms st2))) _))
      with (rooms_delete rid (rooms st2)).
    split; [apply rooms_get_delete |].
    destruct (tv room) as [t |]; [| reflexivity].
    simpl in Hlive. change (sock st2 t) with (sock st t). rewrite Hlive.
    reflexivity.
Qed.

Lemma mobile_holder_disconnects_witness :
  snd (on_disconnect env0 (transport_close paired "m1") "m1" "client namespace disconnect")
  = [Emit "t1" "mobile_disconnected" (gone env0 "m1" "client namespace disconnect")].
Proof.
  apply (proj1 (mobile_holder_disconnects env0 (transport_close paired "m1") "m1"
                  "client namespace disconnect" "1234"
                  (mkRoom (Some "t1") (Some "m1") 1000)
                  eq_refl ltac:(discriminate) eq_refl eq_refl eq_refl)
           "t1" eq_refl eq_refl).
Defined.

(** X26: the timeout sweep of server.js disconnects nobody but the
    occupants of the two slots, and of those only one whose last pong is
    more than sixty seconds old; a socket that has not sent any pong yet is
    never disconnected by it. *)
Theorem v1_timeout_sweep_targets (env : Env) (st : V1.State) (a : Action) :
  In a (V1.timeout_sweep env st) ->
  exists id t,
    a = ForceDisconnect id
    /\ (V1.mobile (V1.clients st) = Some id \/ V1.tv (V1.clients st) = Some id)
    /\ V1.lastPong (V1.sock st id) = Some t
    /\ 60000 < now env - t.
Proof.
  assert (H : forall slot, In a (V1.timed_out env st slot) ->
                exists id t, a = ForceDisconnect id /\ slot = Some id
                             /\ V1.lastPong (V1.sock st id) = Some t
                             /\ 60000 < now env - t).
  { intros slot. unfold V1.timed_out.
    destruct slot as [id |]; [| intros []].
    destruct (V1.lastPong (V1.sock st id)) as [t |] eqn:Hp; [| intros []].
    destruct (Z.ltb 60000 (now env - t)) eqn:E; [| intros []].
    intros Hin. in_cases Hin. subst a. apply Z.ltb_lt in E.
    exists id, t. auto. }
  unfold V1.timeout_sweep. intros Hin. apply in_app_or in Hin.
  destruct Hin as [Hin | Hin]; destruct (H _ Hin) as (id & t & Ha & Hs & Hp & Ht);
    exists id, t; auto.
Qed.

Lemma v1_timeout_sweep_targets_witness :
  exists id t, ForceDisconnect "m1" = ForceDisconnect id /\ 60000 < 70000 - t.
Proof.
  destruct (v1_timeout_sweep_targets (mkEnv 70000 (fun _ => 0%Q))
              (V1.mkState (V1.mkClients (Some "m1") None)
                 {[ "m1" := V1.mkSocket (Some Mobile) (Some 0) 0 ]}
                 (V1.mkStats 1 1 1 0))
              (ForceDisconnect "m1"))
    as (id & t & Ha & _ & _ & Ht).
  - vm_compute. now left.
  - exists id, t. split; [exact Ha | exact Ht].
Defined.
